(** * mllm-filter: the confidence-gated classification loop and its drivers

    A shallow embedding of [src/filter.py]: [vision_classify],
    [text_classify], [vision_filter] and [text_filter].

    Modelling conventions.
    - Python exceptions are values of [exn]; a call that may raise returns
      a [result].
    - The encoded input is a dynamically typed Python object: either a bare
      tensor or a [BatchFeature] dictionary from string keys to tensors.
      Tensors are kept along the dimension the code appends to (batch
      size 1, as the source's docstring requires).
    - The model, the tokenizer, the processor, PIL, [str.format] and the
      private attributes of tuples are the external collaborators; they
      are fields of a [Provider].
    - Strings are ASCII strings.
    - Logits are values of a type with the three tensor operations the
      loop uses ([-], [>=] and the order of [torch.topk]).  The classifier
      is stated over every such type.  The drivers use the extended reals
      [XR], with exact subtraction and with [torch.log] as the real
      logarithm, [-inf] at zero and [nan] below it: an idealisation of
      the floating point types of the code, whose rounding it does not
      follow.  Where a statement over [XR] names a value, it is the value
      of the exact arithmetic.
    - [to_csv] is taken to write the file it is asked to write.  The call
      can fail (a delimiter that is not one character, a path that cannot
      be written); the embedding has no such failure, and what is stated
      about checkpoints is stated of writes that return and of runs that
      return. *)

From stdpp Require Import gmap strings list.
From Stdlib Require Import ZArith Reals Lra Lia.

Local Open Scope Z_scope.

(** ** Exceptions and results *)

Inductive exn : Type :=
| ZeroDivisionError
| TypeError
| ValueError
| IndexError
| KeyError
| AttributeError
| RuntimeError
| FileNotFoundError
| UnidentifiedImageError
| PermissionError
| OSError.

Inductive result (A : Type) : Type :=
| Ok (a : A)
| Raise (e : exn).
Arguments Ok {A} a.
Arguments Raise {A} e.

#[export] Instance result_ret : MRet result := fun A a => Ok a.
#[export] Instance result_bind : MBind result := fun A B k r =>
  match r with
  | Ok a => k a
  | Raise e => Raise e
  end.

(** ** Scalars of the logits tensor *)

Class Scalar (V : Type) : Type := {
  s_sub : V → V → V;        (* tensor subtraction *)
  s_geb : V → V → bool;     (* tensor [>=] *)
  s_gtb : V → V → bool      (* strict order used by [torch.topk] *)
}.

#[export] Instance Z_Scalar : Scalar Z := {
  s_sub := Z.sub;
  s_geb := Z.geb;
  s_gtb := Z.gtb
}.

(** Extended reals: the values a floating point tensor can hold, taken
    without rounding. *)
Inductive XR : Type :=
| Fin (x : R)
| PInf
| NInf
| NaN.

Definition Rgeb (x y : R) : bool := if Rge_dec x y then true else false.
Definition Rgtb (x y : R) : bool := if Rgt_dec x y then true else false.

Definition XR_sub (a b : XR) : XR :=
  match a, b with
  | NaN, _ | _, NaN => NaN
  | Fin x, Fin y => Fin (x - y)%R
  | Fin _, PInf => NInf
  | Fin _, NInf => PInf
  | PInf, PInf => NaN
  | PInf, _ => PInf
  | NInf, NInf => NaN
  | NInf, _ => NInf
  end.

Definition XR_geb (a b : XR) : bool :=
  match a, b with
  | NaN, _ | _, NaN => false
  | Fin x, Fin y => Rgeb x y
  | PInf, _ => true
  | _, NInf => true
  | _, _ => false
  end.

(** [torch.topk] orders [nan] above every other value. *)
Definition XR_gtb (a b : XR) : bool :=
  match a, b with
  | _, NaN => false
  | NaN, _ => true
  | Fin x, Fin y => Rgtb x y
  | PInf, PInf => false
  | PInf, _ => true
  | Fin _, NInf => true
  | _, _ => false
  end.

#[export] Instance XR_Scalar : Scalar XR := {
  s_sub := XR_sub;
  s_geb := XR_geb;
  s_gtb := XR_gtb
}.

(** ** Tensors and the encoded input *)

(** [Ids l] is an integer tensor of shape (1, n): token ids or an
    attention mask.  [Cross l] is a tensor of shape (1, n, images, tiles):
    one unit per token. *)
Inductive tensor : Type :=
| Ids (l : list Z)
| Cross (l : list (list (list Z))).

Definition unit_dims (u : list (list Z)) : list nat := length <$> u.

Definition same_dims (x y : list (list (list Z))) : bool :=
  forallb (fun u => forallb (fun v => bool_decide (unit_dims u = unit_dims v)) y) x.

(** [torch.cat([a, b], dim=1)]: the ranks and the sizes of the other
    dimensions must agree. *)
Definition torch_cat (a b : tensor) : result tensor :=
  match a, b with
  | Ids x, Ids y => Ok (Ids (x ++ y))
  | Cross x, Cross y =>
      if same_dims x y then Ok (Cross (x ++ y)) else Raise RuntimeError
  | _, _ => Raise RuntimeError
  end.

Inductive PyInput : Type :=
| Tensor (t : tensor)
| BatchFeature (data : gmap string tensor).

(** [input[key]] with a string key.  A tensor cannot be indexed by a
    string: torch raises (an [IndexError], "too many indices", in current
    releases).  A [BatchFeature] looks the key up in its dictionary. *)
Definition getitem (input : PyInput) (key : string) : result tensor :=
  match input with
  | Tensor _ => Raise IndexError
  | BatchFeature data =>
      match data !! key with
      | Some t => Ok t
      | None => Raise KeyError
      end
  end.

(** [input[key] = v] with a string key. *)
Definition setitem (input : PyInput) (key : string) (v : tensor) : result PyInput :=
  match input with
  | Tensor _ => Raise IndexError
  | BatchFeature data => Ok (BatchFeature (<[key := v]> data))
  end.

(** [input.device]: an attribute of a tensor; on a [BatchFeature] the
    attribute is looked up among the keys. *)
Definition getattr_device (input : PyInput) : result unit :=
  match input with
  | Tensor _ => Ok tt
  | BatchFeature data =>
      match data !! "device"%string with
      | Some _ => Ok tt
      | None => Raise AttributeError
      end
  end.

(** The token sequence held by an encoded input. *)
Definition token_ids (input : PyInput) : list Z :=
  match input with
  | Tensor (Ids l) => l
  | BatchFeature data =>
      match data !! "input_ids"%string with
      | Some (Ids l) => l
      | _ => []
      end
  | _ => []
  end.

(** ** Indexing and [torch.topk] on the row of logits *)

Section Logits.
Context {V : Type} `{Scalar V}.

(** [logits[:, i]]: negative indices count from the end. *)
Definition tensor_index (logits : list V) (i : Z) : result V :=
  let n := Z.of_nat (length logits) in
  let j := if i <? 0 then n + i else i in
  if (0 <=? j) && (j <? n)
  then match logits !! Z.to_nat j with
       | Some v => Ok v
       | None => Raise IndexError
       end
  else Raise IndexError.

(** Insertion into a list sorted by descending value; among equal
    values the one inserted last comes first.  ([torch.topk] leaves the
    order of equal values open; the embedding fixes one, and no statement
    below relies on it.) *)
Fixpoint insert_desc (x : Z * V) (l : list (Z * V)) : list (Z * V) :=
  match l with
  | [] => [x]
  | y :: l' => if s_gtb y.2 x.2 then y :: insert_desc x l' else x :: l
  end.

Fixpoint enumerate_from (i : Z) (l : list V) : list (Z * V) :=
  match l with
  | [] => []
  | v :: l' => (i, v) :: enumerate_from (i + 1) l'
  end.

(** Indices by descending logit; equal logits keep index order. *)
Definition argsort_desc (logits : list V) : list Z :=
  fst <$> foldr insert_desc [] (enumerate_from 0 logits).

(** [torch.topk(logits, k, dim=-1).indices[0].tolist()] *)
Definition torch_topk (logits : list V) (k : option Z) : result (list Z) :=
  match k with
  | None => Raise TypeError
  | Some k =>
      if (k <? 0) || (Z.of_nat (length logits) <? k)
      then Raise RuntimeError
      else Ok (take (Z.to_nat k) (argsort_desc logits))
  end.

(** Python's [x in l] on a list of integers. *)
Definition py_in (x : Z) (l : list Z) : bool := bool_decide (x ∈ l).

(** Lines 153-157 / 190-194: the scoring step. *)
Definition classification (logits : list V) (req_logit_diff : V) (id_1 id_0 : Z)
  : result bool :=
  l1 ← tensor_index logits id_1;
  l0 ← tensor_index logits id_0;
  let difference := s_sub l1 l0 in
  let prediction := s_geb difference req_logit_diff in
  Ok prediction.
End Logits.

(** ** The classifier *)

(** What [getattr] finds on a row of [itertuples]: the cell of a column,
    or an attribute that every tuple has (the methods [count] and [index],
    the namedtuple API, the special attributes). *)
Inductive PyObj : Type :=
| Cell (value : string)
| TupleAttr (name : string).

(** What the code prints.  The two lines about an image interpolate what
    [getattr(row, image_column)] returned. *)
Inductive Msg : Type :=
| ReachedLimit (max_steps : option Z)
| SavedTemporary (output_path : string)
| ImageMissing (path : PyObj)
| ImageCorrupted (path : PyObj).

(** Truth value of an optional integer: [None] and [0] are falsy. *)
Definition py_truthy (n : option Z) : bool :=
  match n with
  | None => false
  | Some n => negb (n =? 0)
  end.

(** The observable outcome of one call of the classifier: what it returns
    or raises, the encoded input as the call leaves it, the number of
    forward passes of the model, and what was printed. *)
Record ClassifyRun : Type := {
  run_outcome : result bool;
  run_input : PyInput;
  run_passes : nat;
  run_stdout : list Msg
}.

(** One iteration of the loop either goes on with the next one
    ([continue]) or leaves the function, returning or raising. *)
Inductive iteration : Type :=
| Continue (input : PyInput)
| Leave (r : result bool) (input : PyInput).

(** [input[key] = torch.cat([input[key], t], dim=1)] *)
Definition append_to (key : string) (t : tensor) (input : PyInput) : result PyInput :=
  old ← getitem input key;
  new ← torch_cat old t;
  setitem input key new.

(** Lines 142-148: the three assignments of the vision loop.  An
    assignment that raises leaves the earlier ones in place. *)
Definition vision_append (input : PyInput) (next_token_id : Z) : PyInput * option exn :=
  match append_to "input_ids" (Ids [next_token_id]) input with
  | Raise e => (input, Some e)
  | Ok input1 =>
      match append_to "attention_mask" (Ids [1]) input1 with
      | Raise e => (input1, Some e)
      | Ok input2 =>
          match append_to "cross_attention_mask" (Cross [[[1; 1; 0; 0]]]) input2 with
          | Raise e => (input2, Some e)
          | Ok input3 => (input3, None)
          end
      end
  end.

(** Lines 182-186: the two assignments of the text loop. *)
Definition text_append (input : PyInput) (next_token_id : Z) : PyInput * option exn :=
  match append_to "input_ids" (Ids [next_token_id]) input with
  | Raise e => (input, Some e)
  | Ok input1 =>
      match append_to "attention_mask" (Ids [1]) input1 with
      | Raise e => (input1, Some e)
      | Ok input2 => (input2, None)
      end
  end.

(** Line 127: [input["input_ids"].device] *)
Definition vision_device (input : PyInput) : result unit :=
  _ ← getitem input "input_ids"; Ok tt.

(** Line 167: [input.device] *)
Definition text_device (input : PyInput) : result unit :=
  getattr_device input.

Section Classifier.
Context {V : Type} `{Scalar V}.
Variable model : PyInput → list V.

(** Line 132: the model is called with the input unpacked into keyword
    arguments, which needs a mapping. *)
Definition call_unpacked (input : PyInput) : result (list V) :=
  match input with
  | Tensor _ => Raise TypeError
  | BatchFeature _ => Ok (model input)
  end.

(** Line 172: [model(input)] *)
Definition call_positional (input : PyInput) : result (list V) :=
  Ok (model input).

Section Loop.
Variable device : PyInput → result unit.
Variable call : PyInput → result (list V).
Variable append : PyInput → Z → PyInput * option exn.
Variables (req_logit_diff : V) (id_1 id_0 : Z).
Variables (max_steps topk : option Z).

(** Lines 136-157 (170-194 in the text variant): what one iteration does
    with the logits of its forward pass. *)
Definition iteration_body (input : PyInput) (logits : list V) : iteration :=
  if py_truthy max_steps then
    match torch_topk logits topk with
    | Raise e => Leave (Raise e) input
    | Ok topk_ids =>
        if negb (py_in id_1 topk_ids) && negb (py_in id_0 topk_ids) then
          match topk_ids with
          | [] => Leave (Raise IndexError) input
          | next_token_id :: _ =>
              match append input next_token_id with
              | (input', None) => Continue input'
              | (input', Some e) => Leave (Raise e) input'
              end
          end
        else Leave (classification logits req_logit_diff id_1 id_0) input
    end
  else Leave (classification logits req_logit_diff id_1 id_0) input.

(** [for _ in range(steps)], followed by lines 159-160. *)
Fixpoint classify_loop (steps : nat) (input : PyInput) (passes : nat) : ClassifyRun :=
  match steps with
  | O => {| run_outcome := Ok true; run_input := input; run_passes := passes;
            run_stdout := [ReachedLimit max_steps] |}
  | S steps' =>
      match call input with
      | Raise e => {| run_outcome := Raise e; run_input := input;
                      run_passes := passes; run_stdout := [] |}
      | Ok logits =>
          match iteration_body input logits with
          | Continue input' => classify_loop steps' input' (S passes)
          | Leave r input' => {| run_outcome := r; run_input := input';
                                 run_passes := S passes; run_stdout := [] |}
          end
      end
  end.

(** Line 128: [steps = 1 if max_steps is None else max_steps] *)
Definition steps_of : Z :=
  match max_steps with
  | None => 1
  | Some n => n
  end.

Definition classify_with (input : PyInput) : ClassifyRun :=
  match device input with
  | Raise e => {| run_outcome := Raise e; run_input := input;
                  run_passes := O; run_stdout := [] |}
  | Ok _ => classify_loop (Z.to_nat steps_of) input O
  end.
End Loop.

(** [vision_classify(model, input, req_logit_diff, id_1, id_0, max_steps, topk)] *)
Definition vision_classify (input : PyInput) (req_logit_diff : V) (id_1 id_0 : Z)
    (max_steps topk : option Z) : ClassifyRun :=
  classify_with vision_device call_unpacked vision_append
    req_logit_diff id_1 id_0 max_steps topk input.

(** [text_classify(model, input, req_logit_diff, id_1, id_0, max_steps, topk)] *)
Definition text_classify (input : PyInput) (req_logit_diff : V) (id_1 id_0 : Z)
    (max_steps topk : option Z) : ClassifyRun :=
  classify_with text_device call_positional text_append
    req_logit_diff id_1 id_0 max_steps topk input.
End Classifier.

(** ** The dataset and the checkpoint file *)

(** A pandas DataFrame: the column labels and the rows.  A row is kept
    as [itertuples(index=False)] yields it, a namedtuple built with
    [rename=True]: a mapping from field name to cell.  The field name of a
    column is its label when the label is an identifier, is not a keyword,
    does not start with an underscore and has not occurred before;
    otherwise it is [_i], with [i] the position of the column. *)
Record DataFrame : Type := {
  df_columns : list string;
  df_rows : list (gmap string string)
}.

Definition is_letter (c : Ascii.ascii) : bool :=
  let n := Ascii.nat_of_ascii c in
  ((65 <=? n)%nat && (n <=? 90)%nat) || ((97 <=? n)%nat && (n <=? 122)%nat).

Definition is_digit (c : Ascii.ascii) : bool :=
  let n := Ascii.nat_of_ascii c in (48 <=? n)%nat && (n <=? 57)%nat.

Definition is_underscore (c : Ascii.ascii) : bool := (Ascii.nat_of_ascii c =? 95)%nat.

Fixpoint string_forall (f : Ascii.ascii → bool) (s : string) : bool :=
  match s with
  | EmptyString => true
  | String c s' => f c && string_forall f s'
  end.

(** [s.startswith('_')] *)
Definition starts_with_underscore (s : string) : bool :=
  match s with
  | String c _ => is_underscore c
  | EmptyString => false
  end.

(** [s.isidentifier()] on an ASCII string. *)
Definition isidentifier (s : string) : bool :=
  match s with
  | EmptyString => false
  | String c s' =>
      (is_letter c || is_underscore c)
      && string_forall (fun c => is_letter c || is_digit c || is_underscore c) s'
  end.

(** [keyword.kwlist] *)
Definition kwlist : list string :=
  ["False"; "None"; "True"; "and"; "as"; "assert"; "async"; "await"; "break";
   "class"; "continue"; "def"; "del"; "elif"; "else"; "except"; "finally";
   "for"; "from"; "global"; "if"; "import"; "in"; "is"; "lambda"; "nonlocal";
   "not"; "or"; "pass"; "raise"; "return"; "try"; "while"; "with";
   "yield"]%string.

(** The decimal numeral of a position: digits with no leading zero. *)
Definition is_numeral (s : string) : bool :=
  match s with
  | EmptyString => false
  | String c s' =>
      is_digit c && string_forall is_digit s'
      && (negb (Ascii.nat_of_ascii c =? 48)%nat || bool_decide (s' = EmptyString))
  end.

(** The names a field of the namedtuple can have: a label that
    [rename=True] keeps, or the positional replacement [_i]. *)
Definition field_name (s : string) : bool :=
  (isidentifier s && negb (bool_decide (s ∈ kwlist))
   && negb (starts_with_underscore s))
  || match s with
     | String c s' => is_underscore c && is_numeral s'
     | EmptyString => false
     end.

(** [df.iloc[:n]] *)
Definition iloc_head (n : nat) (df : DataFrame) : DataFrame :=
  {| df_columns := df_columns df; df_rows := take n (df_rows df) |}.

Fixpoint mask_rows {A : Type} (l : list A) (mask : list bool) : list A :=
  match l, mask with
  | x :: l', b :: mask' => if b then x :: mask_rows l' mask' else mask_rows l' mask'
  | _, _ => []
  end.

(** [df[mask]] with a list of booleans.  A non-empty list selects the
    rows at which it is true and must be as long as the frame; the empty
    list is read as an empty list of column labels. *)
Definition getitem_mask (df : DataFrame) (mask : list bool) : result DataFrame :=
  match mask with
  | [] => Ok {| df_columns := []; df_rows := (fun _ => ∅) <$> df_rows df |}
  | _ :: _ =>
      if bool_decide (length mask = length (df_rows df))
      then Ok {| df_columns := df_columns df; df_rows := mask_rows (df_rows df) mask |}
      else Raise ValueError
  end.

(** What [to_csv(path, sep=.., index=False, header=.., encoding='utf-8')]
    puts in the file: the frame, the delimiter and whether a header row
    is written. *)
Record CsvFile : Type := {
  csv_frame : DataFrame;
  csv_sep : string;
  csv_header : bool
}.

(** ** The required logit difference (lines 55 and 101) *)

Definition torch_log (x : XR) : XR :=
  match x with
  | Fin x =>
      if Rlt_dec 0 x then Fin (ln x)
      else if Req_dec_T x 0 then NInf else NaN
  | PInf => PInf
  | NInf => NaN
  | NaN => NaN
  end.

(** Division of Python floats raises on a zero divisor. *)
Definition py_div (x y : R) : result R :=
  if Req_dec_T y 0 then Raise ZeroDivisionError else Ok (x / y)%R.

(** [torch.log(torch.tensor(threshold / (1 - threshold)))], in exact
    arithmetic.  The division raises exactly when the code's does, at the
    threshold [1]; the value is the one the code would compute without
    rounding. *)
Definition req_logit_diff (threshold : R) : result XR :=
  q ← py_div threshold (1 - threshold)%R;
  Ok (torch_log (Fin q)).

(** ** The external collaborators *)

Record Provider : Type := {
  Image : Type;
  (* the logits of the last position of one forward pass *)
  model : PyInput → list XR;
  tokenize : string → list string;
  convert_tokens_to_ids : string → Z;
  (* the chat template applied to the message holding the given text *)
  apply_chat_template : string → string;
  (* the same for the tokenizer, with return_tensors="pt" *)
  apply_chat_template_pt : string → tensor;
  (* processor(image, text, ...) *)
  processor : Image → string → result PyInput;
  (* PIL.Image.open *)
  Image_open : PyObj → result Image;
  (* prompt.format(caption=...) *)
  str_format : string → PyObj → result string;
  (* hasattr(row, name) for a name with a leading underscore that is no
     field of the row: the namedtuple API and the special attributes of
     the running Python *)
  tuple_private_attr : string → bool
}.

(** [getattr(row, name)] on a row of [itertuples].  The name must be a
    string.  A field of the row shadows the attributes of tuples; a name
    that is no field is looked up among those: [count] and [index], and
    the names with a leading underscore the running Python has; any other
    name raises. *)
Definition getattr (P : Provider) (row : gmap string string) (name : option string)
  : result PyObj :=
  match name with
  | None => Raise TypeError
  | Some c =>
      match (if field_name c then row !! c else None) with
      | Some v => Ok (Cell v)
      | None =>
          if bool_decide (c = "count"%string) || bool_decide (c = "index"%string)
             || (starts_with_underscore c && tuple_private_attr P c)
          then Ok (TupleAttr c)
          else Raise AttributeError
      end
  end.

(** Lines 56-57 and 102-103: the id of the first token of a string. *)
Definition first_token_id (P : Provider) (s : string) : result Z :=
  match tokenize P s with
  | [] => Raise IndexError
  | t :: _ => Ok (convert_tokens_to_ids P t)
  end.

(** ** The drivers *)

(** The variables of the driver's loop, the files written, and what an
    observer of the run can count: the calls of [to_csv] in order, the
    lines printed, the calls of the classifier and the forward passes. *)
Record FilterState : Type := {
  results : list bool;
  since_last_save : Z;
  missing_or_corrupted : Z;
  files : gmap string CsvFile;
  to_csv_calls : list CsvFile;
  stdout : list Msg;
  classifier_calls : nat;
  forward_passes : nat
}.

Definition initial_state (files0 : gmap string CsvFile) : FilterState :=
  {| results := []; since_last_save := 0; missing_or_corrupted := 0;
     files := files0; to_csv_calls := []; stdout := [];
     classifier_calls := O; forward_passes := O |}.

(** Truth value of an optional string: [None] and the empty string are
    falsy. *)
Definition py_truthy_str (s : option string) : bool :=
  match s with
  | None => false
  | Some s => negb (bool_decide (s = ""%string))
  end.

(** The outcome of a driver: the value it returns or the exception it
    raises, and the state the run leaves behind. *)
Record FilterRun (A : Type) : Type := {
  outcome : result A;
  final : FilterState
}.
Arguments outcome {A} _.
Arguments final {A} _.

Section Driver.
Variable P : Provider.
Variable metadata : DataFrame.
Variables (caption_column image_column : option string).
Variables (prompt output_path : string) (has_header : bool) (delim : string).
Variables (save_every max_steps topk : option Z) (keep_corrupted : bool).

(** Lines 63-67 and 108-112: the safety save.  The boolean mask raises
    when it does not fit the frame; [to_csv] is taken to write the file. *)
Definition safety_saving (st : FilterState) : result FilterState :=
  if py_truthy save_every && (since_last_save st >=? default 0 save_every) then
    filtered_metadata ←
      getitem_mask (iloc_head (length (results st)) metadata) (results st);
    let file := {| csv_frame := filtered_metadata; csv_sep := delim;
                   csv_header := has_header |} in
    Ok {| results := results st;
          since_last_save := 0;
          missing_or_corrupted := missing_or_corrupted st;
          files := <[output_path := file]> (files st);
          to_csv_calls := to_csv_calls st ++ [file];
          stdout := stdout st ++ [SavedTemporary output_path];
          classifier_calls := classifier_calls st;
          forward_passes := forward_passes st |}
  else Ok st.

(** Lines 68 and 113: [since_last_save += 1] *)
Definition count_row (st : FilterState) : FilterState :=
  {| results := results st;
     since_last_save := since_last_save st + 1;
     missing_or_corrupted := missing_or_corrupted st;
     files := files st;
     to_csv_calls := to_csv_calls st;
     stdout := stdout st;
     classifier_calls := classifier_calls st;
     forward_passes := forward_passes st |}.

(** Lines 78-81 and 83-86: the handlers of the two caught exceptions. *)
Definition record_corrupted (st : FilterState) (msg : Msg) : FilterState :=
  {| results := results st ++ [keep_corrupted];
     since_last_save := since_last_save st;
     missing_or_corrupted := missing_or_corrupted st + 1;
     files := files st;
     to_csv_calls := to_csv_calls st;
     stdout := stdout st ++ [msg];
     classifier_calls := classifier_calls st;
     forward_passes := forward_passes st |}.

(** Lines 88 and 118: the call of the classifier and, when it returns,
    [results.append]. *)
Definition record_classified (st : FilterState) (run : ClassifyRun)
  : FilterState * option exn :=
  let st' appended :=
    {| results := results st ++ appended;
       since_last_save := since_last_save st;
       missing_or_corrupted := missing_or_corrupted st;
       files := files st;
       to_csv_calls := to_csv_calls st;
       stdout := stdout st ++ run_stdout run;
       classifier_calls := S (classifier_calls st);
       forward_passes := (forward_passes st + run_passes run)%nat |} in
  match run_outcome run with
  | Ok b => (st' [b], None)
  | Raise e => (st' [], Some e)
  end.

(** What the part of an iteration after the safety save finds for a
    row: an image that is missing or corrupted, or an encoded input. *)
Inductive sample : Type :=
| Unreadable (msg : Msg)
| Encoded (input : PyInput).

(** Line 71: the prompt of a row; the caption is substituted when a
    caption column is configured. *)
Definition vision_prompt (row : gmap string string) : result string :=
  if py_truthy_str caption_column
  then caption ← getattr P row caption_column; str_format P prompt caption
  else Ok prompt.

(** Lines 75-76: the body of the [try]. *)
Definition encode_image (path : PyObj) (input_text : string) : result PyInput :=
  input_image ← Image_open P path; processor P input_image input_text.

(** Lines 71-86: the prompt and the encoded input of a row.  The two
    handlers catch [FileNotFoundError] and [UnidentifiedImageError]; any
    other exception of the [try] leaves the loop. *)
Definition vision_sample (row : gmap string string) : result sample :=
  formatted_prompt ← vision_prompt row;
  let input_text := apply_chat_template P formatted_prompt in
  path ← getattr P row image_column;
  match encode_image path input_text with
  | Ok input => Ok (Encoded input)
  | Raise FileNotFoundError => Ok (Unreadable (ImageMissing path))
  | Raise UnidentifiedImageError => Ok (Unreadable (ImageCorrupted path))
  | Raise e => Raise e
  end.

(** Lines 115-117. *)
Definition text_sample (row : gmap string string) : result PyInput :=
  caption ← getattr P row caption_column;
  formatted_prompt ← str_format P prompt caption;
  Ok (Tensor (apply_chat_template_pt P formatted_prompt)).

(** Lines 62-88: one iteration of the loop of [vision_filter]. *)
Definition vision_row (classify : PyInput → ClassifyRun)
    (st : FilterState) (row : gmap string string) : FilterState * option exn :=
  match safety_saving st with
  | Raise e => (st, Some e)
  | Ok st1 =>
      let st2 := count_row st1 in
      match vision_sample row with
      | Raise e => (st2, Some e)
      | Ok (Unreadable msg) => (record_corrupted st2 msg, None)
      | Ok (Encoded input) => record_classified st2 (classify input)
      end
  end.

(** Lines 107-118: one iteration of the loop of [text_filter]. *)
Definition text_row (classify : PyInput → ClassifyRun)
    (st : FilterState) (row : gmap string string) : FilterState * option exn :=
  match safety_saving st with
  | Raise e => (st, Some e)
  | Ok st1 =>
      let st2 := count_row st1 in
      match text_sample row with
      | Raise e => (st2, Some e)
      | Ok input => record_classified st2 (classify input)
      end
  end.

(** [for row in metadata.itertuples(index=False)]: the iterations run in
    row order until one raises. *)
Fixpoint for_rows (body : FilterState → gmap string string → FilterState * option exn)
    (st : FilterState) (rows : list (gmap string string)) : FilterState * option exn :=
  match rows with
  | [] => (st, None)
  | row :: rows' =>
      match body st row with
      | (st', None) => for_rows body st' rows'
      | (st', Some e) => (st', Some e)
      end
  end.

(** Lines 55-57 and 101-103: what is computed once, before the loop. *)
Definition prelude (threshold : R) : result (XR * Z * Z) :=
  req ← req_logit_diff threshold;
  true_token_id ← first_token_id P "1";
  false_token_id ← first_token_id P "0";
  Ok (req, true_token_id, false_token_id).

Definition vision_filter (files0 : gmap string CsvFile) (threshold : R)
  : FilterRun (list bool * Z) :=
  match prelude threshold with
  | Raise e => {| outcome := Raise e; final := initial_state files0 |}
  | Ok (req, true_token_id, false_token_id) =>
      let classify input :=
        vision_classify (model P) input req true_token_id false_token_id
          max_steps topk in
      match for_rows (vision_row classify) (initial_state files0)
              (df_rows metadata) with
      | (st, Some e) => {| outcome := Raise e; final := st |}
      | (st, None) =>
          {| outcome := Ok (results st, missing_or_corrupted st); final := st |}
      end
  end.

Definition text_filter (files0 : gmap string CsvFile) (threshold : R)
  : FilterRun (list bool) :=
  match prelude threshold with
  | Raise e => {| outcome := Raise e; final := initial_state files0 |}
  | Ok (req, true_token_id, false_token_id) =>
      let classify input :=
        text_classify (model P) input req true_token_id false_token_id
          max_steps topk in
      match for_rows (text_row classify) (initial_state files0)
              (df_rows metadata) with
      | (st, Some e) => {| outcome := Raise e; final := st |}
      | (st, None) => {| outcome := Ok (results st); final := st |}
      end
  end.
End Driver.

(** ** Loading the model and the processor (lines 9-42) *)

Fixpoint string_drop (n : nat) (s : string) : string :=
  match n, s with
  | S n', String _ s' => string_drop n' s'
  | _, _ => s
  end.

(** [s[-4:]]: the last four characters, or all of a shorter string. *)
Definition last_four (s : string) : string :=
  string_drop (String.length s - 4) s.

(** What [get_model] asks of [dotenv] and of the hub, in order. *)
Inductive HubCall : Type :=
| LoadDotenv (path : string)
| Login (token : option string)
| ProcessorFromPretrained (cls model_id : string)
| ModelFromPretrained (cls model_id torch_dtype device_map : string).

(** [get_model(token_or_env, vision)].  [load_dotenv] is the effect of
    the library call on the environment variables, [os.getenv] is a
    lookup among them.  The value returned is the pair of the objects the
    last two calls build; the embedding gives the calls and the
    environment the function leaves. *)
Definition get_model (load_dotenv : string → gmap string string → gmap string string)
    (environ : gmap string string) (token_or_env : string) (vision : bool)
  : list HubCall * gmap string string :=
  let '(calls, environ', hf_token) :=
    if bool_decide (last_four token_or_env = ".env"%string)
    then
      let environ' := load_dotenv token_or_env environ in
      ([LoadDotenv token_or_env], environ', environ' !! "HF_TOKEN"%string)
    else ([], environ, Some token_or_env) in
  let loads :=
    if vision
    then
      [ProcessorFromPretrained "AutoProcessor"
         "meta-llama/Llama-3.2-11B-Vision-Instruct";
       ModelFromPretrained "MllamaForConditionalGeneration"
         "meta-llama/Llama-3.2-11B-Vision-Instruct" "torch.bfloat16" "auto"]
    else
      [ProcessorFromPretrained "AutoTokenizer" "meta-llama/Llama-3.1-8B-Instruct";
       ModelFromPretrained "AutoModelForCausalLM"
         "meta-llama/Llama-3.1-8B-Instruct" "torch.bfloat16" "auto"] in
  (calls ++ [Login hf_token] ++ loads, environ').

(** ** Vocabulary of the statements *)

(** The two variants of the classifier. *)
Inductive Mode : Type := Vision | Text.

Definition classify {V : Type} `{Scalar V} (mode : Mode) (model : PyInput → list V)
    (input : PyInput) (req_logit_diff : V) (id_1 id_0 : Z)
    (max_steps topk : option Z) : ClassifyRun :=
  match mode with
  | Vision => vision_classify model input req_logit_diff id_1 id_0 max_steps topk
  | Text => text_classify model input req_logit_diff id_1 id_0 max_steps topk
  end.

(** The input is of the kind the variant reads its device from: a
    dictionary with the key [input_ids] for the vision variant, a tensor
    (or anything with a [device]) for the text variant. *)
Definition accepts (mode : Mode) (input : PyInput) : Prop :=
  match mode with
  | Vision => vision_device input = Ok tt
  | Text => text_device input = Ok tt
  end.

(** The step bound is a positive integer or is disabled. *)
Definition bound_ok (max_steps : option Z) : Prop :=
  match max_steps with
  | None => True
  | Some n => 0 < n
  end.

(** An encoded input as the vision processor builds it: a dictionary
    holding the token ids, the attention mask and a cross-attention mask
    whose units have one image of four tiles. *)
Definition vision_input (input : PyInput) (ids mask : list Z)
    (cross : list (list (list Z))) : Prop :=
  ∃ data, input = BatchFeature data
    ∧ data !! "input_ids"%string = Some (Ids ids)
    ∧ data !! "attention_mask"%string = Some (Ids mask)
    ∧ data !! "cross_attention_mask"%string = Some (Cross cross)
    ∧ Forall (fun u => unit_dims u = [4%nat]) cross.

(** For [steps] forward passes in a row, starting from [input] and
    extending it as the vision loop does, the top-K ids are computed, are
    not empty and hold neither [id_1] nor [id_0]. *)
Fixpoint never_ready {V : Type} `{Scalar V} (model : PyInput → list V)
    (id_1 id_0 : Z) (topk : option Z) (steps : nat) (input : PyInput) : Prop :=
  match steps with
  | O => True
  | S steps' =>
      ∃ next rest,
        torch_topk (model input) topk = Ok (next :: rest)
        ∧ (id_1 ∉ next :: rest) ∧ (id_0 ∉ next :: rest)
        ∧ never_ready model id_1 id_0 topk steps' (vision_append input next).1
  end.

Section DriverVocabulary.
Variable metadata : DataFrame.
Variables (output_path : string) (has_header : bool) (delim : string).
Variables (save_every : option Z) (keep_corrupted : bool).
Variable encode : gmap string string → result sample.
Variable classify : PyInput → ClassifyRun.

(** The common shape of the iterations of the two drivers. *)
Definition filter_row (st : FilterState) (row : gmap string string)
  : FilterState * option exn :=
  match safety_saving metadata output_path has_header delim save_every st with
  | Raise e => (st, Some e)
  | Ok st1 =>
      let st2 := count_row st1 in
      match encode row with
      | Raise e => (st2, Some e)
      | Ok (Unreadable msg) => (record_corrupted keep_corrupted st2 msg, None)
      | Ok (Encoded input) => record_classified st2 (classify input)
      end
  end.

(** The decision for a row taken on its own. *)
Definition decision (row : gmap string string) : result bool :=
  match encode row with
  | Raise e => Raise e
  | Ok (Unreadable _) => Ok keep_corrupted
  | Ok (Encoded input) => run_outcome (classify input)
  end.

(** The row is one whose image is missing or corrupted. *)
Definition unreadable (row : gmap string string) : bool :=
  match encode row with
  | Ok (Unreadable _) => true
  | _ => false
  end.

(** The file a checkpoint writes when the results so far are [kept]:
    the rows of the dataset at which [kept] is true, in dataset order,
    with the configured delimiter and header. *)
Definition checkpoint (kept : list bool) : CsvFile :=
  {| csv_frame := {| df_columns := df_columns metadata;
                     df_rows := mask_rows (df_rows metadata) kept |};
     csv_sep := delim; csv_header := has_header |}.

(** The first [q] checkpoints of a run that saves every [k] rows, as the
    state records them: the [j]-th call of [to_csv] wrote the checkpoint
    of the first [j * k] results, and the file holds the last one alone
    (or what it held before the run when nothing was written). *)
Definition writes_agree (files0 : gmap string CsvFile) (k q : nat)
    (st : FilterState) : Prop :=
  (q * k ≤ length (results st))%nat
  ∧ to_csv_calls st = (fun j => checkpoint (take (j * k) (results st))) <$> seq 1 q
  ∧ files st = match q with
               | O => files0
               | S _ => <[output_path := checkpoint (take (q * k) (results st))]> files0
               end.

(** The state of the loop after [n] rows: [n] results, and [r] rows
    counted since the last of [q] checkpoints. *)
Definition loop_inv (files0 : gmap string CsvFile) (k n : nat)
    (st : FilterState) : Prop :=
  length (results st) = n
  ∧ ∃ q r : nat,
      n = (q * k + r)%nat ∧ (r ≤ k)%nat ∧ (n ≠ O → 1 ≤ r)%nat
      ∧ since_last_save st = Z.of_nat r
      ∧ writes_agree files0 k q st.
End DriverVocabulary.

(** What a checkpoint is to hold, in the specification's words: among
    the first [n] rows of the dataset, those whose accumulated result is
    [true], in dataset order. *)
Definition kept_rows {A : Type} (n : nat) (rows : list A) (res : list bool) : list A :=
  (List.filter snd (zip (take n rows) (take n res))).*1.

(** The checkpoint file the specification asks for after [n] rows: the
    kept rows under the columns of the dataset, with the configured
    delimiter and header. *)
Definition kept_file (metadata : DataFrame) (has_header : bool) (delim : string)
    (n : nat) (res : list bool) : CsvFile :=
  {| csv_frame := {| df_columns := df_columns metadata;
                     df_rows := kept_rows n (df_rows metadata) res |};
     csv_sep := delim; csv_header := has_header |}.

(** The encoding step of the text driver, which has no unreadable rows. *)
Definition text_encode (P : Provider) (caption_column : option string)
    (prompt : string) (row : gmap string string) : result sample :=
  match text_sample P caption_column prompt row with
  | Ok input => Ok (Encoded input)
  | Raise e => Raise e
  end.

(** The kinds of lines a run prints. *)
Definition is_skip_msg (msg : Msg) : bool :=
  match msg with
  | ImageMissing _ | ImageCorrupted _ => true
  | _ => false
  end.

Definition is_save_msg (msg : Msg) : bool :=
  match msg with
  | SavedTemporary _ => true
  | _ => false
  end.

Definition is_limit_msg (msg : Msg) : bool :=
  match msg with
  | ReachedLimit _ => true
  | _ => false
  end.

(** ** Sample data for the examples *)

(** A vision input of two tokens. *)
Definition demo_input : PyInput :=
  BatchFeature
    (<["input_ids"%string := Ids [7; 8]]>
       (<["attention_mask"%string := Ids [1; 1]]>
          (<["cross_attention_mask"%string :=
               Cross [[[1; 1; 0; 0]]; [[1; 1; 0; 0]]]]> ∅))).

(** A model over a vocabulary of four tokens that always ranks token 3
    first, then token 0, token 1 and token 2. *)
Definition demo_model (input : PyInput) : list Z := [5; 1; 0; 9].

(** A model with a negative logit: token 1 scores [1] and token 2
    scores [-1]. *)
Definition demo_model_signed (input : PyInput) : list Z := [5; 1; -1; 9].

(** A model with real logits whose tokens 1 and 2 tie. *)
Definition demo_model_tie (input : PyInput) : list XR :=
  [Fin 5; Fin 2; Fin 2; Fin 9].

(** A provider whose tokenizer maps "1" to token 1 and "0" to token 2,
    whose model ranks tokens as [demo_model_tie] does, and whose image
    files are named after what opening them does. *)
Definition demo_provider : Provider :=
  {| Image := unit;
     model := demo_model_tie;
     tokenize := fun s => [s];
     convert_tokens_to_ids := fun t => if String.eqb t "1" then 1 else 2;
     apply_chat_template := fun text => text;
     apply_chat_template_pt := fun text => Ids [7; 8];
     processor := fun _ _ => Ok demo_input;
     Image_open := fun path =>
       match path with
       | Cell path =>
           if String.eqb path "missing.jpg" then Raise FileNotFoundError
           else if String.eqb path "broken.jpg" then Raise UnidentifiedImageError
           else if String.eqb path "locked.jpg" then Raise PermissionError
           else Ok tt
       | TupleAttr _ => Raise AttributeError
       end;
     str_format := fun prompt caption =>
       match caption with
       | Cell caption => Ok (prompt +:+ caption)
       | TupleAttr name => Ok (prompt +:+ "<built-in method " +:+ name +:+ ">")
       end;
     tuple_private_attr := fun name =>
       bool_decide (name ∈ ["_fields"; "_make"; "_replace"; "_asdict"]%string) |}.

Definition demo_row (caption image : string) : gmap string string :=
  <["caption"%string := caption]> (<["image"%string := image]> ∅).

Definition demo_frame (rows : list (gmap string string)) : DataFrame :=
  {| df_columns := ["caption"; "image"]%string; df_rows := rows |}.

(** The default delimiter, a tab. *)
Definition tab : string := String (Ascii.ascii_of_nat 9) EmptyString.

(** The vision driver on the sample provider, with the step bound
    disabled. *)
Definition demo_vision_filter (rows : list (gmap string string))
    (save_every : option Z) (keep_corrupted : bool) (threshold : R)
  : FilterRun (list bool * Z) :=
  vision_filter demo_provider (demo_frame rows) (Some "caption"%string)
    (Some "image"%string) "Is this caption right? " "out.tsv" true tab
    save_every None None keep_corrupted ∅ threshold.

(** * Properties of the classifier *)

(** The three highest of four logits, highest first. *)
Example topk_example :
  torch_topk [3; 9; 7; 1] (Some 3) = Ok [1; 2; 0].
Proof. reflexivity. Qed.

(** Asking for more ids than the vocabulary has, or for [None] of them,
    raises. *)
Example topk_out_of_range :
  torch_topk [3; 9; 9; 1] (Some 5) = Raise RuntimeError
  ∧ torch_topk [3; 9; 9; 1] None = Raise TypeError.
Proof. by split. Qed.

(** A step bound of zero, outside the contract of the classifier, makes
    no forward pass at all. *)
Example zero_bound_makes_no_pass :
  vision_classify demo_model demo_input 0 1 2 (Some 0) (Some 3)
  = {| run_outcome := Ok true; run_input := demo_input; run_passes := 0;
       run_stdout := [ReachedLimit (Some 0)] |}.
Proof. reflexivity. Qed.

(** The text classifier on a bare tensor, with a model that is not ready
    at the first pass: the append raises and the sequence is unchanged. *)
Example text_classify_not_ready :
  text_classify demo_model (Tensor (Ids [7; 8])) 0 1 2 (Some 2) (Some 1)
  = {| run_outcome := Raise IndexError; run_input := Tensor (Ids [7; 8]);
       run_passes := 1; run_stdout := [] |}.
Proof. reflexivity. Qed.

Lemma py_in_true (x : Z) (l : list Z) : py_in x l = true ↔ x ∈ l.
Proof. unfold py_in. apply bool_decide_eq_true. Qed.

Lemma py_in_false (x : Z) (l : list Z) : py_in x l = false ↔ x ∉ l.
Proof. unfold py_in. apply bool_decide_eq_false. Qed.

Lemma same_dims_unit (cross : list (list (list Z))) :
  Forall (fun u => unit_dims u = [4%nat]) cross →
  same_dims cross [[[1; 1; 0; 0]]] = true.
Proof.
  induction 1 as [|u cross Hu _ IH]; [reflexivity|].
  unfold same_dims in *. cbn [forallb] in *. rewrite IH, Hu. reflexivity.
Qed.

Lemma vision_input_token_ids input ids mask cross :
  vision_input input ids mask cross → token_ids input = ids.
Proof. intros (data & -> & Hids & _). cbn. by rewrite Hids. Qed.

Lemma vision_input_device input ids mask cross :
  vision_input input ids mask cross → vision_device input = Ok tt.
Proof. intros (data & -> & Hids & _). unfold vision_device. cbn. by rewrite Hids. Qed.

Lemma append_to_lookup data key old new t :
  data !! key = Some old → torch_cat old t = Ok new →
  append_to key t (BatchFeature data) = Ok (BatchFeature (<[key := new]> data)).
Proof. intros Hold Hcat. unfold append_to, getitem. rewrite Hold. cbn. by rewrite Hcat. Qed.

(** On such an input the three assignments succeed and each sequence
    grows by one entry. *)
Lemma vision_append_ok input ids mask cross next :
  vision_input input ids mask cross →
  ∃ input', vision_append input next = (input', None)
    ∧ vision_input input' (ids ++ [next]) (mask ++ [1])
        (cross ++ [[[1; 1; 0; 0]]]).
Proof.
  intros (data & -> & Hids & Hmask & Hcross & Hdims).
  eexists. split.
  - unfold vision_append.
    erewrite append_to_lookup; [|exact Hids|reflexivity].
    erewrite append_to_lookup;
      [|by rewrite lookup_insert_ne|reflexivity].
    erewrite append_to_lookup;
      [|by rewrite !lookup_insert_ne
       |unfold torch_cat; by rewrite (same_dims_unit _ Hdims)].
    reflexivity.
  - eexists. split; [reflexivity|].
    repeat split.
    + rewrite !lookup_insert_ne by done. apply lookup_insert_eq.
    + rewrite lookup_insert_ne by done. apply lookup_insert_eq.
    + apply lookup_insert_eq.
    + apply Forall_app. split; [done|]. by constructor.
Qed.

(** A bare tensor cannot be extended: the first subscript raises. *)
Lemma text_append_tensor t next :
  text_append (Tensor t) next = (Tensor t, Some IndexError).
Proof. reflexivity. Qed.

Section ClassifierFacts.
Context {V : Type} `{Scalar V}.
Variable model : PyInput → list V.
Variable device : PyInput → result unit.
Variable call : PyInput → result (list V).
Variable append : PyInput → Z → PyInput * option exn.
Variables (req_logit_diff : V) (id_1 id_0 : Z).
Variables (max_steps topk : option Z).

Lemma classification_spec logits b :
  classification logits req_logit_diff id_1 id_0 = Ok b ↔
  ∃ l1 l0, tensor_index logits id_1 = Ok l1 ∧ tensor_index logits id_0 = Ok l0
    ∧ b = s_geb (s_sub l1 l0) req_logit_diff.
Proof.
  unfold classification. split.
  - destruct (tensor_index logits id_1) as [l1|]; [|done].
    destruct (tensor_index logits id_0) as [l0|]; [|done].
    cbn. intros [= <-]. eauto.
  - intros (l1 & l0 & -> & -> & ->). reflexivity.
Qed.

Lemma iteration_body_unbounded input logits :
  py_truthy max_steps = false →
  iteration_body append req_logit_diff id_1 id_0 max_steps topk input logits
  = Leave (classification logits req_logit_diff id_1 id_0) input.
Proof. unfold iteration_body. by intros ->. Qed.

Lemma iteration_body_ready input logits topk_ids :
  torch_topk logits topk = Ok topk_ids →
  id_1 ∈ topk_ids ∨ id_0 ∈ topk_ids →
  iteration_body append req_logit_diff id_1 id_0 max_steps topk input logits
  = Leave (classification logits req_logit_diff id_1 id_0) input.
Proof.
  intros Htopk Hin. unfold iteration_body. rewrite Htopk.
  destruct (py_truthy max_steps); [|done].
  destruct Hin as [Hin|Hin]; apply py_in_true in Hin; rewrite Hin;
    [|rewrite andb_false_r]; reflexivity.
Qed.

Lemma iteration_body_not_ready input logits next rest :
  py_truthy max_steps = true →
  torch_topk logits topk = Ok (next :: rest) →
  id_1 ∉ (next :: rest) → id_0 ∉ (next :: rest) →
  iteration_body append req_logit_diff id_1 id_0 max_steps topk input logits
  = match append input next with
    | (input', None) => Continue input'
    | (input', Some e) => Leave (Raise e) input'
    end.
Proof.
  intros Hms Htopk H1 H0. unfold iteration_body. rewrite Hms, Htopk.
  apply py_in_false in H1, H0. by rewrite H1, H0.
Qed.

(** A run that ends in the scoring step leaves the input as the last
    forward pass saw it, and returns what the scoring step computes from
    the logits of that pass. *)
Lemma classify_loop_scored steps input passes b :
  let r := classify_loop call append req_logit_diff id_1 id_0 max_steps topk
             steps input passes in
  run_outcome r = Ok b → run_stdout r = [] →
  ∃ logits, call (run_input r) = Ok logits
    ∧ classification logits req_logit_diff id_1 id_0 = Ok b.
Proof.
  revert input passes. induction steps as [|steps IH]; intros input passes; cbn.
  - discriminate.
  - destruct (call input) as [logits|e] eqn:Hcall; cbn; [|discriminate].
    destruct (iteration_body _ _ _ _ _ _ input logits) as [input'|r input'] eqn:Hbody.
    + apply IH.
    + cbn. intros -> _. exists logits.
      assert (input' = input ∧
              classification logits req_logit_diff id_1 id_0 = Ok b) as [-> ?];
        [|done].
      revert Hbody. unfold iteration_body.
      destruct (py_truthy max_steps); [|by intros [= <- <-]].
      destruct (torch_topk logits topk) as [ids|]; [|discriminate].
      destruct (andb (negb (py_in id_1 ids)) (negb (py_in id_0 ids)));
        [|by intros [= <- <-]].
      destruct ids as [|next ?]; [discriminate|].
      destruct (append input next) as [? [?|]]; discriminate.
Qed.
End ClassifierFacts.

Lemma accepts_vision_call {V : Type} (model : PyInput → list V) input :
  accepts Vision input → call_unpacked model input = Ok (model input).
Proof.
  unfold accepts, vision_device. destruct input as [t|data]; [discriminate|done].
Qed.

(** Both variants, with the bound disabled or with the first pass ready,
    make one pass and score it. *)
Lemma classify_single_pass {V : Type} `{Scalar V} mode (model : PyInput → list V)
    input req id_1 id_0 max_steps topk :
  accepts mode input → bound_ok max_steps →
  (py_truthy max_steps = true →
   ∃ topk_ids, torch_topk (model input) topk = Ok topk_ids
     ∧ (id_1 ∈ topk_ids ∨ id_0 ∈ topk_ids)) →
  classify mode model input req id_1 id_0 max_steps topk
  = {| run_outcome := classification (model input) req id_1 id_0;
       run_input := input; run_passes := 1; run_stdout := [] |}.
Proof.
  intros Hacc Hbound Hready.
  assert (∃ steps', Z.to_nat (steps_of max_steps) = S steps') as [steps' Hsteps].
  { destruct max_steps as [n|]; cbn in *; [|by exists O].
    exists (Nat.pred (Z.to_nat n)). lia. }
  assert (∀ append,
    iteration_body append req id_1 id_0 max_steps topk input (model input)
    = Leave (classification (model input) req id_1 id_0) input) as Hbody.
  { intros append. destruct (py_truthy max_steps) eqn:Hms.
    - destruct (Hready eq_refl) as (ids & Htopk & Hin).
      by eapply iteration_body_ready.
    - by apply iteration_body_unbounded. }
  destruct mode; cbn [classify].
  - unfold vision_classify, classify_with. cbn [accepts] in Hacc. rewrite Hacc.
    rewrite Hsteps. cbn [classify_loop].
    rewrite (accepts_vision_call model input Hacc), Hbody. reflexivity.
  - unfold text_classify, classify_with. cbn [accepts] in Hacc. rewrite Hacc.
    rewrite Hsteps. cbn [classify_loop]. unfold call_positional at 1.
    rewrite Hbody. reflexivity.
Qed.

(** C7: with the step bound disabled ([max_steps] is [None]) either
    variant of the classifier makes exactly one forward pass, computes no
    top-K ids and appends nothing (the input is left as it was), and
    returns what the scoring step, the [>=] decision, yields on the logits
    of that single pass. *)
Theorem disabled_bound_one_attempt {V : Type} `{Scalar V} (mode : Mode)
    (model : PyInput → list V) (input : PyInput) (req : V) (id_1 id_0 : Z)
    (topk : option Z) :
  accepts mode input →
  classify mode model input req id_1 id_0 None topk
  = {| run_outcome := classification (model input) req id_1 id_0;
       run_input := input; run_passes := 1; run_stdout := [] |}
  ∧ ∀ l1 l0, tensor_index (model input) id_1 = Ok l1 →
      tensor_index (model input) id_0 = Ok l0 →
      run_outcome (classify mode model input req id_1 id_0 None topk)
      = Ok (s_geb (s_sub l1 l0) req).
Proof.
  intros Hacc.
  assert (classify mode model input req id_1 id_0 None topk
    = {| run_outcome := classification (model input) req id_1 id_0;
         run_input := input; run_passes := 1; run_stdout := [] |}) as Heq.
  { apply classify_single_pass; [done|done|discriminate]. }
  split; [exact Heq|].
  intros l1 l0 H1 H0. rewrite Heq. cbn.
  apply classification_spec. eauto.
Qed.

(** C2: when the first forward pass puts [id_1] or [id_0] among the top-K
    ids, either variant of the classifier returns after exactly one
    forward pass and leaves the encoded input as it was, whatever the
    step bound (a positive integer or disabled); the value returned is the
    decision of the scoring step on that pass. *)
Theorem ready_first_pass_returns {V : Type} `{Scalar V} (mode : Mode)
    (model : PyInput → list V) (input : PyInput) (req : V) (id_1 id_0 : Z)
    (max_steps topk : option Z) (topk_ids : list Z) (l1 l0 : V) :
  accepts mode input → bound_ok max_steps →
  torch_topk (model input) topk = Ok topk_ids →
  id_1 ∈ topk_ids ∨ id_0 ∈ topk_ids →
  tensor_index (model input) id_1 = Ok l1 →
  tensor_index (model input) id_0 = Ok l0 →
  classify mode model input req id_1 id_0 max_steps topk
  = {| run_outcome := Ok (s_geb (s_sub l1 l0) req);
       run_input := input; run_passes := 1; run_stdout := [] |}.
Proof.
  intros Hacc Hbound Htopk Hin H1 H0.
  rewrite classify_single_pass by eauto.
  f_equal. apply classification_spec. eauto.
Qed.

Lemma Rgeb_true (x y : R) : (x >= y)%R → Rgeb x y = true.
Proof. intros Hxy. unfold Rgeb. destruct (Rge_dec x y); [reflexivity|contradiction]. Qed.

Lemma Rgeb_false (x y : R) : (x < y)%R → Rgeb x y = false.
Proof. intros Hxy. unfold Rgeb. destruct (Rge_dec x y); [lra|reflexivity]. Qed.

(** Equal finite values compare as [>=]; [nan] does not. *)
Lemma XR_geb_refl (a : XR) : a ≠ NaN → XR_geb a a = true.
Proof. destruct a; cbn; try done. intros _. apply Rgeb_true. lra. Qed.

Lemma classify_scored {V : Type} `{Scalar V} mode (model : PyInput → list V)
    input req id_1 id_0 max_steps topk b :
  run_outcome (classify mode model input req id_1 id_0 max_steps topk) = Ok b →
  run_stdout (classify mode model input req id_1 id_0 max_steps topk) = [] →
  classification
    (model (run_input (classify mode model input req id_1 id_0 max_steps topk)))
    req id_1 id_0 = Ok b.
Proof.
  destruct mode; cbn [classify].
  - unfold vision_classify, classify_with.
    destruct (vision_device input); [|discriminate].
    intros Hout Hstd.
    destruct (classify_loop_scored (call_unpacked model) vision_append req
                id_1 id_0 max_steps topk _ _ _ b Hout Hstd)
      as (logits & Hcall & Hcls).
    unfold call_unpacked in Hcall.
    destruct (run_input _); [discriminate|]. by injection Hcall as <-.
  - unfold text_classify, classify_with.
    destruct (text_device input); [|discriminate].
    intros Hout Hstd.
    destruct (classify_loop_scored (call_positional model) text_append req
                id_1 id_0 max_steps topk _ _ _ b Hout Hstd)
      as (logits & Hcall & Hcls).
    unfold call_positional in Hcall. by injection Hcall as <-.
Qed.

(** C3: whenever either variant of the classifier returns from the
    scoring step (it returns without having printed that the attempt limit
    was reached), the value returned is exactly
    [logit(id_1) - logit(id_0) >= req_logit_diff] on the logits of the
    forward pass over the input as the call leaves it, with the
    subtraction and the comparison of the tensor type of the logits,
    whatever that type is (for a floating point type, with its rounding).
    When the difference of the logits equals a required difference that
    compares [>=] to itself (any value but [nan]) the value is [true]: the
    boundary is inclusive.  The value is a function of the two logits and
    of the required difference: any other call that scores the same two
    logits against the same requirement returns the same value. *)
Theorem scoring_step_decision {V : Type} `{Scalar V} (mode : Mode)
    (model : PyInput → list V) (input : PyInput) (req : V) (id_1 id_0 : Z)
    (max_steps topk : option Z) (b : bool) :
  run_outcome (classify mode model input req id_1 id_0 max_steps topk) = Ok b →
  run_stdout (classify mode model input req id_1 id_0 max_steps topk) = [] →
  ∃ l1 l0,
    let logits :=
      model (run_input (classify mode model input req id_1 id_0 max_steps topk)) in
    tensor_index logits id_1 = Ok l1
    ∧ tensor_index logits id_0 = Ok l0
    ∧ b = s_geb (s_sub l1 l0) req
    ∧ (s_sub l1 l0 = req → s_geb req req = true → b = true)
    ∧ ∀ mode' (model' : PyInput → list V) input' id_1' id_0' max_steps' topk' b',
        let r' := classify mode' model' input' req id_1' id_0' max_steps' topk' in
        run_outcome r' = Ok b' → run_stdout r' = [] →
        tensor_index (model' (run_input r')) id_1' = Ok l1 →
        tensor_index (model' (run_input r')) id_0' = Ok l0 →
        b' = b.
Proof.
  intros Hout Hstd.
  pose proof (classify_scored _ _ _ _ _ _ _ _ _ Hout Hstd) as Hcls.
  apply classification_spec in Hcls as (l1 & l0 & H1 & H0 & Hb).
  exists l1, l0. cbn zeta. split; [done|]. split; [done|]. split; [done|]. split.
  - intros Heq Hrefl. by rewrite Hb, Heq.
  - intros mode' model' input' id_1' id_0' max_steps' topk' b' Hout' Hstd' H1' H0'.
    pose proof (classify_scored _ _ _ _ _ _ _ _ _ Hout' Hstd') as Hcls'.
    apply classification_spec in Hcls' as (l1' & l0' & Hl1' & Hl0' & Hb').
    rewrite H1' in Hl1'. rewrite H0' in Hl0'.
    injection Hl1' as <-. injection Hl0' as <-. by rewrite Hb, Hb'.
Qed.

(** The scoring step on extended reals: the logit of [id_0] is
    subtracted, and the comparison is with the required difference. *)
Example scoring_step_on_reals :
  classification [Fin 5; Fin 1; Fin (-1); Fin 9] (Fin 2) 1 2 = Ok true
  ∧ classification [Fin 5; Fin 1; Fin (-1); Fin 9] (Fin 2) 1 0 = Ok false
  ∧ classification [Fin 5; Fin 1; Fin (-1); Fin 9] NaN 1 2 = Ok false.
Proof.
  repeat split; apply classification_spec.
  - exists (Fin 1), (Fin (-1)). repeat split. symmetry. apply Rgeb_true. lra.
  - exists (Fin 1), (Fin 5). repeat split. symmetry. apply Rgeb_false. lra.
Qed.

Lemma classify_loop_never_ready {V : Type} `{Scalar V} (model : PyInput → list V)
    req id_1 id_0 n topk :
  n ≠ 0 →
  ∀ steps input ids mask cross passes,
    vision_input input ids mask cross →
    never_ready model id_1 id_0 topk steps input →
    let r := classify_loop (call_unpacked model) vision_append req id_1 id_0
               (Some n) topk steps input passes in
    run_outcome r = Ok true
    ∧ run_stdout r = [ReachedLimit (Some n)]
    ∧ run_passes r = (passes + steps)%nat
    ∧ ∃ appended, length appended = steps
        ∧ vision_input (run_input r) (ids ++ appended)
            (mask ++ replicate steps 1)
            (cross ++ replicate steps [[1; 1; 0; 0]]).
Proof.
  intros Hn. induction steps as [|steps IH];
    intros input ids mask cross passes Hwf Hnever.
  - cbn. repeat split; [lia|]. exists []. by rewrite !app_nil_r.
  - destruct Hnever as (next & rest & Htopk & H1 & H0 & Hnever).
    destruct (vision_append_ok _ _ _ _ next Hwf) as (input' & Happ & Hwf').
    rewrite Happ in Hnever. cbn [fst] in Hnever.
    cbn [classify_loop].
    assert (call_unpacked model input = Ok (model input)) as ->.
    { destruct Hwf as (data & -> & _). reflexivity. }
    erewrite iteration_body_not_ready; [|by apply negb_true_iff, Z.eqb_neq|done..].
    rewrite Happ.
    destruct (IH input' _ _ _ (S passes) Hwf' Hnever)
      as (Hout & Hstd & Hpass & app & Hlen & Hfinal).
    repeat split; [done|done|lia|].
    exists (next :: app). split; [cbn; lia|].
    cbn [replicate]. rewrite <- !app_assoc in Hfinal. exact Hfinal.
Qed.

(** C1 (as the code has it): in the vision variant, when for [max_steps]
    forward passes in a row the top-K ids hold neither [id_1] nor [id_0],
    the classifier returns [true], prints that the attempt limit was
    reached, has made [max_steps] passes, and has appended one token at
    every pass, the last one included: the token sequence, the attention
    mask and the cross-attention mask have grown by exactly [max_steps]
    entries, and no pass was scored. *)
Theorem never_ready_exhausts_bound {V : Type} `{Scalar V}
    (model : PyInput → list V) (input : PyInput) (ids mask : list Z)
    (cross : list (list (list Z))) (req : V) (id_1 id_0 n : Z)
    (topk : option Z) :
  0 < n →
  vision_input input ids mask cross →
  never_ready model id_1 id_0 topk (Z.to_nat n) input →
  let r := vision_classify model input req id_1 id_0 (Some n) topk in
  run_outcome r = Ok true
  ∧ run_stdout r = [ReachedLimit (Some n)]
  ∧ Z.of_nat (run_passes r) = n
  ∧ ∃ appended,
      Z.of_nat (length appended) = n
      ∧ token_ids (run_input r) = ids ++ appended
      ∧ vision_input (run_input r) (ids ++ appended)
          (mask ++ replicate (Z.to_nat n) 1)
          (cross ++ replicate (Z.to_nat n) [[1; 1; 0; 0]]).
Proof.
  intros Hn Hwf Hnever. unfold vision_classify, classify_with.
  rewrite (vision_input_device _ _ _ _ Hwf). cbn [steps_of].
  destruct (classify_loop_never_ready model req id_1 id_0 n topk
              ltac:(lia) _ _ _ _ _ O Hwf Hnever)
    as (Hout & Hstd & Hpass & app & Hlen & Hfinal).
  cbn zeta. repeat split; [done|done|lia|].
  exists app. repeat split; [lia| |done].
  by eapply vision_input_token_ids.
Qed.

Lemma demo_input_wf :
  vision_input demo_input [7; 8] [1; 1] [[[1; 1; 0; 0]]; [[1; 1; 0; 0]]].
Proof.
  eexists. split; [reflexivity|]. repeat split; try by vm_compute.
  repeat constructor.
Qed.

Lemma demo_never_ready : never_ready demo_model 1 2 (Some 1) 2 demo_input.
Proof.
  exists 3, []. repeat split; [by apply (bool_decide_unpack _)..|].
  exists 3, []. repeat split; by apply (bool_decide_unpack _).
Qed.

Lemma never_ready_exhausts_bound_witness :
  run_outcome (vision_classify demo_model demo_input 0 1 2 (Some 2) (Some 1))
  = Ok true.
Proof.
  exact (proj1 (never_ready_exhausts_bound demo_model demo_input _ _ _ 0 1 2 2
                  (Some 1) ltac:(lia) demo_input_wf demo_never_ready)).
Defined.

(** C1 as the specification words it fails: with a bound of two steps
    and a model that is never ready, the classifier returns [true] after
    appending two tokens, not [2 - 1]. *)
Lemma growth_is_not_one_less_than_bound :
  never_ready demo_model 1 2 (Some 1) 2 demo_input
  ∧ run_outcome (vision_classify demo_model demo_input 0 1 2 (Some 2) (Some 1))
    = Ok true
  ∧ token_ids (run_input
      (vision_classify demo_model demo_input 0 1 2 (Some 2) (Some 1)))
    = token_ids demo_input ++ [3; 3]
  ∧ Z.of_nat (length (token_ids (run_input
      (vision_classify demo_model demo_input 0 1 2 (Some 2) (Some 1)))))
    ≠ Z.of_nat (length (token_ids demo_input)) + (2 - 1).
Proof.
  split; [exact demo_never_ready|]. by vm_compute.
Qed.

Lemma demo_input_accepted : accepts Vision demo_input.
Proof. by vm_compute. Qed.

Lemma disabled_bound_one_attempt_witness :
  classify Vision demo_model demo_input 0 1 2 None None
  = {| run_outcome := classification (demo_model demo_input) 0 1 2;
       run_input := demo_input; run_passes := 1; run_stdout := [] |}.
Proof.
  exact (proj1 (disabled_bound_one_attempt Vision demo_model demo_input 0 1 2 None
                  demo_input_accepted)).
Defined.

Lemma demo_top3_has_id_1 : 1 ∈ [3; 0; 1] ∨ 2 ∈ [3; 0; 1].
Proof. left. by apply (bool_decide_unpack _). Qed.

Lemma ready_first_pass_returns_witness :
  classify Vision demo_model demo_input 0 1 2 (Some 10) (Some 3)
  = {| run_outcome := Ok true; run_input := demo_input; run_passes := 1;
       run_stdout := [] |}.
Proof.
  exact (ready_first_pass_returns Vision demo_model demo_input 0 1 2 (Some 10)
           (Some 3) [3; 0; 1] 1 0 demo_input_accepted ltac:(cbn; lia) eq_refl
           demo_top3_has_id_1 eq_refl eq_refl).
Defined.

Lemma demo_tie_run :
  classify Vision demo_model_tie demo_input (Fin 0) 1 2 None None
  = {| run_outcome := Ok true; run_input := demo_input; run_passes := 1;
       run_stdout := [] |}.
Proof.
  rewrite classify_single_pass;
    [|exact demo_input_accepted|exact I|discriminate].
  f_equal. apply classification_spec.
  exists (Fin 2), (Fin 2). repeat split.
  symmetry. apply Rgeb_true. lra.
Qed.

(** A ready first pass on the signed sample: tokens 3, 0 and 1 are the
    top three, so that the pass is scored, [1 - (-1) >= 2]. *)
Lemma demo_signed_run :
  classify Vision demo_model_signed demo_input 2 1 2 (Some 3) (Some 3)
  = {| run_outcome := Ok true; run_input := demo_input; run_passes := 1;
       run_stdout := [] |}.
Proof. by vm_compute. Qed.

Lemma scoring_step_decision_witness :
  ∃ l1 l0 : Z,
    tensor_index (demo_model_signed demo_input) 1 = Ok l1
    ∧ tensor_index (demo_model_signed demo_input) 2 = Ok l0
    ∧ true = (l1 - l0 >=? 2)
    ∧ (l1 - l0 = 2 → (2 >=? 2) = true → true = true).
Proof.
  pose proof (scoring_step_decision Vision demo_model_signed demo_input 2 1 2
                (Some 3) (Some 3) true) as Hthm.
  rewrite demo_signed_run in Hthm.
  destruct (Hthm eq_refl eq_refl) as (l1 & l0 & H1 & H0 & Hb & Hedge & _).
  exists l1, l0. by repeat split.
Defined.

(** * Properties of the drivers *)

(** The text driver hands the classifier a bare tensor. *)
Lemma text_sample_tensor P caption_column prompt row input :
  text_sample P caption_column prompt row = Ok input → ∃ t, input = Tensor t.
Proof.
  unfold text_sample.
  destruct (getattr P row caption_column) as [caption|]; [|discriminate]. cbn.
  destruct (str_format P prompt caption) as [formatted|]; [|discriminate]. cbn.
  intros [= <-]. eauto.
Qed.

Lemma text_classify_tensor {V : Type} `{Scalar V} (model : PyInput → list V)
    t req id_1 id_0 n topk :
  0 < n →
  text_classify model (Tensor t) req id_1 id_0 (Some n) topk
  = match torch_topk (model (Tensor t)) topk with
    | Raise e =>
        {| run_outcome := Raise e; run_input := Tensor t; run_passes := 1;
           run_stdout := [] |}
    | Ok topk_ids =>
        {| run_outcome :=
             if negb (py_in id_1 topk_ids) && negb (py_in id_0 topk_ids)
             then Raise IndexError
             else classification (model (Tensor t)) req id_1 id_0;
           run_input := Tensor t; run_passes := 1; run_stdout := [] |}
    end.
Proof.
  intros Hn. unfold text_classify, classify_with. cbn [text_device getattr_device steps_of].
  destruct (Z.to_nat n) as [|steps'] eqn:Hsteps; [lia|].
  cbn [classify_loop]. unfold call_positional at 1. unfold iteration_body.
  assert (py_truthy (Some n) = true) as -> by (apply negb_true_iff, Z.eqb_neq; lia).
  destruct (torch_topk (model (Tensor t)) topk) as [ids|e]; [|reflexivity].
  destruct (negb (py_in id_1 ids) && negb (py_in id_0 ids)); [|reflexivity].
  destruct ids as [|next rest]; [reflexivity|].
  rewrite text_append_tensor. reflexivity.
Qed.

(** C10: the text driver encodes a row as a bare tensor, on which the
    subscripts [input["input_ids"]] and [input["attention_mask"]] of the
    append branch raise.  Hence, for every row the text driver encodes
    and every positive step bound: the classifier makes one forward pass
    and never extends the sequence; if the top-K ids of that pass hold
    neither [id_1] nor [id_0] the call raises; and the call returns a value
    only if that first pass already put [id_1] or [id_0] among the top-K
    ids. *)
Theorem text_append_branch_raises (P : Provider) (caption_column : option string)
    (prompt : string) (row : gmap string string) (input : PyInput)
    (req : XR) (id_1 id_0 n : Z) (topk : option Z) :
  text_sample P caption_column prompt row = Ok input →
  0 < n →
  let r := text_classify (model P) input req id_1 id_0 (Some n) topk in
  (∃ t, input = Tensor t)
  ∧ getitem input "input_ids" = Raise IndexError
  ∧ getitem input "attention_mask" = Raise IndexError
  ∧ run_input r = input
  ∧ run_passes r = 1%nat
  ∧ (∀ topk_ids, torch_topk (model P input) topk = Ok topk_ids →
       id_1 ∉ topk_ids → id_0 ∉ topk_ids → run_outcome r = Raise IndexError)
  ∧ (∀ b, run_outcome r = Ok b →
       ∃ topk_ids, torch_topk (model P input) topk = Ok topk_ids
         ∧ (id_1 ∈ topk_ids ∨ id_0 ∈ topk_ids)).
Proof.
  intros Hsample Hn.
  destruct (text_sample_tensor _ _ _ _ _ Hsample) as [t ->].
  cbn zeta. rewrite text_classify_tensor by done.
  split; [eauto|]. split; [reflexivity|]. split; [reflexivity|].
  destruct (torch_topk (model P (Tensor t)) topk) as [ids|e]; cbn.
  - repeat split.
    + intros ? [= <-] H1%py_in_false H0%py_in_false. by rewrite H1, H0.
    + intros b Hb. exists ids. split; [done|].
      destruct (py_in id_1 ids) eqn:H1; [left; by apply py_in_true|].
      destruct (py_in id_0 ids) eqn:H0; [right; by apply py_in_true|].
      discriminate.
  - repeat split; [discriminate|discriminate].
Qed.

(** ** The required logit difference *)

Lemma py_div_ok (x y : R) : y ≠ 0%R → py_div x y = Ok (x / y)%R.
Proof. intros Hy. unfold py_div. by destruct (Req_dec_T y 0). Qed.

Lemma torch_log_pos (x : R) : (0 < x)%R → torch_log (Fin x) = Fin (ln x).
Proof. intros Hx. cbn. by destruct (Rlt_dec 0 x). Qed.

Lemma torch_log_zero : torch_log (Fin 0) = NInf.
Proof.
  cbn. destruct (Rlt_dec 0 0); [lra|]. by destruct (Req_dec_T 0 0).
Qed.

Lemma torch_log_neg (x : R) : (x < 0)%R → torch_log (Fin x) = NaN.
Proof.
  intros Hx. cbn. destruct (Rlt_dec 0 x); [lra|].
  destruct (Req_dec_T x 0); [lra|reflexivity].
Qed.

Lemma req_logit_diff_one : req_logit_diff 1 = Raise ZeroDivisionError.
Proof.
  unfold req_logit_diff, py_div.
  destruct (Req_dec_T (1 - 1) 0) as [_|Hne]; [reflexivity|]. exfalso. lra.
Qed.

Lemma req_logit_diff_not_one (t : R) :
  t ≠ 1%R → req_logit_diff t = Ok (torch_log (Fin (t / (1 - t)))).
Proof.
  intros Ht. unfold req_logit_diff. rewrite py_div_ok; [reflexivity|]. lra.
Qed.

Lemma odds_pos (t : R) : (0 < t < 1)%R → (0 < t / (1 - t))%R.
Proof. intros [H0 H1]. apply Rdiv_lt_0_compat; lra. Qed.

Lemma odds_increasing (t1 t2 : R) :
  (0 < t1)%R → (t1 < t2)%R → (t2 < 1)%R → (t1 / (1 - t1) < t2 / (1 - t2))%R.
Proof.
  intros H0 H12 H1.
  apply (Rmult_lt_reg_r ((1 - t1) * (1 - t2))).
  - apply Rmult_lt_0_compat; lra.
  - replace (t1 / (1 - t1) * ((1 - t1) * (1 - t2)))%R with (t1 * (1 - t2))%R
      by (field; lra).
    replace (t2 / (1 - t2) * ((1 - t1) * (1 - t2)))%R with (t2 * (1 - t1))%R
      by (field; lra).
    lra.
Qed.

(** The transform in exact arithmetic: for thresholds in (0,1) it is
    the natural logarithm of the odds, [ln (t / (1 - t))], strictly
    increasing in the threshold and [0] at [1/2]; the prelude computes it
    before the loop over the rows.  This is a fact of the real-valued
    [req_logit_diff] of this embedding.  Line 55 computes in floating
    point and rounds the quotient to single precision before the
    logarithm, which the embedding does not follow: there, thresholds
    close enough to each other get the same required difference. *)
Lemma req_logit_diff_exact (t1 t2 : R) :
  (0 < t1)%R → (t1 < t2)%R → (t2 < 1)%R →
  req_logit_diff t1 = Ok (Fin (ln (t1 / (1 - t1))))
  ∧ req_logit_diff t2 = Ok (Fin (ln (t2 / (1 - t2))))
  ∧ (ln (t1 / (1 - t1)) < ln (t2 / (1 - t2)))%R
  ∧ req_logit_diff (1 / 2) = Ok (Fin 0)
  ∧ ∀ P, prelude P t1
         = (true_token_id ← first_token_id P "1";
            false_token_id ← first_token_id P "0";
            Ok (Fin (ln (t1 / (1 - t1))), true_token_id, false_token_id)).
Proof.
  intros H0 H12 H1.
  assert (∀ t, (0 < t < 1)%R → req_logit_diff t = Ok (Fin (ln (t / (1 - t)))))
    as Hreq.
  { intros t Ht. rewrite req_logit_diff_not_one by lra.
    by rewrite torch_log_pos by by apply odds_pos. }
  split; [apply Hreq; lra|]. split; [apply Hreq; lra|].
  split.
  { apply ln_increasing; [apply odds_pos; lra|by apply odds_increasing]. }
  split.
  { rewrite Hreq by lra. do 2 f_equal.
    replace (1 / 2 / (1 - 1 / 2))%R with 1%R by field. apply ln_1. }
  intros P. unfold prelude. rewrite Hreq by lra. reflexivity.
Qed.

(** ** The prelude and the threshold *)

Section Prelude.
Variable P : Provider.
Variable metadata : DataFrame.
Variables (caption_column image_column : option string).
Variables (prompt output_path : string) (has_header : bool) (delim : string).
Variables (save_every max_steps topk : option Z) (keep_corrupted : bool).
Variable files0 : gmap string CsvFile.

Lemma vision_filter_after_prelude threshold req true_token_id false_token_id :
  prelude P threshold = Ok (req, true_token_id, false_token_id) →
  vision_filter P metadata caption_column image_column prompt output_path
    has_header delim save_every max_steps topk keep_corrupted files0 threshold
  = match for_rows
            (vision_row P metadata caption_column image_column prompt
               output_path has_header delim save_every keep_corrupted
               (fun input => vision_classify (model P) input req true_token_id
                               false_token_id max_steps topk))
            (initial_state files0) (df_rows metadata) with
    | (st, Some e) => {| outcome := Raise e; final := st |}
    | (st, None) =>
        {| outcome := Ok (results st, missing_or_corrupted st); final := st |}
    end.
Proof. unfold vision_filter. by intros ->. Qed.

Lemma text_filter_after_prelude threshold req true_token_id false_token_id :
  prelude P threshold = Ok (req, true_token_id, false_token_id) →
  text_filter P metadata caption_column prompt output_path has_header delim
    save_every max_steps topk files0 threshold
  = match for_rows
            (text_row P metadata caption_column prompt output_path has_header
               delim save_every
               (fun input => text_classify (model P) input req true_token_id
                               false_token_id max_steps topk))
            (initial_state files0) (df_rows metadata) with
    | (st, Some e) => {| outcome := Raise e; final := st |}
    | (st, None) => {| outcome := Ok (results st); final := st |}
    end.
Proof. unfold text_filter. by intros ->. Qed.

Lemma prelude_not_one threshold true_token_id false_token_id :
  threshold ≠ 1%R →
  first_token_id P "1" = Ok true_token_id →
  first_token_id P "0" = Ok false_token_id →
  prelude P threshold
  = Ok (torch_log (Fin (threshold / (1 - threshold))), true_token_id,
        false_token_id).
Proof.
  intros Ht H1 H0. unfold prelude.
  rewrite req_logit_diff_not_one by done. cbn. rewrite H1. cbn. by rewrite H0.
Qed.

(** C9 (as the code has it): the drivers do not validate the threshold.
    The only threshold that aborts a run before any classification is
    [1], through the division by zero of the prelude.  Every other
    threshold, inside (0,1) or not, gets a required difference from line
    55 and lets the run go on (once the two token ids are resolved) to the
    loop over the rows, which classifies them against that value. *)
Theorem threshold_is_not_validated (threshold : R) :
  (threshold = 1%R →
   vision_filter P metadata caption_column image_column prompt output_path
     has_header delim save_every max_steps topk keep_corrupted files0 threshold
   = {| outcome := Raise ZeroDivisionError; final := initial_state files0 |}
   ∧ text_filter P metadata caption_column prompt output_path has_header delim
       save_every max_steps topk files0 threshold
     = {| outcome := Raise ZeroDivisionError; final := initial_state files0 |})
  ∧ (threshold ≠ 1%R →
     ∃ req,
       req_logit_diff threshold = Ok req
       ∧ ∀ true_token_id false_token_id,
           first_token_id P "1" = Ok true_token_id →
           first_token_id P "0" = Ok false_token_id →
           vision_filter P metadata caption_column image_column prompt
             output_path has_header delim save_every max_steps topk
             keep_corrupted files0 threshold
           = match for_rows
                     (vision_row P metadata caption_column image_column prompt
                        output_path has_header delim save_every keep_corrupted
                        (fun input =>
                           vision_classify (model P) input req true_token_id
                             false_token_id max_steps topk))
                     (initial_state files0) (df_rows metadata) with
             | (st, Some e) => {| outcome := Raise e; final := st |}
             | (st, None) =>
                 {| outcome := Ok (results st, missing_or_corrupted st);
                    final := st |}
             end
           ∧ text_filter P metadata caption_column prompt output_path has_header
               delim save_every max_steps topk files0 threshold
             = match for_rows
                       (text_row P metadata caption_column prompt output_path
                          has_header delim save_every
                          (fun input =>
                             text_classify (model P) input req true_token_id
                               false_token_id max_steps topk))
                       (initial_state files0) (df_rows metadata) with
               | (st, Some e) => {| outcome := Raise e; final := st |}
               | (st, None) => {| outcome := Ok (results st); final := st |}
               end).
Proof.
  split.
  - intros ->. unfold vision_filter, text_filter, prelude.
    rewrite req_logit_diff_one. by split.
  - intros Ht. eexists. split; [by apply req_logit_diff_not_one|].
    intros i1 i0 H1 H0. split.
    + by apply vision_filter_after_prelude, prelude_not_one.
    + by apply text_filter_after_prelude, prelude_not_one.
Qed.
End Prelude.

Lemma demo_prelude_two : prelude demo_provider 2 = Ok (NaN, 1, 2).
Proof.
  rewrite (prelude_not_one demo_provider 2 1 2) by (done || lra).
  rewrite torch_log_neg; [reflexivity|].
  replace (2 / (1 - 2))%R with (-2)%R by field. lra.
Qed.

(** C9 as the specification words it fails: with the threshold [2],
    outside (0,1), the vision driver does not abort; it calls the
    classifier on the row, which scores it against [nan], and returns
    the results. *)
Lemma invalid_threshold_still_classifies :
  ¬ (0 < 2 < 1)%R
  ∧ outcome (demo_vision_filter [demo_row "a cat" "cat.jpg"] None false 2)
    = Ok ([false], 0)
  ∧ classifier_calls (final (demo_vision_filter [demo_row "a cat" "cat.jpg"] None false 2))
    = 1%nat
  ∧ forward_passes (final (demo_vision_filter [demo_row "a cat" "cat.jpg"] None false 2))
    = 1%nat.
Proof.
  split; [lra|]. unfold demo_vision_filter.
  rewrite (vision_filter_after_prelude _ _ _ _ _ _ _ _ _ _ _ _ _ _ _ _ _
             demo_prelude_two).
  by vm_compute.
Qed.

(** ** The loop over the rows *)

Lemma mask_rows_take {A : Type} (l : list A) (mask : list bool) :
  mask_rows (take (length mask) l) mask = mask_rows l mask.
Proof.
  revert l. induction mask as [|b mask IH]; intros [|x l]; cbn; try done.
  rewrite IH. reflexivity.
Qed.

Lemma mask_rows_app {A : Type} (l : list A) (mask more : list bool) :
  (length mask ≤ length l)%nat →
  take (length (mask_rows l mask)) (mask_rows l (mask ++ more)) = mask_rows l mask.
Proof.
  revert l. induction mask as [|b mask IH]; intros [|x l] Hlen; cbn in *;
    try done; try lia.
  destruct b; cbn; rewrite IH by lia; reflexivity.
Qed.

(** The boolean mask of the code selects what the specification asks
    for. *)
Lemma mask_rows_zip {A : Type} (l : list A) (mask : list bool) :
  mask_rows l mask = (List.filter snd (zip l mask)).*1.
Proof.
  revert mask. induction l as [|x l IH]; intros [|b mask]; cbn; try done.
  rewrite IH. by destruct b.
Qed.

Lemma zip_take {A B : Type} (n : nat) (l : list A) (k : list B) :
  zip (take n l) (take n k) = zip l (take n k).
Proof.
  revert l k. induction n as [|n IH]; intros [|x l] [|y k]; cbn; try done.
  by rewrite IH.
Qed.

Lemma mask_rows_kept_rows {A : Type} (n : nat) (rows : list A) (res : list bool) :
  mask_rows rows (take n res) = kept_rows n rows res.
Proof. unfold kept_rows. by rewrite mask_rows_zip, zip_take. Qed.

Lemma checkpoint_kept_file metadata has_header delim (n : nat) (res : list bool) :
  checkpoint metadata has_header delim (take n res)
  = kept_file metadata has_header delim n res.
Proof. unfold checkpoint, kept_file. by rewrite mask_rows_kept_rows. Qed.

Section LoopFacts.
Variable metadata : DataFrame.
Variables (output_path : string) (has_header : bool) (delim : string).
Variables (save_every : option Z) (keep_corrupted : bool).
Variable encode : gmap string string → result sample.
Variable classify : PyInput → ClassifyRun.

Local Abbreviation save := (safety_saving metadata output_path has_header delim save_every).
Local Abbreviation body :=
  (filter_row metadata output_path has_header delim save_every keep_corrupted
     encode classify).
Local Abbreviation decide_row := (decision keep_corrupted encode classify).
Local Abbreviation file_of := (checkpoint metadata has_header delim).

(** The mask of the safety save always fits: the save does not raise,
    and it touches neither the results nor the counters. *)
Lemma safety_saving_ok st :
  (length (results st) ≤ length (df_rows metadata))%nat →
  ∃ st1, save st = Ok st1
    ∧ results st1 = results st
    ∧ missing_or_corrupted st1 = missing_or_corrupted st
    ∧ classifier_calls st1 = classifier_calls st
    ∧ forward_passes st1 = forward_passes st.
Proof.
  intros Hlen. unfold safety_saving.
  destruct (py_truthy save_every && _); [|by eauto 10].
  unfold getitem_mask, iloc_head. cbn [df_rows df_columns].
  destruct (results st) as [|b res] eqn:Hres; cbn [mbind result_bind].
  - eexists. split; [reflexivity|]. by cbn.
  - rewrite bool_decide_eq_true_2 by (rewrite length_take; lia).
    eexists. split; [reflexivity|]. by cbn.
Qed.

(** What the safety save writes when it fires on results that are not
    empty, and that it does nothing otherwise. *)
Lemma safety_saving_fires st k :
  save_every = Some k → 0 < k → k ≤ since_last_save st →
  results st ≠ [] →
  (length (results st) ≤ length (df_rows metadata))%nat →
  save st
  = Ok {| results := results st;
          since_last_save := 0;
          missing_or_corrupted := missing_or_corrupted st;
          files := <[output_path := file_of (results st)]> (files st);
          to_csv_calls := to_csv_calls st ++ [file_of (results st)];
          stdout := stdout st ++ [SavedTemporary output_path];
          classifier_calls := classifier_calls st;
          forward_passes := forward_passes st |}.
Proof.
  intros -> Hk Hsince Hres Hlen. unfold safety_saving.
  assert (py_truthy (Some k) && (since_last_save st >=? default 0 (Some k)) = true)
    as ->.
  { cbn. apply andb_true_iff. split.
    - apply negb_true_iff, Z.eqb_neq. lia.
    - apply Z.geb_le. lia. }
  unfold getitem_mask, iloc_head. cbn [df_rows df_columns].
  destruct (results st) as [|b res] eqn:Heq; [done|].
  rewrite bool_decide_eq_true_2 by (rewrite length_take; lia).
  cbn [mbind result_bind]. unfold checkpoint.
  by rewrite mask_rows_take.
Qed.

Lemma safety_saving_idle st k :
  save_every = Some k → since_last_save st < k → save st = Ok st.
Proof.
  intros -> Hsince. unfold safety_saving.
  assert (py_truthy (Some k) && (since_last_save st >=? default 0 (Some k)) = false)
    as ->; [|reflexivity].
  cbn. apply andb_false_iff. right.
  destruct (since_last_save st >=? k) eqn:Hge; [|reflexivity].
  apply Z.geb_le in Hge. lia.
Qed.

(** A safety save that returns has touched neither the results nor the
    counters. *)
Lemma safety_saving_keeps st st1 :
  save st = Ok st1 →
  results st1 = results st
  ∧ missing_or_corrupted st1 = missing_or_corrupted st
  ∧ classifier_calls st1 = classifier_calls st
  ∧ forward_passes st1 = forward_passes st.
Proof.
  unfold safety_saving. destruct (py_truthy save_every && _); [|by intros [= <-]].
  destruct (getitem_mask _ _) as [frame|e]; cbn [mbind result_bind];
    [|discriminate].
  by intros [= <-].
Qed.

(** A safety save that fires and returns had a mask that fits. *)
Lemma safety_saving_fits st st1 k :
  save_every = Some k → 0 < k → k ≤ since_last_save st →
  results st ≠ [] →
  save st = Ok st1 →
  (length (results st) ≤ length (df_rows metadata))%nat.
Proof.
  intros -> Hk Hsince Hres. unfold safety_saving.
  assert (py_truthy (Some k) && (since_last_save st >=? default 0 (Some k)) = true)
    as ->.
  { cbn. apply andb_true_iff. split.
    - apply negb_true_iff, Z.eqb_neq. lia.
    - apply Z.geb_le. lia. }
  unfold getitem_mask, iloc_head. cbn [df_rows df_columns].
  destruct (results st) as [|b res] eqn:Heq; [done|].
  case_bool_decide as Hfit; [|discriminate]. intros _.
  rewrite length_take in Hfit. lia.
Qed.

(** The effect of one iteration on the results and the counters. *)
Lemma filter_row_effect st row :
  (length (results st) ≤ length (df_rows metadata))%nat →
  match decide_row row with
  | Ok b =>
      ∃ st', body st row = (st', None)
        ∧ results st' = results st ++ [b]
        ∧ missing_or_corrupted st'
          = missing_or_corrupted st + (if unreadable encode row then 1 else 0)
        ∧ classifier_calls st'
          = (classifier_calls st + (if unreadable encode row then 0 else 1))%nat
  | Raise e => ∃ st', body st row = (st', Some e) ∧ results st' = results st
  end.
Proof.
  intros Hlen.
  destruct (safety_saving_ok st Hlen) as (st1 & Hsave & Hres & Hmiss & Hcalls & _).
  unfold decision, unreadable, filter_row. rewrite Hsave.
  destruct (encode row) as [[msg|input]|e]; cbn.
  - eexists. split; [reflexivity|]. cbn. rewrite Hres, Hmiss, Hcalls.
    repeat split. lia.
  - unfold record_classified.
    destruct (run_outcome (classify input)) as [b|e]; eexists;
      (split; [reflexivity|]); cbn; rewrite Hres, ?Hmiss, ?Hcalls;
      [repeat split; lia|by rewrite app_nil_r].
  - eexists. split; [reflexivity|]. by cbn.
Qed.

(** A run of the loop that ends without raising has appended to the
    results the decisions of the rows, in row order, one per row. *)
Lemma for_rows_results rest :
  ∀ done st st',
    done ++ rest = df_rows metadata →
    length (results st) = length done →
    for_rows body st rest = (st', None) →
    ∃ bs, Forall2 (fun row b => decide_row row = Ok b) rest bs
      ∧ results st' = results st ++ bs
      ∧ missing_or_corrupted st'
        = missing_or_corrupted st
          + Z.of_nat (length (List.filter (unreadable encode) rest))
      ∧ classifier_calls st'
        = (classifier_calls st
           + length (List.filter (fun row => negb (unreadable encode row)) rest))%nat.
Proof.
  induction rest as [|row rest IH]; intros done st st' Hall Hlen; cbn [for_rows].
  - intros [= <-]. exists []. rewrite app_nil_r. cbn. repeat split; [constructor|lia..].
  - assert (length (results st) ≤ length (df_rows metadata))%nat as Hle.
    { rewrite <- Hall, length_app, Hlen. lia. }
    pose proof (filter_row_effect st row Hle) as Heff.
    destruct (decide_row row) as [b|e] eqn:Hdec.
    + destruct Heff as (st1 & -> & Hres & Hmiss & Hcalls).
      intros Hrun.
      destruct (IH (done ++ [row]) st1 st') as (bs & Hbs & Hres' & Hmiss' & Hcalls').
      * by rewrite <- app_assoc.
      * rewrite Hres, !length_app, Hlen. reflexivity.
      * done.
      * exists (b :: bs). split; [by constructor|].
        rewrite Hres', Hres, <- app_assoc. split; [done|].
        rewrite Hmiss', Hmiss, Hcalls', Hcalls. cbn [List.filter].
        destruct (unreadable encode row); cbn; split; lia.
    + destruct Heff as (st1 & -> & _). discriminate.
Qed.

(** When every row has a decision the loop does not raise. *)
Lemma for_rows_total rest :
  ∀ done st bs,
    done ++ rest = df_rows metadata →
    length (results st) = length done →
    Forall2 (fun row b => decide_row row = Ok b) rest bs →
    ∃ st', for_rows body st rest = (st', None).
Proof.
  induction rest as [|row rest IH]; intros done st bs Hall Hlen Hdec; cbn [for_rows].
  - eauto.
  - assert (length (results st) ≤ length (df_rows metadata))%nat as Hle.
    { rewrite <- Hall, length_app, Hlen. lia. }
    inversion Hdec as [|? b ? bs' Hrow Hrest]; subst.
    pose proof (filter_row_effect st row Hle) as Heff. rewrite Hrow in Heff.
    destruct Heff as (st1 & -> & Hres & _).
    apply (IH (done ++ [row]) st1 bs'); [by rewrite <- app_assoc| |done].
    rewrite Hres, !length_app, Hlen. reflexivity.
Qed.
End LoopFacts.

Lemma for_rows_ext body body' :
  (∀ st row, body st row = body' st row) →
  ∀ rows st, for_rows body st rows = for_rows body' st rows.
Proof.
  intros Hext. induction rows as [|row rows IH]; intros st; cbn; [done|].
  rewrite Hext. destruct (body' st row) as [st' [e|]]; [done|]. apply IH.
Qed.

Lemma decisions_unique {A : Type} (f : A → result bool) (l : list A) (bs bs' : list bool) :
  Forall2 (fun x b => f x = Ok b) l bs →
  Forall2 (fun x b => f x = Ok b) l bs' → bs = bs'.
Proof.
  intros Hbs. revert bs'. induction Hbs as [|x b l bs Hx _ IH]; intros bs' Hbs'.
  - by inversion Hbs'.
  - inversion Hbs' as [|? b' ? bs'' Hx' Hrest]; subst.
    rewrite Hx in Hx'. injection Hx' as <-. f_equal. by apply IH.
Qed.

Section DriverFacts.
Variable P : Provider.
Variable metadata : DataFrame.
Variables (caption_column image_column : option string).
Variables (prompt output_path : string) (has_header : bool) (delim : string).
Variables (save_every max_steps topk : option Z) (keep_corrupted : bool).
Variable files0 : gmap string CsvFile.

Local Abbreviation vision_encode := (vision_sample P caption_column image_column prompt).
Local Abbreviation vision_body :=
  (vision_row P metadata caption_column image_column prompt output_path
     has_header delim save_every keep_corrupted).
Local Abbreviation text_body :=
  (text_row P metadata caption_column prompt output_path has_header delim
     save_every).
Local Abbreviation vision_run :=
  (vision_filter P metadata caption_column image_column prompt output_path
     has_header delim save_every max_steps topk keep_corrupted files0).
Local Abbreviation text_run :=
  (text_filter P metadata caption_column prompt output_path has_header delim
     save_every max_steps topk files0).
Local Abbreviation vision_classifier req true_token_id false_token_id :=
  (fun input => vision_classify (model P) input req true_token_id false_token_id
                  max_steps topk).
Local Abbreviation text_classifier req true_token_id false_token_id :=
  (fun input => text_classify (model P) input req true_token_id false_token_id
                  max_steps topk).

Lemma vision_row_filter_row classify st row :
  vision_body classify st row
  = filter_row metadata output_path has_header delim save_every keep_corrupted
      vision_encode classify st row.
Proof. reflexivity. Qed.

Lemma text_row_filter_row classify st row :
  text_body classify st row
  = filter_row metadata output_path has_header delim save_every false
      (text_encode P caption_column prompt) classify st row.
Proof.
  unfold text_row, filter_row, text_encode.
  destruct (safety_saving _ _ _ _ _ st); [|done].
  by destruct (text_sample P caption_column prompt row).
Qed.

Lemma text_rows_never_unreadable rows :
  List.filter (unreadable (text_encode P caption_column prompt)) rows = [].
Proof.
  induction rows as [|row rows IH]; [done|]. cbn.
  unfold unreadable at 1, text_encode.
  by destruct (text_sample P caption_column prompt row).
Qed.

(** C5: a driver that returns, returns one result per row of the
    dataset, in row order, and the result at a position is the decision
    for the row at that position: that of the classifier on the row's
    encoded input or, in vision mode, [keep_corrupted] for a row whose
    image is missing or corrupted.  Conversely, whenever the prelude
    succeeds and every row has a decision, the driver returns those
    decisions.  In vision mode the second component of the value returned
    is the number of rows skipped for a missing or corrupted image. *)
Theorem results_align_with_rows (threshold : R) :
  (∀ res cnt,
     outcome (vision_run threshold) = Ok (res, cnt) ↔
     ∃ req true_token_id false_token_id,
       prelude P threshold = Ok (req, true_token_id, false_token_id)
       ∧ Forall2
           (fun row b =>
              decision keep_corrupted vision_encode
                (vision_classifier req true_token_id false_token_id) row = Ok b)
           (df_rows metadata) res
       ∧ cnt = Z.of_nat (length (List.filter (unreadable vision_encode)
                                    (df_rows metadata))))
  ∧ (∀ res,
       outcome (text_run threshold) = Ok res ↔
       ∃ req true_token_id false_token_id,
         prelude P threshold = Ok (req, true_token_id, false_token_id)
         ∧ Forall2
             (fun row b =>
                decision false (text_encode P caption_column prompt)
                  (text_classifier req true_token_id false_token_id) row = Ok b)
             (df_rows metadata) res)
  ∧ (∀ res cnt, outcome (vision_run threshold) = Ok (res, cnt) →
       length res = length (df_rows metadata))
  ∧ (∀ res, outcome (text_run threshold) = Ok res →
       length res = length (df_rows metadata)).
Proof.
  assert (∀ res cnt,
     outcome (vision_run threshold) = Ok (res, cnt) ↔
     ∃ req true_token_id false_token_id,
       prelude P threshold = Ok (req, true_token_id, false_token_id)
       ∧ Forall2
           (fun row b =>
              decision keep_corrupted vision_encode
                (vision_classifier req true_token_id false_token_id) row = Ok b)
           (df_rows metadata) res
       ∧ cnt = Z.of_nat (length (List.filter (unreadable vision_encode)
                                    (df_rows metadata)))) as Hvision.
  { intros res cnt. split.
    - unfold vision_filter.
      destruct (prelude P threshold) as [[[req i1] i0]|]; [|discriminate].
      destruct (for_rows _ _ _) as [st [e|]] eqn:Hrun; [discriminate|].
      cbn. intros [= <- <-]. exists req, i1, i0. split; [done|].
      destruct (for_rows_results metadata output_path has_header delim save_every
                  keep_corrupted vision_encode (vision_classifier req i1 i0)
                  (df_rows metadata) [] (initial_state files0) st eq_refl eq_refl
                  Hrun) as (bs & Hbs & Hres & Hmiss & _).
      cbn in Hres, Hmiss. rewrite Hres, Hmiss. by split.
    - intros (req & i1 & i0 & Hpre & Hdec & ->).
      rewrite (vision_filter_after_prelude _ _ _ _ _ _ _ _ _ _ _ _ _ _ _ _ _ Hpre).
      destruct (for_rows_total metadata output_path has_header delim save_every
                  keep_corrupted vision_encode (vision_classifier req i1 i0)
                  (df_rows metadata) [] (initial_state files0) res eq_refl eq_refl
                  Hdec) as [st Hrun].
      destruct (for_rows_results metadata output_path has_header delim save_every
                  keep_corrupted vision_encode (vision_classifier req i1 i0)
                  (df_rows metadata) [] (initial_state files0) st eq_refl eq_refl
                  Hrun) as (bs & Hbs & Hres & Hmiss & _).
      change (for_rows (vision_body (vision_classifier req i1 i0))
                (initial_state files0) (df_rows metadata) = (st, None)) in Hrun.
      rewrite Hrun. cbn in Hres, Hmiss |- *. rewrite Hres, Hmiss.
      by rewrite (decisions_unique _ _ _ _ Hbs Hdec). }
  assert (∀ res,
       outcome (text_run threshold) = Ok res ↔
       ∃ req true_token_id false_token_id,
         prelude P threshold = Ok (req, true_token_id, false_token_id)
         ∧ Forall2
             (fun row b =>
                decision false (text_encode P caption_column prompt)
                  (text_classifier req true_token_id false_token_id) row = Ok b)
             (df_rows metadata) res) as Htext.
  { intros res. split.
    - unfold text_filter.
      destruct (prelude P threshold) as [[[req i1] i0]|]; [|discriminate].
      rewrite (for_rows_ext _ _ (text_row_filter_row (text_classifier req i1 i0))).
      destruct (for_rows _ _ _) as [st [e|]] eqn:Hrun; [discriminate|].
      cbn. intros [= <-]. exists req, i1, i0. split; [done|].
      destruct (for_rows_results metadata output_path has_header delim save_every
                  false (text_encode P caption_column prompt)
                  (text_classifier req i1 i0)
                  (df_rows metadata) [] (initial_state files0) st eq_refl eq_refl
                  Hrun) as (bs & Hbs & Hres & _).
      cbn in Hres. by rewrite Hres.
    - intros (req & i1 & i0 & Hpre & Hdec).
      rewrite (text_filter_after_prelude _ _ _ _ _ _ _ _ _ _ _ _ _ _ _ Hpre).
      rewrite (for_rows_ext _ _ (text_row_filter_row (text_classifier req i1 i0))).
      destruct (for_rows_total metadata output_path has_header delim save_every
                  false (text_encode P caption_column prompt)
                  (text_classifier req i1 i0)
                  (df_rows metadata) [] (initial_state files0) res eq_refl eq_refl
                  Hdec) as [st Hrun].
      destruct (for_rows_results metadata output_path has_header delim save_every
                  false (text_encode P caption_column prompt)
                  (text_classifier req i1 i0)
                  (df_rows metadata) [] (initial_state files0) st eq_refl eq_refl
                  Hrun) as (bs & Hbs & Hres & _).
      rewrite Hrun. cbn in Hres |- *. rewrite Hres.
      by rewrite (decisions_unique _ _ _ _ Hbs Hdec). }
  split; [exact Hvision|]. split; [exact Htext|]. split.
  - intros res cnt Hout. apply Hvision in Hout as (? & ? & ? & _ & Hdec & _).
    symmetry. by eapply Forall2_length.
  - intros res Hout. apply Htext in Hout as (? & ? & ? & _ & Hdec).
    symmetry. by eapply Forall2_length.
Qed.
End DriverFacts.

(** ** Checkpoints *)

Section CheckpointFacts.
Variable metadata : DataFrame.
Variables (output_path : string) (has_header : bool) (delim : string).
Variables (keep_corrupted : bool).
Variable encode : gmap string string → result sample.
Variable classify : PyInput → ClassifyRun.
Variable files0 : gmap string CsvFile.
Variable k : Z.
Hypothesis k_pos : 0 < k.

Local Abbreviation save := (safety_saving metadata output_path has_header delim (Some k)).
Local Abbreviation body :=
  (filter_row metadata output_path has_header delim (Some k) keep_corrupted
     encode classify).
Local Abbreviation file_of := (checkpoint metadata has_header delim).
Local Abbreviation agree := (writes_agree metadata output_path has_header delim files0 (Z.to_nat k)).
Local Abbreviation inv := (loop_inv metadata output_path has_header delim files0 (Z.to_nat k)).

(** After the safety save an iteration counts the row and appends at
    most one result; it writes no file. *)
Lemma filter_row_frame st st1 row st' o :
  save st = Ok st1 →
  body st row = (st', o) →
  ∃ extra, results st' = results st1 ++ extra
    ∧ (o = None → ∃ b, extra = [b])
    ∧ since_last_save st' = since_last_save st1 + 1
    ∧ files st' = files st1
    ∧ to_csv_calls st' = to_csv_calls st1.
Proof.
  intros Hsave. unfold filter_row. rewrite Hsave.
  destruct (encode row) as [[msg|input]|e].
  - intros [= <- <-]. exists [keep_corrupted]. cbn. eauto 10.
  - unfold record_classified.
    destruct (run_outcome (classify input)) as [b|e]; intros [= <- <-].
    + exists [b]. cbn. eauto 10.
    + exists []. cbn. by rewrite app_nil_r.
  - intros [= <- <-]. exists []. cbn. by rewrite app_nil_r.
Qed.

(** Appending results leaves the recorded checkpoints as they are. *)
Lemma writes_agree_extend q st st' extra :
  agree q st →
  results st' = results st ++ extra →
  files st' = files st →
  to_csv_calls st' = to_csv_calls st →
  agree q st'.
Proof.
  intros (Hq & Hcalls & Hfiles) Hres Hf Hc. unfold writes_agree.
  rewrite Hres, Hf, Hc, Hcalls, Hfiles, length_app.
  split; [lia|]. split.
  - apply Forall_fmap_ext_1, Forall_forall. intros j Hj%elem_of_seq.
    rewrite take_app_le; [done|]. nia.
  - destruct q; [done|]. by rewrite take_app_le.
Qed.

(** One iteration keeps the checkpoints in step with the rows. *)
Lemma filter_row_checkpoints n st row st' o :
  (n < length (df_rows metadata))%nat →
  inv n st →
  body st row = (st', o) →
  (∃ q, agree q st') ∧ (o = None → inv (S n) st').
Proof.
  intros Hn (Hlen & q & r & Hnqr & Hr & Hpos & Hsince & Hagree) Hbody.
  destruct (decide (r = Z.to_nat k)) as [->|Hne].
  - (* the safety save fires *)
    assert (results st ≠ []) as Hres.
    { intros Heq. rewrite Heq in Hlen. cbn in Hlen. lia. }
    pose proof (safety_saving_fires metadata output_path has_header delim
                  (Some k) st k eq_refl k_pos ltac:(lia) Hres ltac:(lia)) as Hsave.
    destruct (filter_row_frame _ _ _ _ _ Hsave Hbody)
      as (extra & Hres' & Hextra & Hsince' & Hfiles' & Hcalls').
    cbn in Hres', Hsince', Hfiles', Hcalls'.
    assert (agree (S q) st') as Hagree'.
    { destruct Hagree as (Hq & Hcalls & Hfiles). unfold writes_agree.
      rewrite Hres', Hfiles', Hcalls', Hcalls, Hfiles, length_app.
      assert (S q * Z.to_nat k = length (results st))%nat as Hfull by lia.
      split; [lia|]. split.
      - rewrite seq_S, fmap_app. cbn [fmap list_fmap]. f_equal.
        + apply Forall_fmap_ext_1, Forall_forall. intros j Hj%elem_of_seq.
          rewrite take_app_le; [done|]. nia.
        + replace ((1 + q) * Z.to_nat k)%nat with (length (results st)) by lia.
          by rewrite take_app_length.
      - rewrite Hfull, take_app_length.
        destruct q; [done|]. by rewrite insert_insert_eq. }
    split; [eauto|]. intros Ho. destruct (Hextra Ho) as [b ->].
    split; [rewrite Hres', length_app; cbn; lia|].
    exists (S q), 1%nat.
    split; [lia|]. split; [lia|]. split; [lia|]. split; [lia|done].
  - (* the safety save is idle *)
    pose proof (safety_saving_idle metadata output_path has_header delim
                  (Some k) st k eq_refl ltac:(lia)) as Hsave.
    destruct (filter_row_frame _ _ _ _ _ Hsave Hbody)
      as (extra & Hres' & Hextra & Hsince' & Hfiles' & Hcalls').
    pose proof (writes_agree_extend _ _ _ _ Hagree Hres' Hfiles' Hcalls') as Hagree'.
    split; [eauto|]. intros Ho. destruct (Hextra Ho) as [b ->].
    split; [rewrite Hres', length_app; cbn; lia|].
    exists q, (S r).
    split; [lia|]. split; [lia|]. split; [lia|]. split; [lia|done].
Qed.

(** The loop keeps them in step, whether it ends or raises. *)
Lemma for_rows_checkpoints rest :
  ∀ done st st' o,
    done ++ rest = df_rows metadata →
    inv (length done) st →
    for_rows body st rest = (st', o) →
    (∃ q, agree q st') ∧ (o = None → inv (length (df_rows metadata)) st').
Proof.
  induction rest as [|row rest IH]; intros done st st' o Hall Hinv; cbn [for_rows].
  - intros [= <- <-]. rewrite app_nil_r in Hall. subst done.
    split; [|done]. destruct Hinv as (_ & q & _ & _ & _ & _ & _ & Hagree). eauto.
  - destruct (body st row) as [st1 o1] eqn:Hbody.
    assert (length done < length (df_rows metadata))%nat as Hlt.
    { rewrite <- Hall, length_app. cbn. lia. }
    destruct (filter_row_checkpoints _ _ _ _ _ Hlt Hinv Hbody) as [Hagree Hnext].
    destruct o1 as [e|].
    + intros [= <- <-]. split; [done|discriminate].
    + apply (IH (done ++ [row])); [by rewrite <- app_assoc|].
      rewrite length_app. cbn. rewrite Nat.add_1_r. by apply Hnext.
Qed.

Lemma initial_state_inv : inv O (initial_state files0).
Proof.
  split; [reflexivity|]. exists O, O. repeat split; try done; lia.
Qed.
End CheckpointFacts.

Section DriverRuns.
Variable P : Provider.
Variable metadata : DataFrame.
Variables (caption_column image_column : option string).
Variables (prompt output_path : string) (has_header : bool) (delim : string).
Variables (max_steps topk : option Z) (keep_corrupted : bool).
Variable files0 : gmap string CsvFile.

Local Abbreviation vision_encode := (vision_sample P caption_column image_column prompt).
Local Abbreviation file_of := (checkpoint metadata has_header delim).

(** What the [try] of lines 74-86 makes of an exception. *)
Lemma vision_sample_raised row text path e :
  vision_prompt P caption_column prompt row = Ok text →
  getattr P row image_column = Ok path →
  encode_image P path (apply_chat_template P text) = Raise e →
  vision_encode row
  = match e with
    | FileNotFoundError => Ok (Unreadable (ImageMissing path))
    | UnidentifiedImageError => Ok (Unreadable (ImageCorrupted path))
    | _ => Raise e
    end.
Proof.
  intros Htext Hpath Henc. unfold vision_sample. rewrite Htext. cbn.
  rewrite Hpath. cbn. rewrite Henc. by destruct e.
Qed.

(** C4 (as the code has it): in vision mode, take a row for which opening
    or encoding the image raises.  When the exception is one of the two
    the handlers name, [FileNotFoundError] (the file is missing) or
    [UnidentifiedImageError] (the file is not identified as an image), the
    iteration does not raise once its safety save is past; it appends
    exactly [keep_corrupted] to the results, adds exactly 1 to the counter
    of missing or corrupted images, and does not call the classifier: the
    state it leaves is the same whatever the classifier is, and the counts
    of classifier calls and of forward passes are unchanged.  Over a whole
    run that returns, the result at the position of such a row is
    [keep_corrupted], the counter returned is the number of such rows, and
    the classifier was called once for each of the other rows.  Any other
    exception is not handled: the iteration raises it, having recorded
    nothing for the row, and a run over a dataset that holds the row does
    not return. *)
Theorem unreadable_image_is_skipped (save_every : option Z)
    (row : gmap string string) (text : string) (path : PyObj) (e : exn) :
  vision_prompt P caption_column prompt row = Ok text →
  getattr P row image_column = Ok path →
  encode_image P path (apply_chat_template P text) = Raise e →
  (e = FileNotFoundError ∨ e = UnidentifiedImageError →
   (∀ st st1,
      safety_saving metadata output_path has_header delim save_every st = Ok st1 →
      ∃ st',
        (∀ classify,
           vision_row P metadata caption_column image_column prompt output_path
             has_header delim save_every keep_corrupted classify st row
           = (st', None))
        ∧ results st' = results st ++ [keep_corrupted]
        ∧ missing_or_corrupted st' = missing_or_corrupted st + 1
        ∧ classifier_calls st' = classifier_calls st
        ∧ forward_passes st' = forward_passes st)
   ∧ (∀ threshold res cnt,
        let run :=
          vision_filter P metadata caption_column image_column prompt
            output_path has_header delim save_every max_steps topk
            keep_corrupted files0 threshold in
        outcome run = Ok (res, cnt) →
        (∀ i, df_rows metadata !! i = Some row → res !! i = Some keep_corrupted)
        ∧ cnt = Z.of_nat (length (List.filter (unreadable vision_encode)
                                     (df_rows metadata)))
        ∧ classifier_calls (final run)
          = length (List.filter (fun row => negb (unreadable vision_encode row))
                      (df_rows metadata))))
  ∧ (e ≠ FileNotFoundError → e ≠ UnidentifiedImageError →
     (∀ st st1 classify,
        safety_saving metadata output_path has_header delim save_every st = Ok st1 →
        ∃ st',
          vision_row P metadata caption_column image_column prompt output_path
            has_header delim save_every keep_corrupted classify st row
          = (st', Some e)
          ∧ results st' = results st
          ∧ missing_or_corrupted st' = missing_or_corrupted st
          ∧ classifier_calls st' = classifier_calls st
          ∧ forward_passes st' = forward_passes st)
     ∧ (row ∈ df_rows metadata →
        ∀ threshold res cnt,
          outcome (vision_filter P metadata caption_column image_column prompt
                     output_path has_header delim save_every max_steps topk
                     keep_corrupted files0 threshold) ≠ Ok (res, cnt))).
Proof.
  intros Htext Hpath Henc.
  pose proof (vision_sample_raised _ _ _ _ Htext Hpath Henc) as Hsample.
  assert (∀ threshold res cnt,
            outcome (vision_filter P metadata caption_column image_column prompt
                       output_path has_header delim save_every max_steps topk
                       keep_corrupted files0 threshold) = Ok (res, cnt) →
            ∃ req i1 i0 st',
              Forall2
                (fun row b =>
                   decision keep_corrupted vision_encode
                     (fun input => vision_classify (model P) input req i1 i0
                                     max_steps topk) row = Ok b)
                (df_rows metadata) res
              ∧ final (vision_filter P metadata caption_column image_column
                         prompt output_path has_header delim save_every
                         max_steps topk keep_corrupted files0 threshold) = st'
              ∧ cnt = Z.of_nat (length (List.filter (unreadable vision_encode)
                                           (df_rows metadata)))
              ∧ classifier_calls st'
                = length (List.filter
                            (fun row => negb (unreadable vision_encode row))
                            (df_rows metadata))) as Hreturns.
  { intros threshold res cnt. unfold vision_filter.
    destruct (prelude P threshold) as [[[req i1] i0]|]; [|discriminate].
    destruct (for_rows _ _ _) as [st' [e'|]] eqn:Hrun; [discriminate|].
    cbn. intros [= <- <-].
    destruct (for_rows_results metadata output_path has_header delim save_every
                keep_corrupted vision_encode
                (fun input => vision_classify (model P) input req i1 i0
                                max_steps topk)
                (df_rows metadata) [] (initial_state files0) st' eq_refl eq_refl
                Hrun) as (bs & Hbs & Hres & Hmiss & Hcalls).
    cbn in Hres, Hmiss, Hcalls. rewrite Hres, Hmiss.
    exists req, i1, i0, st'. by repeat split. }
  split.
  - intros Hcaught.
    assert (∃ msg, vision_encode row = Ok (Unreadable msg)) as [msg Hmsg].
    { rewrite Hsample. destruct Hcaught as [-> | ->]; eauto. }
    split.
    + intros st st1 Hsave.
      destruct (safety_saving_keeps metadata output_path has_header delim
                  save_every st st1 Hsave) as (Hres & Hmiss & Hcalls & Hpasses).
      exists (record_corrupted keep_corrupted (count_row st1) msg). split.
      * intros classify. unfold vision_row. by rewrite Hsave, Hmsg.
      * cbn. by rewrite Hres, Hmiss, Hcalls, Hpasses.
    + intros threshold res cnt. cbn zeta. intros Hout.
      destruct (Hreturns _ _ _ Hout) as (req & i1 & i0 & st' & Hbs & -> & -> & ->).
      split; [|done]. intros i Hi.
      destruct (Forall2_lookup_l _ _ _ _ _ Hbs Hi) as (b & Hb & Hdec).
      unfold decision in Hdec. rewrite Hmsg in Hdec. by injection Hdec as <-.
  - intros Hne1 Hne2.
    assert (vision_encode row = Raise e) as Hraise.
    { rewrite Hsample. by destruct e. }
    split.
    + intros st st1 classify Hsave.
      destruct (safety_saving_keeps metadata output_path has_header delim
                  save_every st st1 Hsave) as (Hres & Hmiss & Hcalls & Hpasses).
      exists (count_row st1). split.
      * unfold vision_row. by rewrite Hsave, Hraise.
      * by cbn.
    + intros Hin threshold res cnt Hout.
      destruct (Hreturns _ _ _ Hout) as (req & i1 & i0 & st' & Hbs & _).
      apply list_elem_of_lookup in Hin as [i Hi].
      destruct (Forall2_lookup_l _ _ _ _ _ Hbs Hi) as (b & _ & Hdec).
      unfold decision in Hdec. by rewrite Hraise in Hdec.
Qed.

(** C6: with a checkpoint interval [k > 0], a checkpoint write that
    returns has put in the file at the output path exactly the rows of the
    dataset processed so far whose result is [true], in dataset order,
    under the columns of the dataset and with the configured delimiter and
    header; it has replaced what the file held, and it has reset the
    counter of rows since the last checkpoint to zero.  Before [k] rows
    are counted nothing is written.  Over a run that returns, of either
    driver, the [j]-th write came after [j * k] processed rows and held
    the kept rows among the first [j * k] (the first write, after [k]
    rows, those among the first [k]), and the file ends holding the last
    write alone. *)
Theorem checkpoint_holds_kept_rows (k : Z) (threshold : R) :
  0 < k →
  (∀ st st1,
     k ≤ since_last_save st → results st ≠ [] →
     safety_saving metadata output_path has_header delim (Some k) st = Ok st1 →
     let file :=
       kept_file metadata has_header delim (length (results st)) (results st) in
     since_last_save st1 = 0
     ∧ results st1 = results st
     ∧ files st1 = <[output_path := file]> (files st)
     ∧ files st1 !! output_path = Some file
     ∧ to_csv_calls st1 = to_csv_calls st ++ [file])
  ∧ (∀ st,
       since_last_save st < k →
       safety_saving metadata output_path has_header delim (Some k) st = Ok st)
  ∧ (∀ res cnt,
       let run :=
         vision_filter P metadata caption_column image_column prompt
           output_path has_header delim (Some k) max_steps topk keep_corrupted
           files0 threshold in
       outcome run = Ok (res, cnt) →
       ∃ q r : nat,
         length (df_rows metadata) = (q * Z.to_nat k + r)%nat
         ∧ (r ≤ Z.to_nat k)%nat
         ∧ (df_rows metadata ≠ [] → 1 ≤ r)%nat
         ∧ to_csv_calls (final run)
           = (fun j => kept_file metadata has_header delim (j * Z.to_nat k) res)
               <$> seq 1 q
         ∧ files (final run)
           = match q with
             | O => files0
             | S _ => <[output_path :=
                          kept_file metadata has_header delim (q * Z.to_nat k) res]>
                        files0
             end)
  ∧ (∀ res,
       let run :=
         text_filter P metadata caption_column prompt output_path has_header
           delim (Some k) max_steps topk files0 threshold in
       outcome run = Ok res →
       ∃ q r : nat,
         length (df_rows metadata) = (q * Z.to_nat k + r)%nat
         ∧ (r ≤ Z.to_nat k)%nat
         ∧ (df_rows metadata ≠ [] → 1 ≤ r)%nat
         ∧ to_csv_calls (final run)
           = (fun j => kept_file metadata has_header delim (j * Z.to_nat k) res)
               <$> seq 1 q
         ∧ files (final run)
           = match q with
             | O => files0
             | S _ => <[output_path :=
                          kept_file metadata has_header delim (q * Z.to_nat k) res]>
                        files0
             end).
Proof.
  intros Hk.
  assert (∀ st,
            loop_inv metadata output_path has_header delim files0 (Z.to_nat k)
              (length (df_rows metadata)) st →
            ∃ q r : nat,
              length (df_rows metadata) = (q * Z.to_nat k + r)%nat
              ∧ (r ≤ Z.to_nat k)%nat
              ∧ (df_rows metadata ≠ [] → 1 ≤ r)%nat
              ∧ to_csv_calls st
                = (fun j => kept_file metadata has_header delim (j * Z.to_nat k)
                              (results st)) <$> seq 1 q
              ∧ files st
                = match q with
                  | O => files0
                  | S _ => <[output_path :=
                               kept_file metadata has_header delim
                                 (q * Z.to_nat k) (results st)]> files0
                  end) as Hend.
  { intros st (Hlen & q & r & Hn & Hr & Hpos & _ & _ & Hcalls & Hfiles).
    exists q, r. split; [done|]. split; [done|]. split.
    { intros Hne. apply Hpos. by destruct (df_rows metadata). }
    split.
    - rewrite Hcalls. apply list_fmap_ext. intros _ j _.
      apply checkpoint_kept_file.
    - rewrite Hfiles. destruct q; [done|]. by rewrite checkpoint_kept_file. }
  split; [|split; [|split]].
  - intros st st1 Hsince Hres Hsave. cbn zeta.
    pose proof (safety_saving_fits metadata output_path has_header delim (Some k)
                  st st1 k eq_refl Hk Hsince Hres Hsave) as Hfit.
    rewrite (safety_saving_fires metadata output_path has_header delim (Some k)
               st k eq_refl Hk Hsince Hres Hfit) in Hsave.
    injection Hsave as <-. cbn.
    rewrite <- (checkpoint_kept_file metadata has_header delim
                  (length (results st)) (results st)), firstn_all.
    repeat split. apply lookup_insert_eq.
  - intros st Hsince.
    by apply (safety_saving_idle metadata output_path has_header delim (Some k)
                st k).
  - intros res cnt. cbn zeta. unfold vision_filter.
    destruct (prelude P threshold) as [[[req i1] i0]|]; [|discriminate].
    destruct (for_rows _ _ _) as [st' [e|]] eqn:Hrun; [discriminate|].
    cbn. intros [= <- <-].
    destruct (for_rows_checkpoints metadata output_path has_header delim
                keep_corrupted vision_encode
                (fun input => vision_classify (model P) input req i1 i0
                                max_steps topk)
                files0 k Hk (df_rows metadata) [] (initial_state files0) st' None
                eq_refl (initial_state_inv _ _ _ _ _ _ Hk) Hrun) as [_ Hinv].
    exact (Hend st' (Hinv eq_refl)).
  - intros res. cbn zeta. unfold text_filter.
    destruct (prelude P threshold) as [[[req i1] i0]|]; [|discriminate].
    rewrite (for_rows_ext _ _
               (text_row_filter_row P metadata caption_column prompt output_path
                  has_header delim (Some k)
                  (fun input => text_classify (model P) input req i1 i0
                                  max_steps topk))).
    destruct (for_rows _ _ _) as [st' [e|]] eqn:Hrun; [discriminate|].
    cbn. intros [= <-].
    destruct (for_rows_checkpoints metadata output_path has_header delim
                false (text_encode P caption_column prompt)
                (fun input => text_classify (model P) input req i1 i0
                                max_steps topk)
                files0 k Hk (df_rows metadata) [] (initial_state files0) st' None
                eq_refl (initial_state_inv _ _ _ _ _ _ Hk) Hrun) as [_ Hinv].
    exact (Hend st' (Hinv eq_refl)).
Qed.
End DriverRuns.

(** ** Sample runs *)

Lemma demo_prelude_half : prelude demo_provider (1 / 2) = Ok (Fin 0, 1, 2).
Proof.
  rewrite (prelude_not_one demo_provider (1 / 2) 1 2) by (done || lra).
  replace (1 / 2 / (1 - 1 / 2))%R with 1%R by field.
  rewrite torch_log_pos by lra. by rewrite ln_1.
Qed.

(** Any other failure to open the image is not caught: the iteration
    raises it. *)
Example locked_image_propagates :
  vision_sample demo_provider (Some "caption"%string) (Some "image"%string)
    "Is this caption right? " (demo_row "a bird" "locked.jpg")
  = Raise PermissionError.
Proof. reflexivity. Qed.

(** C4 as the specification words it fails: the image file of the row
    exists but cannot be read, so that opening it raises
    [PermissionError].  No handler catches it: the driver raises, having
    recorded no result for the row and counted nothing. *)
Lemma unreadable_file_aborts_the_run :
  Image_open demo_provider (Cell "locked.jpg") = Raise PermissionError
  ∧ outcome (demo_vision_filter [demo_row "a bird" "locked.jpg"] None true (1 / 2))
    = Raise PermissionError
  ∧ results (final (demo_vision_filter [demo_row "a bird" "locked.jpg"] None true
                      (1 / 2))) = []
  ∧ missing_or_corrupted
      (final (demo_vision_filter [demo_row "a bird" "locked.jpg"] None true
                (1 / 2))) = 0.
Proof.
  split; [reflexivity|]. unfold demo_vision_filter.
  rewrite (vision_filter_after_prelude _ _ _ _ _ _ _ _ _ _ _ _ _ _ _ _ _
             demo_prelude_half).
  by vm_compute.
Qed.

Lemma unreadable_image_is_skipped_witness :
  ∃ st', results st' = [] ++ [true]
    ∧ missing_or_corrupted st' = 0 + 1
    ∧ classifier_calls st' = O
    ∧ forward_passes st' = O.
Proof.
  destruct (proj1 (proj1 (unreadable_image_is_skipped demo_provider
              (demo_frame [demo_row "a dog" "missing.jpg"])
              (Some "caption"%string) (Some "image"%string)
              "Is this caption right? " "out.tsv" true tab None None true ∅
              None (demo_row "a dog" "missing.jpg")
              "Is this caption right? a dog" (Cell "missing.jpg")
              FileNotFoundError eq_refl eq_refl eq_refl) (or_introl eq_refl))
              (initial_state ∅) (initial_state ∅) eq_refl)
    as (st' & _ & Hres & Hmiss & Hcalls & Hpasses).
  exists st'. by repeat split.
Defined.

Lemma demo_decisions :
  Forall2
    (fun row b =>
       decision true
         (vision_sample demo_provider (Some "caption"%string)
            (Some "image"%string) "Is this caption right? ")
         (fun input => vision_classify (model demo_provider) input (Fin 0) 1 2
                         None None) row = Ok b)
    [demo_row "a cat" "cat.jpg"; demo_row "a dog" "missing.jpg"] [true; true].
Proof.
  repeat constructor.
  change (run_outcome (classify Vision demo_model_tie demo_input (Fin 0) 1 2 None None)
          = Ok true).
  by rewrite demo_tie_run.
Qed.

Lemma results_align_with_rows_witness :
  outcome (demo_vision_filter
             [demo_row "a cat" "cat.jpg"; demo_row "a dog" "missing.jpg"]
             None true (1 / 2))
  = Ok ([true; true], 1).
Proof.
  apply (proj1 (results_align_with_rows demo_provider
                  (demo_frame [demo_row "a cat" "cat.jpg";
                               demo_row "a dog" "missing.jpg"])
                  (Some "caption"%string) (Some "image"%string)
                  "Is this caption right? " "out.tsv" true tab None None None
                  true ∅ (1 / 2))).
  exists (Fin 0), 1, 2. split; [exact demo_prelude_half|].
  split; [exact demo_decisions|reflexivity].
Defined.

Lemma threshold_is_not_validated_witness :
  ∃ req, req_logit_diff 2 = Ok req.
Proof.
  destruct (proj2 (threshold_is_not_validated demo_provider
                     (demo_frame [demo_row "a cat" "cat.jpg"])
                     (Some "caption"%string) (Some "image"%string)
                     "Is this caption right? " "out.tsv" true tab None None None
                     false ∅ 2) ltac:(lra)) as (req & Hreq & _).
  by exists req.
Defined.

Lemma text_append_branch_raises_witness :
  run_passes (text_classify (model demo_provider) (Tensor (Ids [7; 8])) (Fin 0)
                1 2 (Some 3) (Some 1)) = 1%nat.
Proof.
  exact (proj1 (proj2 (proj2 (proj2 (proj2
    (text_append_branch_raises demo_provider (Some "caption"%string)
       "Is this caption right? " (demo_row "a cat" "cat.jpg")
       (Tensor (Ids [7; 8])) (Fin 0) 1 2 3 (Some 1) eq_refl ltac:(lia))))))).
Defined.

(** * Further properties of the classifier *)

Section LoopBounds.
Context {V : Type} `{Scalar V}.
Variable call : PyInput → result (list V).
Variable append : PyInput → Z → PyInput * option exn.
Variables (req_logit_diff : V) (id_1 id_0 : Z).
Variables (max_steps topk : option Z).

Lemma classify_loop_passes steps input passes :
  (passes
   ≤ run_passes (classify_loop call append req_logit_diff id_1 id_0 max_steps
                   topk steps input passes)
   ≤ passes + steps)%nat.
Proof.
  revert input passes. induction steps as [|steps IH]; intros input passes;
    cbn [classify_loop]; [cbn; lia|].
  destruct (call input) as [logits|e]; [|cbn; lia].
  destruct (iteration_body _ _ _ _ _ _ input logits) as [input'|r input'];
    [|cbn; lia].
  specialize (IH input' (S passes)). lia.
Qed.
End LoopBounds.

Lemma classify_passes_le {V : Type} `{Scalar V} mode (model : PyInput → list V)
    input req id_1 id_0 max_steps topk :
  (run_passes (classify mode model input req id_1 id_0 max_steps topk)
   ≤ Z.to_nat (steps_of max_steps))%nat.
Proof.
  destruct mode; cbn [classify]; unfold vision_classify, text_classify,
    classify_with.
  - destruct (vision_device input); [|cbn; lia].
    pose proof (classify_loop_passes (call_unpacked model) vision_append req
                  id_1 id_0 max_steps topk (Z.to_nat (steps_of max_steps))
                  input O). lia.
  - destruct (text_device input); [|cbn; lia].
    pose proof (classify_loop_passes (call_positional model) text_append req
                  id_1 id_0 max_steps topk (Z.to_nat (steps_of max_steps))
                  input O). lia.
Qed.

(** The classifier never makes more forward passes than the step bound
    allows: at most [max_steps] of them, at most one when the bound is
    disabled, and none when the bound is zero or negative. *)
Theorem passes_within_bound {V : Type} `{Scalar V} (mode : Mode)
    (model : PyInput → list V) (input : PyInput) (req : V) (id_1 id_0 : Z)
    (max_steps topk : option Z) :
  (run_passes (classify mode model input req id_1 id_0 max_steps topk)
   ≤ Z.to_nat (steps_of max_steps))%nat
  ∧ (max_steps = None →
     (run_passes (classify mode model input req id_1 id_0 max_steps topk) ≤ 1)%nat)
  ∧ (∀ n, max_steps = Some n → n ≤ 0 →
     run_passes (classify mode model input req id_1 id_0 max_steps topk) = O).
Proof.
  pose proof (classify_passes_le mode model input req id_1 id_0 max_steps topk)
    as Hle.
  split; [exact Hle|]. split.
  - intros ->. exact Hle.
  - intros n -> Hn. cbn [steps_of] in Hle. lia.
Qed.

(** With a step bound that is zero or negative the classifier consults
    the model not even once: it returns [true] for any input it accepts,
    leaves the input as it was and prints that the attempt limit was
    reached. *)
Theorem non_positive_bound_keeps {V : Type} `{Scalar V} (mode : Mode)
    (model : PyInput → list V) (input : PyInput) (req : V) (id_1 id_0 n : Z)
    (topk : option Z) :
  n ≤ 0 → accepts mode input →
  classify mode model input req id_1 id_0 (Some n) topk
  = {| run_outcome := Ok true; run_input := input; run_passes := 0;
       run_stdout := [ReachedLimit (Some n)] |}.
Proof.
  intros Hn Hacc.
  destruct mode; cbn [classify accepts] in *;
    unfold vision_classify, text_classify, classify_with; rewrite Hacc;
    cbn [steps_of]; replace (Z.to_nat n) with O by lia; reflexivity.
Qed.

Lemma non_positive_bound_keeps_witness :
  classify Vision demo_model demo_input 0 1 2 (Some (-3)) (Some 1)
  = {| run_outcome := Ok true; run_input := demo_input; run_passes := 0;
       run_stdout := [ReachedLimit (Some (-3))] |}.
Proof.
  exact (non_positive_bound_keeps Vision demo_model demo_input 0 1 2 (-3)
           (Some 1) ltac:(lia) demo_input_accepted).
Defined.

Lemma py_truthy_positive (n : Z) : 0 < n → py_truthy (Some n) = true.
Proof. intros Hn. cbn. apply negb_true_iff, Z.eqb_neq. lia. Qed.

Lemma classify_first_iteration {V : Type} `{Scalar V} mode
    (model : PyInput → list V) input req id_1 id_0 n topk r :
  0 < n → accepts mode input →
  (∀ append,
     iteration_body append req id_1 id_0 (Some n) topk input (model input)
     = Leave r input) →
  classify mode model input req id_1 id_0 (Some n) topk
  = {| run_outcome := r; run_input := input; run_passes := 1; run_stdout := [] |}.
Proof.
  intros Hn Hacc Hbody.
  destruct (Z.to_nat n) as [|steps'] eqn:Hsteps; [lia|].
  destruct mode; cbn [classify accepts] in *.
  - unfold vision_classify, classify_with. rewrite Hacc. cbn [steps_of].
    rewrite Hsteps. cbn [classify_loop].
    rewrite (accepts_vision_call model input Hacc), Hbody. reflexivity.
  - unfold text_classify, classify_with. rewrite Hacc. cbn [steps_of].
    rewrite Hsteps. cbn [classify_loop]. unfold call_positional at 1.
    rewrite Hbody. reflexivity.
Qed.

(** The breadth of the readiness check has to be a positive integer no
    larger than the vocabulary.  With a positive step bound, [topk = None]
    makes the first pass raise [TypeError], a negative or too large [topk]
    makes it raise [RuntimeError], and [topk = 0] gives an empty list of
    ids whose first element the code then asks for, an [IndexError]; in
    each case after one forward pass and with the input unchanged. *)
Theorem topk_must_be_positive {V : Type} `{Scalar V} (mode : Mode)
    (model : PyInput → list V) (input : PyInput) (req : V) (id_1 id_0 n : Z)
    (topk : option Z) :
  0 < n → accepts mode input →
  match topk with
  | Some k => k ≤ 0 ∨ Z.of_nat (length (model input)) < k
  | None => True
  end →
  classify mode model input req id_1 id_0 (Some n) topk
  = {| run_outcome :=
         Raise match topk with
               | None => TypeError
               | Some k => if k =? 0 then IndexError else RuntimeError
               end;
       run_input := input; run_passes := 1; run_stdout := [] |}.
Proof.
  intros Hn Hacc Hk. apply classify_first_iteration; [done..|].
  intros append. unfold iteration_body. rewrite (py_truthy_positive n Hn).
  destruct topk as [k|]; [|reflexivity].
  unfold torch_topk. destruct (k =? 0) eqn:Hk0.
  - apply Z.eqb_eq in Hk0 as ->. cbn [Z.ltb Z.compare orb].
    destruct (Z.of_nat (length (model input)) <? 0) eqn:Hlen;
      [apply Z.ltb_lt in Hlen; lia|]. reflexivity.
  - apply Z.eqb_neq in Hk0.
    assert ((k <? 0) || (Z.of_nat (length (model input)) <? k) = true) as ->;
      [|reflexivity].
    apply orb_true_iff. destruct Hk as [Hk|Hk];
      [left|right]; apply Z.ltb_lt; lia.
Qed.

Lemma topk_must_be_positive_witness :
  classify Text demo_model (Tensor (Ids [7; 8])) 0 1 2 (Some 10) None
  = {| run_outcome := Raise TypeError; run_input := Tensor (Ids [7; 8]);
       run_passes := 1; run_stdout := [] |}.
Proof.
  exact (topk_must_be_positive Text demo_model (Tensor (Ids [7; 8])) 0 1 2 10
           None ltac:(lia) eq_refl I).
Defined.

Lemma classify_loop_vision_growth {V : Type} `{Scalar V} (model : PyInput → list V)
    req id_1 id_0 max_steps topk :
  ∀ steps input ids mask cross passes,
    vision_input input ids mask cross →
    let r := classify_loop (call_unpacked model) vision_append req id_1 id_0
               max_steps topk steps input passes in
    ∃ appended,
      vision_input (run_input r) (ids ++ appended)
        (mask ++ replicate (length appended) 1)
        (cross ++ replicate (length appended) [[1; 1; 0; 0]])
      ∧ run_passes r
        = (passes + length appended
           + match run_stdout r with [] => 1 | _ :: _ => 0 end)%nat.
Proof.
  induction steps as [|steps IH]; intros input ids mask cross passes Hwf.
  - exists []. cbn. rewrite !app_nil_r. split; [done|lia].
  - cbn [classify_loop].
    assert (call_unpacked model input = Ok (model input)) as ->.
    { destruct Hwf as (data & -> & _). reflexivity. }
    assert (∃ appended : list Z,
              vision_input input (ids ++ appended)
                (mask ++ replicate (length appended) 1)
                (cross ++ replicate (length appended) [[1; 1; 0; 0]])
              ∧ S passes = (passes + length appended + 1)%nat) as Hleave.
    { exists []. cbn. rewrite !app_nil_r. split; [done|lia]. }
    unfold iteration_body.
    destruct (py_truthy max_steps); [|exact Hleave].
    destruct (torch_topk (model input) topk) as [topk_ids|e]; [|exact Hleave].
    destruct (negb (py_in id_1 topk_ids) && negb (py_in id_0 topk_ids));
      [|exact Hleave].
    destruct topk_ids as [|next rest]; [exact Hleave|].
    destruct (vision_append_ok _ _ _ _ next Hwf) as (input' & -> & Hwf').
    destruct (IH input' _ _ _ (S passes) Hwf') as (app & Hfinal & Hpasses).
    exists (next :: app). cbn [length replicate].
    rewrite <- !app_assoc in Hfinal. split; [exact Hfinal|]. cbn zeta in *. lia.
Qed.

(** The three sequences of a vision input grow in lockstep and only at
    the end.  Whatever the model answers and however the call ends, the
    vision classifier leaves an input whose token ids, attention mask and
    cross-attention mask are the initial ones followed by the same number
    of new entries (a token id, a [1] and a unit [[1,1,0,0]] each), and
    that number is the number of forward passes made, less one when the
    call ended in a pass (scoring it or raising) instead of running out
    of steps. *)
Theorem vision_sequences_grow_in_lockstep {V : Type} `{Scalar V}
    (model : PyInput → list V) (input : PyInput) (ids mask : list Z)
    (cross : list (list (list Z))) (req : V) (id_1 id_0 : Z)
    (max_steps topk : option Z) :
  vision_input input ids mask cross →
  let r := vision_classify model input req id_1 id_0 max_steps topk in
  ∃ appended,
    token_ids (run_input r) = ids ++ appended
    ∧ vision_input (run_input r) (ids ++ appended)
        (mask ++ replicate (length appended) 1)
        (cross ++ replicate (length appended) [[1; 1; 0; 0]])
    ∧ run_passes r
      = (length appended + match run_stdout r with [] => 1 | _ :: _ => 0 end)%nat.
Proof.
  intros Hwf. unfold vision_classify, classify_with.
  rewrite (vision_input_device _ _ _ _ Hwf).
  destruct (classify_loop_vision_growth model req id_1 id_0 max_steps topk
              (Z.to_nat (steps_of max_steps)) _ _ _ _ O Hwf)
    as (app & Hfinal & Hpasses).
  exists app. cbn zeta. split; [by eapply vision_input_token_ids|].
  split; [done|]. cbn zeta in Hpasses. lia.
Qed.

Lemma vision_sequences_grow_in_lockstep_witness :
  ∃ appended,
    token_ids (run_input (vision_classify demo_model demo_input 0 1 2 (Some 2)
                            (Some 1)))
    = [7; 8] ++ appended.
Proof.
  destruct (vision_sequences_grow_in_lockstep demo_model demo_input _ _ _ 0 1 2
              (Some 2) (Some 1) demo_input_wf) as (app & Hids & _).
  by exists app.
Defined.

(** ** When the classifier cannot raise *)

Lemma insert_desc_length {V : Type} `{Scalar V} (x : Z * V) (l : list (Z * V)) :
  length (insert_desc x l) = S (length l).
Proof.
  induction l as [|y l IH]; [done|]. cbn.
  destruct (s_gtb y.2 x.2); cbn; by rewrite ?IH.
Qed.

Lemma enumerate_from_length {V : Type} (i : Z) (l : list V) :
  length (enumerate_from i l) = length l.
Proof. revert i. induction l as [|v l IH]; intros i; cbn; by rewrite ?IH. Qed.

Lemma argsort_desc_length {V : Type} `{Scalar V} (logits : list V) :
  length (argsort_desc logits) = length logits.
Proof.
  unfold argsort_desc. rewrite length_fmap.
  rewrite <- (enumerate_from_length 0 logits).
  induction (enumerate_from 0 logits) as [|x l IH]; [done|].
  cbn [foldr]. by rewrite insert_desc_length, IH.
Qed.

(** [torch.topk] with a breadth in range returns that many ids. *)
Lemma torch_topk_length {V : Type} `{Scalar V} (logits : list V) (k : Z) :
  0 ≤ k ≤ Z.of_nat (length logits) →
  ∃ topk_ids, torch_topk logits (Some k) = Ok topk_ids
    ∧ length topk_ids = Z.to_nat k.
Proof.
  intros Hk. unfold torch_topk.
  assert ((k <? 0) || (Z.of_nat (length logits) <? k) = false) as ->.
  { apply orb_false_iff. split; apply Z.ltb_ge; lia. }
  eexists. split; [reflexivity|].
  rewrite length_take, argsort_desc_length. lia.
Qed.

Lemma tensor_index_in_range {V : Type} (logits : list V) (i : Z) :
  0 ≤ i < Z.of_nat (length logits) → ∃ v, tensor_index logits i = Ok v.
Proof.
  intros Hi. unfold tensor_index.
  destruct (i <? 0) eqn:Hneg; [apply Z.ltb_lt in Hneg; lia|].
  assert ((0 <=? i) && (i <? Z.of_nat (length logits)) = true) as ->.
  { apply andb_true_iff. split; [apply Z.leb_le|apply Z.ltb_lt]; lia. }
  destruct (logits !! Z.to_nat i) as [v|] eqn:Hv; [eauto|].
  apply lookup_ge_None in Hv. lia.
Qed.

Lemma classification_in_range {V : Type} `{Scalar V} (logits : list V) req id_1 id_0 :
  0 ≤ id_1 < Z.of_nat (length logits) →
  0 ≤ id_0 < Z.of_nat (length logits) →
  ∃ b, classification logits req id_1 id_0 = Ok b.
Proof.
  intros H1 H0.
  destruct (tensor_index_in_range logits id_1 H1) as [l1 Hl1].
  destruct (tensor_index_in_range logits id_0 H0) as [l0 Hl0].
  eexists. apply classification_spec. eauto.
Qed.

Lemma classify_loop_vision_total {V : Type} `{Scalar V} (model : PyInput → list V)
    (vocab : nat) req id_1 id_0 max_steps k :
  (∀ input, length (model input) = vocab) →
  0 ≤ id_1 < Z.of_nat vocab → 0 ≤ id_0 < Z.of_nat vocab →
  1 ≤ k ≤ Z.of_nat vocab →
  ∀ steps input ids mask cross passes,
    vision_input input ids mask cross →
    ∃ b, run_outcome (classify_loop (call_unpacked model) vision_append req
                        id_1 id_0 max_steps (Some k) steps input passes) = Ok b.
Proof.
  intros Hvocab H1 H0 Hk.
  induction steps as [|steps IH]; intros input ids mask cross passes Hwf.
  - by exists true.
  - cbn [classify_loop].
    assert (call_unpacked model input = Ok (model input)) as ->.
    { destruct Hwf as (data & -> & _). reflexivity. }
    destruct (classification_in_range (model input) req id_1 id_0) as [b Hb];
      [by rewrite Hvocab..|].
    unfold iteration_body. rewrite Hb.
    destruct (py_truthy max_steps); [|by exists b].
    destruct (torch_topk_length (model input) k) as (topk_ids & -> & Hlen);
      [rewrite Hvocab; lia|].
    destruct (negb (py_in id_1 topk_ids) && negb (py_in id_0 topk_ids));
      [|by exists b].
    destruct topk_ids as [|next rest]; [cbn in Hlen; lia|].
    destruct (vision_append_ok _ _ _ _ next Hwf) as (input' & -> & Hwf').
    by eapply IH.
Qed.

(** On an input as the vision processor builds it, with a model whose
    logits always span the same vocabulary, with [id_1] and [id_0] ids of
    that vocabulary and a breadth [topk] between 1 and its size, the
    vision classifier never raises: whatever the step bound, it returns a
    boolean. *)
Theorem vision_classify_returns {V : Type} `{Scalar V} (model : PyInput → list V)
    (vocab : nat) (input : PyInput) (ids mask : list Z)
    (cross : list (list (list Z))) (req : V) (id_1 id_0 k : Z)
    (max_steps : option Z) :
  (∀ input, length (model input) = vocab) →
  0 ≤ id_1 < Z.of_nat vocab → 0 ≤ id_0 < Z.of_nat vocab →
  1 ≤ k ≤ Z.of_nat vocab →
  vision_input input ids mask cross →
  ∃ b, run_outcome (vision_classify model input req id_1 id_0 max_steps (Some k))
       = Ok b.
Proof.
  intros Hvocab H1 H0 Hk Hwf. unfold vision_classify, classify_with.
  rewrite (vision_input_device _ _ _ _ Hwf).
  by eapply classify_loop_vision_total.
Qed.

Lemma vision_classify_returns_witness :
  ∃ b, run_outcome (vision_classify demo_model demo_input 0 1 2 (Some 10) (Some 2))
       = Ok b.
Proof.
  exact (vision_classify_returns demo_model 4 demo_input _ _ _ 0 1 2 2 (Some 10)
           (fun _ => eq_refl) ltac:(lia) ltac:(lia) ltac:(lia) demo_input_wf).
Defined.

(** ** The required difference and the decision *)

Lemma classification_requirement {V : Type} `{Scalar V} (logits : list V)
    (req1 req2 : V) id_1 id_0 :
  (∀ d, s_geb d req2 = true → s_geb d req1 = true) →
  (∀ e, classification logits req1 id_1 id_0 = Raise e
        ↔ classification logits req2 id_1 id_0 = Raise e)
  ∧ (classification logits req2 id_1 id_0 = Ok true →
     classification logits req1 id_1 id_0 = Ok true).
Proof.
  intros Hmono. unfold classification.
  destruct (tensor_index logits id_1) as [l1|e1]; [|done].
  destruct (tensor_index logits id_0) as [l0|e0]; [|done].
  cbn. split; [done|]. intros [= Hb]. by rewrite (Hmono _ Hb).
Qed.

Lemma classify_loop_requirement {V : Type} `{Scalar V}
    (call : PyInput → result (list V)) (append : PyInput → Z → PyInput * option exn)
    (req1 req2 : V) id_1 id_0 max_steps topk :
  (∀ d, s_geb d req2 = true → s_geb d req1 = true) →
  ∀ steps input passes,
    let r1 := classify_loop call append req1 id_1 id_0 max_steps topk steps
                input passes in
    let r2 := classify_loop call append req2 id_1 id_0 max_steps topk steps
                input passes in
    run_input r1 = run_input r2
    ∧ run_passes r1 = run_passes r2
    ∧ run_stdout r1 = run_stdout r2
    ∧ (∀ e, run_outcome r1 = Raise e ↔ run_outcome r2 = Raise e)
    ∧ (run_outcome r2 = Ok true → run_outcome r1 = Ok true).
Proof.
  intros Hmono. induction steps as [|steps IH]; intros input passes;
    cbn [classify_loop]; [done|].
  destruct (call input) as [logits|e]; [|done].
  destruct (classification_requirement logits req1 req2 id_1 id_0 Hmono)
    as [Hraise Htrue].
  unfold iteration_body.
  destruct (py_truthy max_steps); [|done].
  destruct (torch_topk logits topk) as [topk_ids|e]; [|done].
  destruct (negb (py_in id_1 topk_ids) && negb (py_in id_0 topk_ids)); [|done].
  destruct topk_ids as [|next rest]; [done|].
  destruct (append input next) as [input' [e|]]; [done|]. apply IH.
Qed.

(** Raising the threshold only ever discards.  The required difference
    has no part in how a call of the classifier unfolds: two calls that
    differ in it alone make the same passes, append the same tokens, print
    the same and raise the same; and whatever is kept under the larger
    requirement is kept under the smaller one.  Thresholds in (0,1) in
    increasing order give requirements in the same order. *)
Theorem lower_requirement_keeps_more (mode : Mode) (model : PyInput → list XR)
    (input : PyInput) (id_1 id_0 : Z) (max_steps topk : option Z) (t1 t2 : R) :
  (0 < t1)%R → (t1 <= t2)%R → (t2 < 1)%R →
  ∃ d1 d2,
    req_logit_diff t1 = Ok (Fin d1) ∧ req_logit_diff t2 = Ok (Fin d2)
    ∧ (d1 <= d2)%R
    ∧ let r1 := classify mode model input (Fin d1) id_1 id_0 max_steps topk in
      let r2 := classify mode model input (Fin d2) id_1 id_0 max_steps topk in
      run_input r1 = run_input r2
      ∧ run_passes r1 = run_passes r2
      ∧ run_stdout r1 = run_stdout r2
      ∧ (∀ e, run_outcome r1 = Raise e ↔ run_outcome r2 = Raise e)
      ∧ (run_outcome r2 = Ok true → run_outcome r1 = Ok true).
Proof.
  intros H0 H12 H1.
  exists (ln (t1 / (1 - t1))), (ln (t2 / (1 - t2))).
  assert (∀ t, (0 < t < 1)%R → req_logit_diff t = Ok (Fin (ln (t / (1 - t)))))
    as Hreq.
  { intros t Ht. rewrite req_logit_diff_not_one by lra.
    by rewrite torch_log_pos by by apply odds_pos. }
  assert (ln (t1 / (1 - t1)) <= ln (t2 / (1 - t2)))%R as Hle.
  { destruct (Req_dec_T t1 t2) as [->|Hne]; [lra|]. left.
    apply ln_increasing; [apply odds_pos; lra|apply odds_increasing; lra]. }
  split; [apply Hreq; lra|]. split; [apply Hreq; lra|]. split; [exact Hle|].
  assert (∀ d : XR, s_geb d (Fin (ln (t2 / (1 - t2)))) = true →
                    s_geb d (Fin (ln (t1 / (1 - t1)))) = true) as Hmono.
  { intros [x| | |]; cbn; try done. unfold Rgeb.
    destruct (Rge_dec x (ln (t2 / (1 - t2)))); [|done]. intros _.
    destruct (Rge_dec x (ln (t1 / (1 - t1)))); [done|lra]. }
  destruct mode; cbn [classify]; unfold vision_classify, text_classify,
    classify_with.
  - destruct (vision_device input); [|done].
    by apply classify_loop_requirement.
  - destruct (text_device input); [|done].
    by apply classify_loop_requirement.
Qed.

Lemma lower_requirement_keeps_more_witness :
  ∃ d1 d2,
    req_logit_diff (1 / 4) = Ok (Fin d1) ∧ req_logit_diff (3 / 4) = Ok (Fin d2)
    ∧ (d1 <= d2)%R.
Proof.
  destruct (lower_requirement_keeps_more Vision demo_model_tie demo_input 1 2
              None None (1 / 4) (3 / 4) ltac:(lra) ltac:(lra) ltac:(lra))
    as (d1 & d2 & H1 & H2 & Hle & _).
  by exists d1, d2.
Defined.

(** A threshold above [1], or below [0] by [1e-30] or more, silently
    discards every row that is scored: the required difference is then
    [nan], against which no difference of logits compares as [>=].  (A
    negative threshold closer to zero than single precision resolves is
    left out: line 55 rounds its quotient to [-0.0], where [torch.log]
    gives [-inf], which the exact arithmetic of the embedding does not
    show.) *)
Theorem threshold_out_of_range_discards (mode : Mode) (model : PyInput → list XR)
    (input : PyInput) (id_1 id_0 : Z) (max_steps topk : option Z) (t : R)
    (b : bool) :
  (t <= - / 10 ^ 30)%R ∨ (1 < t)%R →
  req_logit_diff t = Ok NaN
  ∧ (run_outcome (classify mode model input NaN id_1 id_0 max_steps topk) = Ok b →
     run_stdout (classify mode model input NaN id_1 id_0 max_steps topk) = [] →
     b = false).
Proof.
  intros Ht.
  assert (0 < / 10 ^ 30)%R as Hsmall.
  { apply Rinv_0_lt_compat, pow_lt. lra. }
  split.
  - rewrite req_logit_diff_not_one by lra. rewrite torch_log_neg; [done|].
    destruct Ht as [Hneg|Hbig].
    + apply Ropp_lt_cancel. rewrite Ropp_0, <- Rdiv_opp_l.
      apply Rdiv_lt_0_compat; lra.
    + apply Ropp_lt_cancel. rewrite Ropp_0, <- Rdiv_opp_r.
      apply Rdiv_lt_0_compat; lra.
  - intros Hout Hstd.
    pose proof (classify_scored _ _ _ _ _ _ _ _ _ Hout Hstd) as Hcls.
    apply classification_spec in Hcls as (l1 & l0 & _ & _ & ->).
    cbn. by destruct (XR_sub l1 l0).
Qed.

Lemma threshold_out_of_range_discards_witness : req_logit_diff 2 = Ok NaN.
Proof.
  exact (proj1 (threshold_out_of_range_discards Vision demo_model_tie demo_input
                  1 2 None None 2 false ltac:(right; lra))).
Defined.

(** The threshold [0] keeps every row that is scored on finite logits:
    the required difference is then [-inf]. *)
Theorem threshold_zero_keeps (mode : Mode) (model : PyInput → list XR)
    (input : PyInput) (id_1 id_0 : Z) (max_steps topk : option Z) (b : bool)
    (x1 x0 : R) :
  let r := classify mode model input NInf id_1 id_0 max_steps topk in
  run_outcome r = Ok b → run_stdout r = [] →
  tensor_index (model (run_input r)) id_1 = Ok (Fin x1) →
  tensor_index (model (run_input r)) id_0 = Ok (Fin x0) →
  req_logit_diff 0 = Ok NInf ∧ b = true.
Proof.
  cbn zeta. intros Hout Hstd H1 H0. split.
  - rewrite req_logit_diff_not_one by lra.
    replace (0 / (1 - 0))%R with 0%R by field. by rewrite torch_log_zero.
  - pose proof (classify_scored _ _ _ _ _ _ _ _ _ Hout Hstd) as Hcls.
    apply classification_spec in Hcls as (l1 & l0 & Hl1 & Hl0 & ->).
    rewrite H1 in Hl1. rewrite H0 in Hl0.
    injection Hl1 as <-. injection Hl0 as <-. reflexivity.
Qed.

Lemma threshold_zero_keeps_witness : req_logit_diff 0 = Ok NInf ∧ true = true.
Proof.
  exact (threshold_zero_keeps Vision demo_model_tie demo_input 1 2 None None
           true 2 2 eq_refl eq_refl eq_refl eq_refl).
Defined.

(** * Further properties of the drivers *)

Lemma for_rows_invariant (body : FilterState → gmap string string → FilterState * option exn)
    (I : FilterState → Prop) :
  (∀ st row st' o, I st → body st row = (st', o) → I st') →
  ∀ rows st st' o, I st → for_rows body st rows = (st', o) → I st'.
Proof.
  intros Hstep. induction rows as [|row rows IH]; intros st st' o Hst; cbn [for_rows].
  - by intros [= <- <-].
  - destruct (body st row) as [st1 [e|]] eqn:Hbody.
    + intros [= <- <-]. by eapply Hstep.
    + apply IH. by eapply Hstep.
Qed.

Section RowFrames.
Variable metadata : DataFrame.
Variables (output_path : string) (has_header : bool) (delim : string).
Variables (save_every : option Z) (keep_corrupted : bool).
Variable encode : gmap string string → result sample.
Variable classify : PyInput → ClassifyRun.

Local Abbreviation body :=
  (filter_row metadata output_path has_header delim save_every keep_corrupted
     encode classify).

(** An iteration writes at most one file, at the output path, and only
    when a checkpoint interval is configured. *)
Lemma filter_row_files st row st' o :
  body st row = (st', o) →
  (files st' = files st ∧ to_csv_calls st' = to_csv_calls st)
  ∨ (py_truthy save_every = true
     ∧ ∃ file, files st' = <[output_path := file]> (files st)
         ∧ to_csv_calls st' = to_csv_calls st ++ [file]).
Proof.
  unfold filter_row, safety_saving.
  destruct (py_truthy save_every) eqn:Hsave; cbn [andb].
  - destruct (since_last_save st >=? default 0 save_every).
    + destruct (getitem_mask _ _) as [frame|e]; cbn [mbind result_bind];
        [|intros [= <- <-]; by left].
      destruct (encode row) as [[msg|input]|e];
        [| unfold record_classified; destruct (run_outcome (classify input)) |];
        intros [= <- <-]; right; (split; [done|]); eexists; by cbn.
    + destruct (encode row) as [[msg|input]|e];
        [| unfold record_classified; destruct (run_outcome (classify input)) |];
        intros [= <- <-]; by left.
  - destruct (encode row) as [[msg|input]|e];
      [| unfold record_classified; destruct (run_outcome (classify input)) |];
      intros [= <- <-]; by left.
Qed.

(** An iteration calls the classifier at most once, on the encoded input
    of its row, and makes no forward pass of its own. *)
Lemma filter_row_calls st row st' o :
  body st row = (st', o) →
  (classifier_calls st' = classifier_calls st
   ∧ forward_passes st' = forward_passes st)
  ∨ (∃ input, encode row = Ok (Encoded input)
       ∧ classifier_calls st' = S (classifier_calls st)
       ∧ forward_passes st'
         = (forward_passes st + run_passes (classify input))%nat).
Proof.
  unfold filter_row, safety_saving.
  destruct (py_truthy save_every && _).
  - destruct (getitem_mask _ _) as [frame|e]; cbn [mbind result_bind];
      [|intros [= <- <-]; by left].
    destruct (encode row) as [[msg|input]|e];
      [| unfold record_classified; destruct (run_outcome (classify input)) |];
      intros [= <- <-]; cbn; eauto.
  - destruct (encode row) as [[msg|input]|e];
      [| unfold record_classified; destruct (run_outcome (classify input)) |];
      intros [= <- <-]; cbn; eauto.
Qed.

Lemma filter_row_calls_le st row st' o :
  body st row = (st', o) → (classifier_calls st' ≤ S (classifier_calls st))%nat.
Proof.
  intros Hbody.
  destruct (filter_row_calls _ _ _ _ Hbody) as [[-> _]|(_ & _ & -> & _)]; lia.
Qed.
End RowFrames.

Lemma for_rows_calls_le (body : FilterState → gmap string string → FilterState * option exn) :
  (∀ st row st' o, body st row = (st', o) →
     (classifier_calls st' ≤ S (classifier_calls st))%nat) →
  ∀ rows st st' o, for_rows body st rows = (st', o) →
    (classifier_calls st' ≤ classifier_calls st + length rows)%nat.
Proof.
  intros Hstep. induction rows as [|row rows IH]; intros st st' o; cbn [for_rows].
  - intros [= <- <-]. lia.
  - destruct (body st row) as [st1 [e|]] eqn:Hbody.
    + intros [= <- <-]. specialize (Hstep _ _ _ _ Hbody). cbn. lia.
    + intros Hrun. specialize (Hstep _ _ _ _ Hbody). specialize (IH _ _ _ Hrun).
      cbn. lia.
Qed.

Section MoreDriverFacts.
Variable P : Provider.
Variable metadata : DataFrame.
Variables (caption_column image_column : option string).
Variables (prompt output_path : string) (has_header : bool) (delim : string).
Variables (save_every max_steps topk : option Z) (keep_corrupted : bool).
Variable files0 : gmap string CsvFile.

Local Abbreviation vision_encode := (vision_sample P caption_column image_column prompt).
Local Abbreviation vision_run :=
  (vision_filter P metadata caption_column image_column prompt output_path
     has_header delim save_every max_steps topk keep_corrupted files0).
Local Abbreviation text_run :=
  (text_filter P metadata caption_column prompt output_path has_header delim
     save_every max_steps topk files0).
Local Abbreviation vision_loop req true_token_id false_token_id :=
  (for_rows
     (filter_row metadata output_path has_header delim save_every
        keep_corrupted vision_encode
        (fun input => vision_classify (model P) input req true_token_id
                        false_token_id max_steps topk))
     (initial_state files0) (df_rows metadata)).
Local Abbreviation text_loop req true_token_id false_token_id :=
  (for_rows
     (filter_row metadata output_path has_header delim save_every false
        (text_encode P caption_column prompt)
        (fun input => text_classify (model P) input req true_token_id
                        false_token_id max_steps topk))
     (initial_state files0) (df_rows metadata)).

(** The state a run leaves is the initial one when the prelude raises,
    and otherwise the one the loop over the rows leaves. *)
Lemma vision_filter_final threshold :
  final (vision_run threshold) = initial_state files0
  ∨ ∃ req true_token_id false_token_id o,
      vision_loop req true_token_id false_token_id
      = (final (vision_run threshold), o).
Proof.
  unfold vision_filter.
  destruct (prelude P threshold) as [[[req i1] i0]|]; [|by left].
  right. exists req, i1, i0.
  change (for_rows (vision_row _ _ _ _ _ _ _ _ _ _ _) _ _)
    with (vision_loop req i1 i0).
  destruct (vision_loop req i1 i0) as [st [e|]]; eauto.
Qed.

Lemma text_filter_final threshold :
  final (text_run threshold) = initial_state files0
  ∨ ∃ req true_token_id false_token_id o,
      text_loop req true_token_id false_token_id
      = (final (text_run threshold), o).
Proof.
  unfold text_filter.
  destruct (prelude P threshold) as [[[req i1] i0]|]; [|by left].
  right. exists req, i1, i0.
  rewrite (for_rows_ext _ _
             (text_row_filter_row P metadata caption_column prompt output_path
                has_header delim save_every
                (fun input => text_classify (model P) input req i1 i0
                                max_steps topk))).
  destruct (text_loop req i1 i0) as [st [e|]]; eauto.
Qed.

(** A property of the initial state that every iteration preserves holds
    of the state either driver leaves, whether it returns or raises. *)
Lemma filter_final_invariant (I : FilterState → Prop) threshold :
  I (initial_state files0) →
  (∀ kc encode classify st row st' o,
     I st →
     filter_row metadata output_path has_header delim save_every kc encode
       classify st row = (st', o) →
     I st') →
  I (final (vision_run threshold)) ∧ I (final (text_run threshold)).
Proof.
  intros Hinit Hstep. split.
  - destruct (vision_filter_final threshold) as [->|(req & i1 & i0 & o & Hrun)];
      [done|].
    eapply for_rows_invariant; [|exact Hinit|exact Hrun]. apply Hstep.
  - destruct (text_filter_final threshold) as [->|(req & i1 & i0 & o & Hrun)];
      [done|].
    eapply for_rows_invariant; [|exact Hinit|exact Hrun]. apply Hstep.
Qed.

(** Without a checkpoint interval ([save_every] is [None] or [0]) a run
    writes nothing: whether it returns or raises, the files are as they
    were before the run and [to_csv] was never called. *)
Theorem disabled_checkpoints_write_nothing (threshold : R) :
  py_truthy save_every = false →
  (files (final (vision_run threshold)) = files0
   ∧ to_csv_calls (final (vision_run threshold)) = [])
  ∧ (files (final (text_run threshold)) = files0
     ∧ to_csv_calls (final (text_run threshold)) = []).
Proof.
  intros Hsave.
  apply (filter_final_invariant
           (fun st => files st = files0 ∧ to_csv_calls st = [])); [done|].
  intros kc encode classify st row st' o [Hfiles Hcalls] Hbody.
  destruct (filter_row_files _ _ _ _ _ _ _ _ _ _ _ _ Hbody)
    as [[-> ->]|[Htruthy _]]; [done|congruence].
Qed.

(** A run touches no file but the one at the output path: at every other
    path the files are as they were before the run, whether the run
    returns or raises. *)
Theorem only_output_path_written (threshold : R) (path : string) :
  path ≠ output_path →
  files (final (vision_filter P metadata caption_column image_column prompt
                  output_path has_header delim save_every max_steps topk
                  keep_corrupted files0 threshold)) !! path
  = files0 !! path
  ∧ files (final (text_filter P metadata caption_column prompt output_path
                    has_header delim save_every max_steps topk files0
                    threshold)) !! path
    = files0 !! path.
Proof.
  intros Hpath.
  apply (filter_final_invariant (fun st => files st !! path = files0 !! path));
    [done|].
  intros kc encode classify st row st' o Hfiles Hbody.
  destruct (filter_row_files _ _ _ _ _ _ _ _ _ _ _ _ Hbody)
    as [[-> _]|(_ & file & -> & _)]; [done|].
  by rewrite lookup_insert_ne.
Qed.

(** The cost of a run is bounded: the classifier is called at most once
    per row, and the forward passes number at most the step bound (one
    when it is disabled) for each call, whether the run returns or
    raises. *)
Theorem forward_pass_budget (threshold : R) :
  ((classifier_calls (final (vision_run threshold)) ≤ length (df_rows metadata))%nat
   ∧ (forward_passes (final (vision_run threshold))
      ≤ classifier_calls (final (vision_run threshold))
        * Z.to_nat (steps_of max_steps))%nat)
  ∧ ((classifier_calls (final (text_run threshold)) ≤ length (df_rows metadata))%nat
     ∧ (forward_passes (final (text_run threshold))
        ≤ classifier_calls (final (text_run threshold))
          * Z.to_nat (steps_of max_steps))%nat).
Proof.
  split.
  - destruct (vision_filter_final threshold) as [->|(req & i1 & i0 & o & Hrun)];
      [cbn; lia|].
    split.
    + pose proof (for_rows_calls_le _ (filter_row_calls_le _ _ _ _ _ _ _ _)
                    _ _ _ _ Hrun) as Hle.
      exact Hle.
    + eapply (for_rows_invariant _
                (fun st => (forward_passes st
                            ≤ classifier_calls st * Z.to_nat (steps_of max_steps))%nat))
        with (st := initial_state files0); [|apply Nat.le_0_l|exact Hrun].
      intros st row st' o' Hst Hbody.
      destruct (filter_row_calls _ _ _ _ _ _ _ _ _ _ _ _ Hbody)
        as [[-> ->]|(input & _ & -> & ->)]; [done|].
      pose proof (classify_passes_le Vision (model P) input req i1 i0 max_steps
                    topk) as Hle. cbn [classify] in Hle. lia.
  - destruct (text_filter_final threshold) as [->|(req & i1 & i0 & o & Hrun)];
      [cbn; lia|].
    split.
    + pose proof (for_rows_calls_le _ (filter_row_calls_le _ _ _ _ _ _ _ _)
                    _ _ _ _ Hrun) as Hle.
      exact Hle.
    + eapply (for_rows_invariant _
                (fun st => (forward_passes st
                            ≤ classifier_calls st * Z.to_nat (steps_of max_steps))%nat))
        with (st := initial_state files0); [|apply Nat.le_0_l|exact Hrun].
      intros st row st' o' Hst Hbody.
      destruct (filter_row_calls _ _ _ _ _ _ _ _ _ _ _ _ Hbody)
        as [[-> ->]|(input & _ & -> & ->)]; [done|].
      pose proof (classify_passes_le Text (model P) input req i1 i0 max_steps
                    topk) as Hle. cbn [classify] in Hle. lia.
Qed.
End MoreDriverFacts.

Lemma text_classify_tensor_passes {V : Type} `{Scalar V} (model : PyInput → list V)
    t req id_1 id_0 max_steps topk :
  bound_ok max_steps →
  run_passes (text_classify model (Tensor t) req id_1 id_0 max_steps topk) = 1%nat.
Proof.
  destruct max_steps as [n|]; cbn [bound_ok]; intros Hn.
  - rewrite text_classify_tensor by done.
    by destruct (torch_topk (model (Tensor t)) topk).
  - change (run_passes (classify Text model (Tensor t) req id_1 id_0 None topk)
            = 1%nat).
    by rewrite classify_single_pass.
Qed.

Lemma text_encode_tensor P caption_column prompt row input :
  text_encode P caption_column prompt row = Ok (Encoded input) →
  ∃ t, input = Tensor t.
Proof.
  unfold text_encode.
  destruct (text_sample P caption_column prompt row) as [input'|] eqn:Hsample;
    [|discriminate].
  intros [= <-]. by eapply text_sample_tensor.
Qed.

(** With a positive step bound and no breadth for the readiness check
    ([topk] is [None], the default of both drivers) every call of the
    classifier raises. *)
Lemma classify_without_topk_raises {V : Type} `{Scalar V} mode
    (model : PyInput → list V) input req id_1 id_0 n :
  0 < n →
  ∃ e, run_outcome (classify mode model input req id_1 id_0 (Some n) None)
       = Raise e.
Proof.
  intros Hn. destruct (Z.to_nat n) as [|steps'] eqn:Hsteps; [lia|].
  destruct mode; cbn [classify]; unfold vision_classify, text_classify,
    classify_with; cbn [steps_of]; rewrite Hsteps.
  - destruct (vision_device input); [|by eexists].
    cbn [classify_loop]. destruct (call_unpacked model input); [|by eexists].
    unfold iteration_body. rewrite (py_truthy_positive n Hn). by eexists.
  - destruct (text_device input); [|by eexists].
    cbn [classify_loop]. unfold call_positional at 1.
    unfold iteration_body. rewrite (py_truthy_positive n Hn). by eexists.
Qed.

Section ReturningRuns.
Variable P : Provider.
Variable metadata : DataFrame.
Variables (caption_column image_column : option string).
Variables (prompt output_path : string) (has_header : bool) (delim : string).
Variables (save_every max_steps topk : option Z) (keep_corrupted : bool).
Variable files0 : gmap string CsvFile.

Local Abbreviation vision_encode := (vision_sample P caption_column image_column prompt).
Local Abbreviation vision_run :=
  (vision_filter P metadata caption_column image_column prompt output_path
     has_header delim save_every max_steps topk keep_corrupted files0).
Local Abbreviation text_run :=
  (text_filter P metadata caption_column prompt output_path has_header delim
     save_every max_steps topk files0).
Local Abbreviation vision_decision req true_token_id false_token_id :=
  (decision keep_corrupted vision_encode
     (fun input => vision_classify (model P) input req true_token_id
                     false_token_id max_steps topk)).
Local Abbreviation text_decision req true_token_id false_token_id :=
  (decision false (text_encode P caption_column prompt)
     (fun input => text_classify (model P) input req true_token_id
                     false_token_id max_steps topk)).

(** What a returning run of the vision driver returns. *)
Lemma vision_filter_returns threshold res cnt :
  outcome (vision_run threshold) = Ok (res, cnt) ↔
  ∃ req true_token_id false_token_id,
    prelude P threshold = Ok (req, true_token_id, false_token_id)
    ∧ Forall2 (fun row b => vision_decision req true_token_id false_token_id row = Ok b)
        (df_rows metadata) res
    ∧ cnt = Z.of_nat (length (List.filter (unreadable vision_encode)
                                 (df_rows metadata))).
Proof.
  split.
  - unfold vision_filter.
    destruct (prelude P threshold) as [[[req i1] i0]|]; [|discriminate].
    destruct (for_rows _ _ _) as [st [e|]] eqn:Hrun; [discriminate|].
    cbn. intros [= <- <-]. exists req, i1, i0. split; [done|].
    destruct (for_rows_results metadata output_path has_header delim save_every
                keep_corrupted vision_encode
                (fun input => vision_classify (model P) input req i1 i0
                                max_steps topk)
                (df_rows metadata) [] (initial_state files0) st eq_refl eq_refl
                Hrun) as (bs & Hbs & Hres & Hmiss & _).
    cbn in Hres, Hmiss. rewrite Hres, Hmiss. by split.
  - intros (req & i1 & i0 & Hpre & Hdec & ->).
    rewrite (vision_filter_after_prelude _ _ _ _ _ _ _ _ _ _ _ _ _ _ _ _ _ Hpre).
    destruct (for_rows_total metadata output_path has_header delim save_every
                keep_corrupted vision_encode
                (fun input => vision_classify (model P) input req i1 i0
                                max_steps topk)
                (df_rows metadata) [] (initial_state files0) res eq_refl eq_refl
                Hdec) as [st Hrun].
    destruct (for_rows_results metadata output_path has_header delim save_every
                keep_corrupted vision_encode
                (fun input => vision_classify (model P) input req i1 i0
                                max_steps topk)
                (df_rows metadata) [] (initial_state files0) st eq_refl eq_refl
                Hrun) as (bs & Hbs & Hres & Hmiss & _).
    change (for_rows
              (vision_row P metadata caption_column image_column prompt
                 output_path has_header delim save_every keep_corrupted
                 (fun input => vision_classify (model P) input req i1 i0
                                 max_steps topk))
              (initial_state files0) (df_rows metadata) = (st, None)) in Hrun.
    rewrite Hrun. cbn in Hres, Hmiss |- *. rewrite Hres, Hmiss.
    by rewrite (decisions_unique _ _ _ _ Hbs Hdec).
Qed.

(** What a returning run of the text driver returns. *)
Lemma text_filter_returns threshold res :
  outcome (text_run threshold) = Ok res ↔
  ∃ req true_token_id false_token_id,
    prelude P threshold = Ok (req, true_token_id, false_token_id)
    ∧ Forall2 (fun row b => text_decision req true_token_id false_token_id row = Ok b)
        (df_rows metadata) res.
Proof.
  split.
  - unfold text_filter.
    destruct (prelude P threshold) as [[[req i1] i0]|]; [|discriminate].
    rewrite (for_rows_ext _ _
               (text_row_filter_row P metadata caption_column prompt output_path
                  has_header delim save_every
                  (fun input => text_classify (model P) input req i1 i0
                                  max_steps topk))).
    destruct (for_rows _ _ _) as [st [e|]] eqn:Hrun; [discriminate|].
    cbn. intros [= <-]. exists req, i1, i0. split; [done|].
    destruct (for_rows_results metadata output_path has_header delim save_every
                false (text_encode P caption_column prompt)
                (fun input => text_classify (model P) input req i1 i0
                                max_steps topk)
                (df_rows metadata) [] (initial_state files0) st eq_refl eq_refl
                Hrun) as (bs & Hbs & Hres & _).
    cbn in Hres. by rewrite Hres.
  - intros (req & i1 & i0 & Hpre & Hdec).
    rewrite (text_filter_after_prelude _ _ _ _ _ _ _ _ _ _ _ _ _ _ _ Hpre).
    rewrite (for_rows_ext _ _
               (text_row_filter_row P metadata caption_column prompt output_path
                  has_header delim save_every
                  (fun input => text_classify (model P) input req i1 i0
                                  max_steps topk))).
    destruct (for_rows_total metadata output_path has_header delim save_every
                false (text_encode P caption_column prompt)
                (fun input => text_classify (model P) input req i1 i0
                                max_steps topk)
                (df_rows metadata) [] (initial_state files0) res eq_refl eq_refl
                Hdec) as [st Hrun].
    destruct (for_rows_results metadata output_path has_header delim save_every
                false (text_encode P caption_column prompt)
                (fun input => text_classify (model P) input req i1 i0
                                max_steps topk)
                (df_rows metadata) [] (initial_state files0) st eq_refl eq_refl
                Hrun) as (bs & Hbs & Hres & _).
    rewrite Hrun. cbn in Hres |- *. rewrite Hres.
    by rewrite (decisions_unique _ _ _ _ Hbs Hdec).
Qed.
End ReturningRuns.

Section DefaultsAndAborts.
Variable P : Provider.
Variable metadata : DataFrame.
Variables (caption_column image_column : option string).
Variables (prompt output_path : string) (has_header : bool) (delim : string).
Variables (save_every max_steps topk : option Z) (keep_corrupted : bool).
Variable files0 : gmap string CsvFile.

Local Abbreviation vision_encode := (vision_sample P caption_column image_column prompt).

(** With the drivers' default [topk=None] and a positive step bound (the
    default is 10) no row gets through the classifier.  The vision driver
    returns only when every row was skipped for a missing or corrupted
    image, and then every result is [keep_corrupted]; the text driver
    returns only on an empty dataset. *)
Theorem default_topk_classifies_nothing (n : Z) (threshold : R) :
  0 < n →
  (∀ res cnt,
     outcome (vision_filter P metadata caption_column image_column prompt
                output_path has_header delim save_every (Some n) None
                keep_corrupted files0 threshold) = Ok (res, cnt) →
     Forall (fun row => unreadable vision_encode row = true) (df_rows metadata)
     ∧ res = replicate (length (df_rows metadata)) keep_corrupted
     ∧ cnt = Z.of_nat (length (df_rows metadata)))
  ∧ (∀ res,
       outcome (text_filter P metadata caption_column prompt output_path
                  has_header delim save_every (Some n) None files0 threshold)
       = Ok res →
       df_rows metadata = []).
Proof.
  intros Hn. split.
  - intros res cnt Hout.
    apply vision_filter_returns in Hout as (req & i1 & i0 & _ & Hdec & ->).
    induction Hdec as [|row b rows bs Hrow _ IH]; [by repeat split|].
    destruct IH as (Hall & -> & Hcnt).
    unfold decision in Hrow. cbn [List.filter]. unfold unreadable at 2.
    destruct (vision_encode row) as [[msg|input]|e] eqn:Henc; [|exfalso|done].
    + injection Hrow as <-. repeat split.
      * constructor; [|done]. unfold unreadable. by rewrite Henc.
      * cbn [length]. lia.
    + destruct (classify_without_topk_raises Vision (model P) input req i1 i0 n Hn)
        as [e He].
      cbn [classify] in He. congruence.
  - intros res Hout.
    apply text_filter_returns in Hout as (req & i1 & i0 & _ & Hdec).
    destruct Hdec as [|row b rows bs Hrow _]; [done|]. exfalso.
    unfold decision in Hrow.
    destruct (text_encode P caption_column prompt row) as [[msg|input]|e] eqn:Henc;
      [|exfalso|done].
    + unfold text_encode in Henc.
      by destruct (text_sample P caption_column prompt row).
    + destruct (classify_without_topk_raises Text (model P) input req i1 i0 n Hn)
        as [e He].
      cbn [classify] in He. congruence.
Qed.

(** A run is given up before its first row exactly when the prelude
    raises: for the threshold [1] (a division by zero) or, for any other
    threshold, when the tokenizer yields no token for "1" or for "0" (an
    [IndexError]).  The driver then raises that exception having
    processed, printed and written nothing. *)
Theorem prelude_failures (threshold : R) (e : exn) :
  (prelude P threshold = Raise e ↔
   (threshold = 1%R ∧ e = ZeroDivisionError)
   ∨ (threshold ≠ 1%R ∧ e = IndexError
      ∧ (tokenize P "1" = [] ∨ tokenize P "0" = [])))
  ∧ (prelude P threshold = Raise e →
     vision_filter P metadata caption_column image_column prompt output_path
       has_header delim save_every max_steps topk keep_corrupted files0 threshold
     = {| outcome := Raise e; final := initial_state files0 |}
     ∧ text_filter P metadata caption_column prompt output_path has_header delim
         save_every max_steps topk files0 threshold
       = {| outcome := Raise e; final := initial_state files0 |}).
Proof.
  split.
  - unfold prelude, first_token_id.
    destruct (Req_dec_T threshold 1) as [->|Hne].
    + rewrite req_logit_diff_one. cbn. split.
      * intros [= <-]. by left.
      * intros [[_ ->]|[Hne _]]; [done|by destruct Hne].
    + rewrite req_logit_diff_not_one by done. cbn. split.
      * destruct (tokenize P "1") as [|t1 ?]; cbn.
        { intros [= <-]. right. eauto. }
        destruct (tokenize P "0") as [|t0 ?]; cbn; [|discriminate].
        intros [= <-]. right. eauto.
      * intros [[-> _]|(_ & -> & Htok)]; [done|].
        destruct (tokenize P "1") as [|t1 ?]; cbn; [done|].
        destruct Htok as [Htok|Htok]; [done|]. by rewrite Htok.
  - intros Hpre. unfold vision_filter, text_filter. by rewrite Hpre.
Qed.
End DefaultsAndAborts.

Section Sharding.
Variable P : Provider.
Variables (caption_column image_column : option string).
Variables (prompt : string).
Variables (max_steps topk : option Z) (keep_corrupted : bool).

Local Abbreviation vision_encode := (vision_sample P caption_column image_column prompt).

(** The decisions do not depend on how the dataset is cut up.  With
    checkpoints disabled (an interval of [None] or [0]), the vision driver
    returns on a dataset made of two parts exactly when it returns on each
    part, whatever the output path, delimiter, header and earlier files of
    each of the three runs; what it returns is then the results of the
    first part followed by those of the second, with the sum of their
    counts. *)
Theorem results_of_parts_concatenate (columns : list string)
    (rows1 rows2 : list (gmap string string))
    (out out1 out2 : string) (hdr hdr1 hdr2 : bool) (delim delim1 delim2 : string)
    (every every1 every2 : option Z) (files files1 files2 : gmap string CsvFile)
    (threshold : R) (res : list bool) (cnt : Z) :
  py_truthy every = false → py_truthy every1 = false → py_truthy every2 = false →
  outcome (vision_filter P {| df_columns := columns; df_rows := rows1 ++ rows2 |}
             caption_column image_column prompt out hdr delim every max_steps
             topk keep_corrupted files threshold) = Ok (res, cnt)
  ↔ ∃ res1 cnt1 res2 cnt2,
      outcome (vision_filter P {| df_columns := columns; df_rows := rows1 |}
                 caption_column image_column prompt out1 hdr1 delim1 every1
                 max_steps topk keep_corrupted files1 threshold) = Ok (res1, cnt1)
      ∧ outcome (vision_filter P {| df_columns := columns; df_rows := rows2 |}
                   caption_column image_column prompt out2 hdr2 delim2 every2
                   max_steps topk keep_corrupted files2 threshold) = Ok (res2, cnt2)
      ∧ res = res1 ++ res2 ∧ cnt = cnt1 + cnt2.
Proof.
  intros _ _ _. split.
  - intros Hout.
    apply vision_filter_returns in Hout as (req & i1 & i0 & Hpre & Hdec & ->).
    cbn [df_rows] in *.
    apply Forall2_app_inv_l in Hdec as (res1 & res2 & Hdec1 & Hdec2 & ->).
    eexists res1, _, res2, _. split; [|split; [|split; [reflexivity|]]].
    + apply vision_filter_returns. exists req, i1, i0. by cbn [df_rows].
    + apply vision_filter_returns. exists req, i1, i0. by cbn [df_rows].
    + rewrite List.filter_app, length_app. lia.
  - intros (res1 & cnt1 & res2 & cnt2 & Hout1 & Hout2 & -> & ->).
    apply vision_filter_returns in Hout1 as (req & i1 & i0 & Hpre & Hdec1 & ->).
    apply vision_filter_returns in Hout2 as (req' & i1' & i0' & Hpre' & Hdec2 & ->).
    rewrite Hpre in Hpre'. injection Hpre' as <- <- <-.
    cbn [df_rows] in *.
    apply vision_filter_returns. exists req, i1, i0. cbn [df_rows].
    split; [done|]. split; [by apply Forall2_app|].
    rewrite List.filter_app, length_app. lia.
Qed.
End Sharding.

Section TextPasses.
Variable P : Provider.
Variable metadata : DataFrame.
Variables (caption_column : option string).
Variables (prompt output_path : string) (has_header : bool) (delim : string).
Variables (save_every max_steps topk : option Z).
Variable files0 : gmap string CsvFile.

(** The text driver never decodes past the first pass: with a step bound
    that is positive or disabled, every call of the classifier makes
    exactly one forward pass, so that the forward passes of a run number
    its classifier calls, whether the run returns or raises. *)
Theorem text_driver_one_pass_per_call (threshold : R) :
  bound_ok max_steps →
  forward_passes (final (text_filter P metadata caption_column prompt
                           output_path has_header delim save_every max_steps
                           topk files0 threshold))
  = classifier_calls (final (text_filter P metadata caption_column prompt
                               output_path has_header delim save_every
                               max_steps topk files0 threshold)).
Proof.
  intros Hbound.
  destruct (text_filter_final P metadata caption_column prompt output_path
              has_header delim save_every max_steps topk files0 threshold)
    as [->|(req & i1 & i0 & o & Hrun)]; [done|].
  eapply (for_rows_invariant _ (fun st => forward_passes st = classifier_calls st))
    with (st := initial_state files0); [|reflexivity|exact Hrun].
  intros st row st' o' Hst Hbody.
  destruct (filter_row_calls _ _ _ _ _ _ _ _ _ _ _ _ Hbody)
    as [[-> ->]|(input & Henc & -> & ->)]; [done|].
  destruct (text_encode_tensor _ _ _ _ _ Henc) as [t ->].
  rewrite text_classify_tensor_passes by done. lia.
Qed.
End TextPasses.

Lemma text_driver_one_pass_per_call_witness :
  forward_passes (final (text_filter demo_provider
                           (demo_frame [demo_row "a cat" "cat.jpg"])
                           (Some "caption"%string) "Is this caption right? "
                           "out.tsv" true tab None (Some 3) (Some 1) ∅ 2))
  = classifier_calls (final (text_filter demo_provider
                               (demo_frame [demo_row "a cat" "cat.jpg"])
                               (Some "caption"%string) "Is this caption right? "
                               "out.tsv" true tab None (Some 3) (Some 1) ∅ 2)).
Proof.
  exact (text_driver_one_pass_per_call demo_provider
           (demo_frame [demo_row "a cat" "cat.jpg"]) (Some "caption"%string)
           "Is this caption right? " "out.tsv" true tab None (Some 3) (Some 1) ∅
           2 ltac:(cbn; lia)).
Defined.

Section CheckpointLag.
Variable P : Provider.
Variable metadata : DataFrame.
Variables (caption_column image_column : option string).
Variables (prompt output_path : string) (has_header : bool) (delim : string).
Variables (max_steps topk : option Z) (keep_corrupted : bool).
Variable files0 : gmap string CsvFile.

(** The checkpoint file never holds the whole result.  When the vision
    driver returns from a dataset that is not empty, with an interval
    [k > 0], the file at the output path covers a prefix of the results
    that is at least one row and at most [k] rows short of the dataset;
    on a dataset of at most [k] rows nothing was written at all. *)
Theorem checkpoint_lags_behind (k : Z) (threshold : R) (res : list bool) (cnt : Z) :
  0 < k →
  df_rows metadata ≠ [] →
  let run :=
    vision_filter P metadata caption_column image_column prompt output_path
      has_header delim (Some k) max_steps topk keep_corrupted files0 threshold in
  outcome run = Ok (res, cnt) →
  ∃ covered : nat,
    (covered < length (df_rows metadata))%nat
    ∧ Z.of_nat (length (df_rows metadata)) ≤ Z.of_nat covered + k
    ∧ files (final run)
      = match covered with
        | O => files0
        | S _ => <[output_path := checkpoint metadata has_header delim
                                    (take covered res)]> files0
        end
    ∧ (Z.of_nat (length (df_rows metadata)) ≤ k → files (final run) = files0).
Proof.
  intros Hk Hrows. cbn zeta. unfold vision_filter.
  destruct (prelude P threshold) as [[[req i1] i0]|]; [|discriminate].
  destruct (for_rows _ _ _) as [st' [e|]] eqn:Hrun; [discriminate|].
  cbn. intros [= <- <-].
  destruct (for_rows_checkpoints metadata output_path has_header delim
              keep_corrupted (vision_sample P caption_column image_column prompt)
              (fun input => vision_classify (model P) input req i1 i0
                              max_steps topk)
              files0 k Hk (df_rows metadata) [] (initial_state files0) st' None
              eq_refl (initial_state_inv _ _ _ _ _ _ Hk) Hrun) as [_ Hinv].
  destruct (Hinv eq_refl)
    as (Hlen & q & r & Hn & Hr & Hpos & _ & _ & _ & Hfiles).
  assert (1 ≤ r)%nat as Hr1.
  { apply Hpos. by destruct (df_rows metadata). }
  exists (q * Z.to_nat k)%nat. split; [lia|]. split; [lia|]. split.
  - rewrite Hfiles. destruct q as [|q]; [done|].
    destruct (S q * Z.to_nat k)%nat eqn:Hcov; [lia|done].
  - intros Hshort. rewrite Hfiles. destruct q as [|q]; [done|]. nia.
Qed.
End CheckpointLag.

(** ** The rows of a checkpoint *)

Lemma mask_rows_sublist {A : Type} (l : list A) (mask : list bool) :
  mask_rows l mask `sublist_of` l.
Proof.
  revert mask. induction l as [|x l IH]; intros [|b mask]; cbn;
    try apply sublist_nil_l.
  destruct b; [by apply sublist_skip|by apply sublist_cons].
Qed.

Lemma mask_rows_length {A : Type} (l : list A) (mask : list bool) :
  (length mask ≤ length l)%nat →
  length (mask_rows l mask) = length (List.filter (fun b => b) mask).
Proof.
  revert mask. induction l as [|x l IH]; intros [|b mask] Hlen; cbn in *;
    try done; try lia.
  destruct b; cbn; rewrite IH by lia; reflexivity.
Qed.

Lemma mask_rows_elem {A : Type} (l : list A) (mask : list bool) (x : A) :
  x ∈ mask_rows l mask ↔ ∃ i, l !! i = Some x ∧ mask !! i = Some true.
Proof.
  revert mask. induction l as [|y l IH]; intros [|b mask]; cbn.
  - split; [by intros ?%elem_of_nil|by intros (i & ? & ?)].
  - split; [by intros ?%elem_of_nil|by intros (i & ? & ?)].
  - split; [by intros ?%elem_of_nil|by intros (i & ? & ?)].
  - destruct b.
    + rewrite elem_of_cons, IH. split.
      * intros [->|(i & Hl & Hm)]; [by exists O|by exists (S i)].
      * intros ([|i] & Hl & Hm); cbn in *; [left; congruence|right; eauto].
    + rewrite IH. split.
      * intros (i & Hl & Hm). by exists (S i).
      * intros ([|i] & Hl & Hm); cbn in *; [congruence|eauto].
Qed.

(** The file of a checkpoint, read against the dataset.  Its rows are
    rows of the dataset in dataset order, none added and none repeated
    (a sublist); a row is among them exactly when some position holds it
    in the dataset and [true] in the results; and, the results being no
    longer than the dataset, there are as many rows as [true] results.
    The columns, the delimiter and the header flag are the configured
    ones. *)
Theorem checkpoint_rows (metadata : DataFrame) (has_header : bool)
    (delim : string) (kept : list bool) :
  (length kept ≤ length (df_rows metadata))%nat →
  let file := checkpoint metadata has_header delim kept in
  df_rows (csv_frame file) `sublist_of` df_rows metadata
  ∧ (∀ row, row ∈ df_rows (csv_frame file)
            ↔ ∃ i, df_rows metadata !! i = Some row ∧ kept !! i = Some true)
  ∧ length (df_rows (csv_frame file)) = length (List.filter (fun b => b) kept)
  ∧ df_columns (csv_frame file) = df_columns metadata
  ∧ csv_sep file = delim ∧ csv_header file = has_header.
Proof.
  intros Hlen. cbn. split; [apply mask_rows_sublist|].
  split; [intros row; apply mask_rows_elem|].
  split; [by apply mask_rows_length|done].
Qed.

Lemma checkpoint_rows_witness :
  length (df_rows (csv_frame
            (checkpoint (demo_frame [demo_row "a cat" "cat.jpg";
                                     demo_row "a dog" "missing.jpg"])
               true tab [false; true])))
  = length (List.filter (fun b => b) [false; true]).
Proof.
  exact (proj1 (proj2 (proj2
    (checkpoint_rows (demo_frame [demo_row "a cat" "cat.jpg";
                                  demo_row "a dog" "missing.jpg"])
       true tab [false; true] ltac:(cbn; lia))))).
Defined.

(** * Loading the model *)

Lemma string_drop_append (p s : string) :
  string_drop (String.length p) (p +:+ s) = s.
Proof. induction p as [|c p IH]; [by destruct s|exact IH]. Qed.

Lemma string_length_append (p s : string) :
  String.length (p +:+ s) = (String.length p + String.length s)%nat.
Proof. induction p as [|c p IH]; [done|]. simpl. by f_equal. Qed.

Lemma string_drop_suffix (n : nat) (s : string) :
  ∃ p, s = p +:+ string_drop n s.
Proof.
  revert s. induction n as [|n IH]; intros s.
  - exists ""%string. by destruct s.
  - destruct s as [|c s]; [by exists ""%string|].
    destruct (IH s) as [p Hp]. exists (String c p).
    change (String c s = String c (p +:+ string_drop n s)). by f_equal.
Qed.

(** The test [hf_token[-4:] == ".env"] holds of the strings that end in
    [".env"], the string [".env"] itself included. *)
Lemma last_four_env (s : string) :
  last_four s = ".env"%string ↔ ∃ p, s = p +:+ ".env"%string.
Proof.
  unfold last_four. split.
  - intros Hlast. destruct (string_drop_suffix (String.length s - 4) s) as [p Hp].
    exists p. by rewrite <- Hlast.
  - intros [p ->]. rewrite string_length_append. cbn [String.length].
    replace (String.length p + 4 - 4)%nat with (String.length p) by lia.
    apply string_drop_append.
Qed.

(** [get_model] logs in once, before it loads anything, and never with
    the name of a [.env] file.  For an argument that ends in [".env"] it
    has [dotenv] load that file and logs in with the [HF_TOKEN] of the
    environment as it is afterwards (with nothing, should the variable be
    unset); for any other argument, shorter than four characters or not,
    it logs in with the argument itself and leaves the environment alone.
    What is loaded next depends on the [vision] flag alone. *)
Theorem get_model_login
    (load_dotenv : string → gmap string string → gmap string string)
    (environ : gmap string string) (token_or_env : string) (vision : bool) :
  let loads :=
    if vision
    then
      [ProcessorFromPretrained "AutoProcessor"
         "meta-llama/Llama-3.2-11B-Vision-Instruct";
       ModelFromPretrained "MllamaForConditionalGeneration"
         "meta-llama/Llama-3.2-11B-Vision-Instruct" "torch.bfloat16" "auto"]
    else
      [ProcessorFromPretrained "AutoTokenizer" "meta-llama/Llama-3.1-8B-Instruct";
       ModelFromPretrained "AutoModelForCausalLM"
         "meta-llama/Llama-3.1-8B-Instruct" "torch.bfloat16" "auto"] in
  ((∃ p, token_or_env = p +:+ ".env"%string) →
   get_model load_dotenv environ token_or_env vision
   = ([LoadDotenv token_or_env;
       Login (load_dotenv token_or_env environ !! "HF_TOKEN"%string)]
      ++ loads,
      load_dotenv token_or_env environ))
  ∧ ((∀ p, token_or_env ≠ p +:+ ".env"%string) →
     get_model load_dotenv environ token_or_env vision
     = ([Login (Some token_or_env)] ++ loads, environ)).
Proof.
  cbn zeta. split.
  - intros Hends%last_four_env. unfold get_model.
    by rewrite bool_decide_eq_true_2.
  - intros Hother. unfold get_model. rewrite bool_decide_eq_false_2; [done|].
    intros [p Hp]%last_four_env. by apply (Hother p).
Qed.

Example get_model_short_token :
  (get_model (fun _ env => env) ∅ "env" false).1
  = [Login (Some "env"%string);
     ProcessorFromPretrained "AutoTokenizer" "meta-llama/Llama-3.1-8B-Instruct";
     ModelFromPretrained "AutoModelForCausalLM" "meta-llama/Llama-3.1-8B-Instruct"
       "torch.bfloat16" "auto"].
Proof. reflexivity. Qed.

(** ** Further sample runs *)

Lemma get_model_login_witness :
  get_model (fun _ env => <["HF_TOKEN"%string := "hf_abc"%string]> env) ∅
    "secrets.env" true
  = ([LoadDotenv "secrets.env"; Login (Some "hf_abc"%string);
      ProcessorFromPretrained "AutoProcessor"
        "meta-llama/Llama-3.2-11B-Vision-Instruct";
      ModelFromPretrained "MllamaForConditionalGeneration"
        "meta-llama/Llama-3.2-11B-Vision-Instruct" "torch.bfloat16" "auto"],
     <["HF_TOKEN"%string := "hf_abc"%string]> ∅).
Proof.
  exact (proj1 (get_model_login
                  (fun _ env => <["HF_TOKEN"%string := "hf_abc"%string]> env) ∅
                  "secrets.env" true)
           (ex_intro _ "secrets"%string eq_refl)).
Defined.

Lemma disabled_checkpoints_write_nothing_witness :
  files (final (demo_vision_filter [demo_row "a dog" "missing.jpg"] None true 2))
  = ∅.
Proof.
  exact (proj1 (proj1
    (disabled_checkpoints_write_nothing demo_provider
       (demo_frame [demo_row "a dog" "missing.jpg"]) (Some "caption"%string)
       (Some "image"%string) "Is this caption right? " "out.tsv" true tab None
       None None true ∅ 2 eq_refl))).
Defined.

Lemma only_output_path_written_witness :
  files (final (demo_vision_filter [demo_row "a dog" "missing.jpg"] (Some 1)
                  true 2)) !! "other.tsv"%string
  = (∅ : gmap string CsvFile) !! "other.tsv"%string.
Proof.
  exact (proj1
    (only_output_path_written demo_provider
       (demo_frame [demo_row "a dog" "missing.jpg"]) (Some "caption"%string)
       (Some "image"%string) "Is this caption right? " "out.tsv" true tab
       (Some 1) None None true ∅ 2 "other.tsv" ltac:(done))).
Defined.

Lemma demo_missing_run :
  outcome (vision_filter demo_provider
             (demo_frame [demo_row "a dog" "missing.jpg"])
             (Some "caption"%string) (Some "image"%string)
             "Is this caption right? " "out.tsv" true tab None (Some 10) None
             true ∅ 2)
  = Ok ([true], 1).
Proof.
  rewrite (vision_filter_after_prelude _ _ _ _ _ _ _ _ _ _ _ _ _ _ _ _ _
             demo_prelude_two).
  by vm_compute.
Qed.

Lemma default_topk_classifies_nothing_witness :
  [true] = replicate (length [demo_row "a dog" "missing.jpg"]) true
  ∧ 1 = Z.of_nat (length [demo_row "a dog" "missing.jpg"]).
Proof.
  exact (proj2 (proj1
    (default_topk_classifies_nothing demo_provider
       (demo_frame [demo_row "a dog" "missing.jpg"]) (Some "caption"%string)
       (Some "image"%string) "Is this caption right? " "out.tsv" true tab None
       true ∅ 10 2 ltac:(lia)) [true] 1 demo_missing_run)).
Defined.

Lemma demo_checkpointed_run :
  outcome (demo_vision_filter
             [demo_row "a cat" "cat.jpg"; demo_row "a dog" "missing.jpg"]
             (Some 1) true (1 / 2))
  = Ok ([true; true], 1).
Proof.
  apply vision_filter_returns. exists (Fin 0), 1, 2.
  split; [exact demo_prelude_half|]. split; [exact demo_decisions|reflexivity].
Qed.

(** A run over three rows with a checkpoint every two: the first row
    is kept by the classifier, the second, whose image is missing, is
    dropped ([keep_corrupted] is false), and the third is kept. *)
Lemma demo_decisions_mixed :
  Forall2
    (fun row b =>
       decision false
         (vision_sample demo_provider (Some "caption"%string)
            (Some "image"%string) "Is this caption right? ")
         (fun input => vision_classify (model demo_provider) input (Fin 0) 1 2
                         None None) row = Ok b)
    [demo_row "a cat" "cat.jpg"; demo_row "a dog" "missing.jpg";
     demo_row "a cow" "cow.jpg"] [true; false; true].
Proof.
  repeat constructor;
    change (run_outcome (classify Vision demo_model_tie demo_input (Fin 0) 1 2
                           None None) = Ok true);
    by rewrite demo_tie_run.
Qed.

Lemma demo_mixed_run :
  outcome (demo_vision_filter
             [demo_row "a cat" "cat.jpg"; demo_row "a dog" "missing.jpg";
              demo_row "a cow" "cow.jpg"] (Some 2) false (1 / 2))
  = Ok ([true; false; true], 1).
Proof.
  apply vision_filter_returns. exists (Fin 0), 1, 2.
  split; [exact demo_prelude_half|].
  split; [exact demo_decisions_mixed|reflexivity].
Qed.

Lemma checkpoint_holds_kept_rows_witness :
  files (final (demo_vision_filter
                  [demo_row "a cat" "cat.jpg"; demo_row "a dog" "missing.jpg";
                   demo_row "a cow" "cow.jpg"] (Some 2) false (1 / 2)))
  = <["out.tsv"%string :=
        {| csv_frame := {| df_columns := ["caption"; "image"]%string;
                           df_rows := [demo_row "a cat" "cat.jpg"] |};
           csv_sep := tab; csv_header := true |}]> ∅.
Proof.
  destruct (proj1 (proj2 (proj2
              (checkpoint_holds_kept_rows demo_provider
                 (demo_frame [demo_row "a cat" "cat.jpg";
                              demo_row "a dog" "missing.jpg";
                              demo_row "a cow" "cow.jpg"])
                 (Some "caption"%string) (Some "image"%string)
                 "Is this caption right? " "out.tsv" true tab None None false ∅
                 2 (1 / 2) ltac:(lia)))) [true; false; true] 1 demo_mixed_run)
    as (q & r & Hn & Hr & Hpos & _ & Hfiles).
  cbn in Hn, Hr, Hpos. specialize (Hpos ltac:(done)).
  assert (q = 1%nat) as -> by lia.
  exact Hfiles.
Defined.

Lemma demo_two_parts_run :
  outcome (vision_filter demo_provider
             {| df_columns := ["caption"; "image"]%string;
                df_rows := [demo_row "a cat" "cat.jpg"]
                           ++ [demo_row "a dog" "missing.jpg"] |}
             (Some "caption"%string) (Some "image"%string)
             "Is this caption right? " "out.tsv" true tab None None None true ∅
             (1 / 2))
  = Ok ([true; true], 1).
Proof.
  apply vision_filter_returns. exists (Fin 0), 1, 2.
  split; [exact demo_prelude_half|]. split; [exact demo_decisions|reflexivity].
Qed.

Lemma results_of_parts_concatenate_witness :
  ∃ res1 cnt1 res2 cnt2,
    outcome (vision_filter demo_provider
               {| df_columns := ["caption"; "image"]%string;
                  df_rows := [demo_row "a cat" "cat.jpg"] |}
               (Some "caption"%string) (Some "image"%string)
               "Is this caption right? " "first.tsv" true tab None None None
               true ∅ (1 / 2)) = Ok (res1, cnt1)
    ∧ outcome (vision_filter demo_provider
                 {| df_columns := ["caption"; "image"]%string;
                    df_rows := [demo_row "a dog" "missing.jpg"] |}
                 (Some "caption"%string) (Some "image"%string)
                 "Is this caption right? " "second.tsv" false "," (Some 0) None
                 None true ∅ (1 / 2)) = Ok (res2, cnt2)
    ∧ [true; true] = res1 ++ res2 ∧ 1 = cnt1 + cnt2.
Proof.
  exact (proj1 (results_of_parts_concatenate demo_provider
                  (Some "caption"%string) (Some "image"%string)
                  "Is this caption right? " None None true
                  ["caption"; "image"]%string [demo_row "a cat" "cat.jpg"]
                  [demo_row "a dog" "missing.jpg"] "out.tsv" "first.tsv"
                  "second.tsv" true true false tab tab "," None None (Some 0)
                  ∅ ∅ ∅ (1 / 2) [true; true] 1 eq_refl eq_refl eq_refl)
           demo_two_parts_run).
Defined.

Lemma checkpoint_lags_behind_witness :
  ∃ covered : nat,
    (covered < 2)%nat ∧ 2 ≤ Z.of_nat covered + 1.
Proof.
  destruct (checkpoint_lags_behind demo_provider
              (demo_frame [demo_row "a cat" "cat.jpg";
                           demo_row "a dog" "missing.jpg"])
              (Some "caption"%string) (Some "image"%string)
              "Is this caption right? " "out.tsv" true tab None None true ∅
              1 (1 / 2) [true; true] 1 ltac:(lia) ltac:(done)
              demo_checkpointed_run) as (covered & Hlt & Hle & _).
  by exists covered.
Defined.

(** * What a run prints *)

Lemma classify_loop_stdout {V : Type} `{Scalar V}
    (call : PyInput → result (list V)) (append : PyInput → Z → PyInput * option exn)
    req id_1 id_0 max_steps topk :
  ∀ steps input passes,
    let r := classify_loop call append req id_1 id_0 max_steps topk steps input
               passes in
    run_stdout r = []
    ∨ (run_stdout r = [ReachedLimit max_steps] ∧ run_outcome r = Ok true).
Proof.
  induction steps as [|steps IH]; intros input passes; cbn [classify_loop].
  - right. by cbn.
  - destruct (call input) as [logits|e]; [|by left].
    destruct (iteration_body _ _ _ _ _ _ input logits) as [input'|r input'];
      [apply IH|by left].
Qed.

(** The classifier prints at most one line, the one saying that the
    attempt limit was reached, and then it returns [true]. *)
Lemma classify_stdout {V : Type} `{Scalar V} mode (model : PyInput → list V)
    input req id_1 id_0 max_steps topk :
  run_stdout (classify mode model input req id_1 id_0 max_steps topk) = []
  ∨ (run_stdout (classify mode model input req id_1 id_0 max_steps topk)
     = [ReachedLimit max_steps]
     ∧ run_outcome (classify mode model input req id_1 id_0 max_steps topk)
       = Ok true).
Proof.
  destruct mode; cbn [classify]; unfold vision_classify, text_classify,
    classify_with.
  - destruct (vision_device input); [|by left].
    destruct (classify_loop_stdout (call_unpacked model) vision_append req id_1
                id_0 max_steps topk (Z.to_nat (steps_of max_steps)) input O)
      as [?|?]; eauto.
  - destruct (text_device input); [|by left].
    destruct (classify_loop_stdout (call_positional model) text_append req id_1
                id_0 max_steps topk (Z.to_nat (steps_of max_steps)) input O)
      as [?|?]; eauto.
Qed.

Lemma vision_sample_unreadable_msg P caption_column image_column prompt row msg :
  vision_sample P caption_column image_column prompt row = Ok (Unreadable msg) →
  is_skip_msg msg = true.
Proof.
  unfold vision_sample.
  destruct (vision_prompt P caption_column prompt row) as [text|]; [|discriminate].
  cbn. destruct (getattr P row image_column) as [path|]; [|discriminate]. cbn.
  destruct (encode_image P path _) as [input|[]]; try discriminate;
    by intros [= <-].
Qed.

Section Reports.
Variable P : Provider.
Variable metadata : DataFrame.
Variables (caption_column image_column : option string).
Variables (prompt output_path : string) (has_header : bool) (delim : string).
Variables (save_every max_steps topk : option Z) (keep_corrupted : bool).
Variable files0 : gmap string CsvFile.

(** Every event of a run of the vision driver is reported, and nothing
    else is.  Whether the run returns or raises, the lines about a
    missing or corrupted image number the rows counted as such, the lines
    about a saved temporary dataset number the calls of [to_csv], the
    lines about the attempt limit number at most the calls of the
    classifier, and no other line is printed. *)
Theorem vision_reports_match_events (threshold : R) :
  let st :=
    final (vision_filter P metadata caption_column image_column prompt
             output_path has_header delim save_every max_steps topk
             keep_corrupted files0 threshold) in
  missing_or_corrupted st
  = Z.of_nat (length (List.filter is_skip_msg (stdout st)))
  ∧ length (to_csv_calls st) = length (List.filter is_save_msg (stdout st))
  ∧ (length (List.filter is_limit_msg (stdout st)) ≤ classifier_calls st)%nat
  ∧ length (stdout st)
    = (length (List.filter is_skip_msg (stdout st))
       + length (List.filter is_save_msg (stdout st))
       + length (List.filter is_limit_msg (stdout st)))%nat.
Proof.
  cbn zeta.
  destruct (vision_filter_final P metadata caption_column image_column prompt
              output_path has_header delim save_every max_steps topk
              keep_corrupted files0 threshold)
    as [->|(req & i1 & i0 & o & Hrun)]; [by cbn|].
  eapply (for_rows_invariant _
            (fun st =>
               missing_or_corrupted st
               = Z.of_nat (length (List.filter is_skip_msg (stdout st)))
               ∧ length (to_csv_calls st)
                 = length (List.filter is_save_msg (stdout st))
               ∧ (length (List.filter is_limit_msg (stdout st))
                  ≤ classifier_calls st)%nat
               ∧ length (stdout st)
                 = (length (List.filter is_skip_msg (stdout st))
                    + length (List.filter is_save_msg (stdout st))
                    + length (List.filter is_limit_msg (stdout st)))%nat))
    with (st := initial_state files0); [|by cbn|exact Hrun].
  clear Hrun. intros st row st' o' (Hskip & Hsave & Hlimit & Hall).
  assert (∀ st1 : FilterState,
            missing_or_corrupted st1
            = Z.of_nat (length (List.filter is_skip_msg (stdout st1)))
            ∧ length (to_csv_calls st1)
              = length (List.filter is_save_msg (stdout st1))
            ∧ (length (List.filter is_limit_msg (stdout st1))
               ≤ classifier_calls st1)%nat
            ∧ length (stdout st1)
              = (length (List.filter is_skip_msg (stdout st1))
                 + length (List.filter is_save_msg (stdout st1))
                 + length (List.filter is_limit_msg (stdout st1)))%nat →
            match vision_sample P caption_column image_column prompt row with
            | Raise e => (count_row st1, Some e)
            | Ok (Unreadable msg) =>
                (record_corrupted keep_corrupted (count_row st1) msg, None)
            | Ok (Encoded input) =>
                record_classified (count_row st1)
                  (vision_classify (model P) input req i1 i0 max_steps topk)
            end = (st', o') →
            missing_or_corrupted st'
            = Z.of_nat (length (List.filter is_skip_msg (stdout st')))
            ∧ length (to_csv_calls st')
              = length (List.filter is_save_msg (stdout st'))
            ∧ (length (List.filter is_limit_msg (stdout st'))
               ≤ classifier_calls st')%nat
            ∧ length (stdout st')
              = (length (List.filter is_skip_msg (stdout st'))
                 + length (List.filter is_save_msg (stdout st'))
                 + length (List.filter is_limit_msg (stdout st')))%nat) as Hrow.
  { intros st1 (Hskip1 & Hsave1 & Hlimit1 & Hall1).
    destruct (vision_sample P caption_column image_column prompt row)
      as [[msg|input]|e] eqn:Henc.
    - apply vision_sample_unreadable_msg in Henc.
      intros [= <- <-]. cbn. rewrite !List.filter_app, !length_app. cbn.
      rewrite Henc. destruct msg; try discriminate; cbn; lia.
    - unfold record_classified.
      destruct (classify_stdout Vision (model P) input req i1 i0 max_steps topk)
        as [Hstd|[Hstd _]]; cbn [classify] in Hstd;
        destruct (run_outcome (vision_classify _ _ _ _ _ _ _));
        intros [= <- <-]; cbn; rewrite Hstd, ?app_nil_r,
          ?List.filter_app, ?length_app; cbn; lia.
    - intros [= <- <-]. by cbn. }
  unfold filter_row, safety_saving.
  destruct (py_truthy save_every && _).
  - destruct (getitem_mask _ _) as [frame|e]; cbn [mbind result_bind].
    + apply Hrow. cbn. rewrite !List.filter_app, !length_app. cbn. lia.
    + intros [= <- <-]. done.
  - by apply Hrow.
Qed.
End Reports.

(** * The caption column *)

(** [getattr] on rows of the sample frame and of frames whose labels
    [itertuples] renames. *)
Example getattr_examples :
  getattr demo_provider (demo_row "a cat" "cat.jpg") (Some "image"%string)
  = Ok (Cell "cat.jpg")
  ∧ getattr demo_provider (<["image path"%string := "cat.jpg"%string]> ∅)
      (Some "image path"%string) = Raise AttributeError
  ∧ getattr demo_provider (<["_1"%string := "cat.jpg"%string]> ∅)
      (Some "_1"%string) = Ok (Cell "cat.jpg")
  ∧ getattr demo_provider (<["class"%string := "cat"%string]> ∅)
      (Some "class"%string) = Raise AttributeError
  ∧ getattr demo_provider (demo_row "a cat" "cat.jpg") (Some "count"%string)
    = Ok (TupleAttr "count")
  ∧ getattr demo_provider (<["count"%string := "3"%string]> ∅)
      (Some "count"%string) = Ok (Cell "3")
  ∧ getattr demo_provider (demo_row "a cat" "cat.jpg") (Some "_fields"%string)
    = Ok (TupleAttr "_fields")
  ∧ getattr demo_provider (demo_row "a cat" "cat.jpg") (Some "label"%string)
    = Raise AttributeError
  ∧ getattr demo_provider (demo_row "a cat" "cat.jpg") None = Raise TypeError.
Proof. repeat split. Qed.

(** Captions are optional for the vision driver and required by the text
    driver.  Without a caption column ([None] or the empty string) the
    vision driver uses the prompt as it is and reads nothing but the image
    attribute of a row: rows that agree on it are encoded alike, a caption
    cell or not.  With a caption column for which [getattr] raises
    [AttributeError], both drivers raise it, the vision driver before the
    image is opened; that is so for a name with no leading underscore,
    other than [count] and [index], that the row has no field for or that
    cannot name a field at all (a label that is not an identifier, or a
    keyword).  For [count] and [index] on a row without such a field
    [getattr] does not raise: it returns the method of tuples.  The text
    driver, which has no option of going without captions, raises
    [TypeError] on every row when the column is [None]. *)
Theorem caption_column_is_optional_for_vision (P : Provider)
    (caption_column image_column : option string) (prompt : string)
    (row : gmap string string) :
  (py_truthy_str caption_column = false →
   vision_prompt P caption_column prompt row = Ok prompt
   ∧ ∀ row', getattr P row' image_column = getattr P row image_column →
       vision_sample P caption_column image_column prompt row'
       = vision_sample P caption_column image_column prompt row)
  ∧ (∀ c, caption_column = Some c → c ≠ ""%string →
       getattr P row (Some c) = Raise AttributeError →
       vision_sample P caption_column image_column prompt row
       = Raise AttributeError
       ∧ text_sample P caption_column prompt row = Raise AttributeError)
  ∧ (∀ c, starts_with_underscore c = false →
       c ≠ "count"%string → c ≠ "index"%string →
       row !! c = None ∨ field_name c = false →
       getattr P row (Some c) = Raise AttributeError)
  ∧ (∀ c, c = "count"%string ∨ c = "index"%string → row !! c = None →
       getattr P row (Some c) = Ok (TupleAttr c))
  ∧ (caption_column = None →
     text_sample P caption_column prompt row = Raise TypeError).
Proof.
  split; [|split; [|split; [|split]]].
  - intros Hfalsy. unfold vision_sample, vision_prompt. rewrite Hfalsy.
    split; [done|]. intros row' Hsame. cbn. by rewrite Hsame.
  - intros c -> Hc Hrow. unfold vision_sample, vision_prompt, text_sample.
    cbn [py_truthy_str]. rewrite bool_decide_eq_false_2 by done.
    cbn [negb]. by rewrite Hrow.
  - intros c Hunder Hcount Hindex Hfield. unfold getattr.
    assert ((if field_name c then row !! c else None) = None) as ->.
    { destruct Hfield as [-> | ->]; [by destruct (field_name c)|done]. }
    rewrite Hunder, !bool_decide_eq_false_2 by done. reflexivity.
  - intros c Hc Hrow. unfold getattr. rewrite Hrow.
    assert ((if field_name c then None else None) = @None string) as ->
      by by destruct (field_name c).
    by destruct Hc as [-> | ->].
  - by intros ->.
Qed.

Lemma caption_column_is_optional_for_vision_witness :
  vision_sample demo_provider None (Some "image"%string) "Is this a cat?"
    (<["image"%string := "cat.jpg"%string]> ∅)
  = vision_sample demo_provider None (Some "image"%string) "Is this a cat?"
      (demo_row "a cat" "cat.jpg").
Proof.
  exact (proj2 (proj1 (caption_column_is_optional_for_vision demo_provider None
                         (Some "image"%string) "Is this a cat?"
                         (demo_row "a cat" "cat.jpg")) eq_refl)
           (<["image"%string := "cat.jpg"%string]> ∅) ltac:(by vm_compute)).
Defined.
